(** * saas_finder: extraction, scoring and acquisition, verified against the sources

    A shallow embedding of

    - [saas_finder/extractors/revenue.py]   (module [RevenueExtractor])
    - [saas_finder/parsers/mrr.py]          (module [MRRParser])
    - [saas_finder/extractors/urls.py]      (module [URLExtractor])
    - [saas_finder/parsers/url.py]          (module [ParsersURL])
    - [saas_finder/twitter/models.py]       (module [TwitterModels])
    - [saas_finder/scoring/scorer.py]       (modules [Scorer],
      [ReplicabilityLevel], [ProductComplexity])
    - [saas_finder/twitter/scrapers/scraper_manager.py] (module [ScraperManager])

    followed by the properties proved of them.

    Modelling conventions.

    - A Python [str] is a [string] of 8-bit characters, a character
      outside ASCII being the bytes of its UTF-8 encoding; [str.lower],
      [\d], [\s], [\w] and case-insensitive matching act on the ASCII
      range.
    - A Python [float] is an exact rational ([Q], kept in lowest terms by
      [Qred]): a sum of floats is the exact sum, and binary64 rounding,
      infinities and NaN are not modelled.  A Python [int] is a [Z].  The
      [OverflowError] of [int * float] in the MRR parser, which the parser
      does not catch, is modelled by [MRRParser.parse_raises].
    - A raised exception is an explicit result: [None] of an [option], or
      the [Raised] outcome of a stream.
    - A generator is the list of the items it yields, with the exception
      that ends it, if any.  A Python [set] is a [gset]; a loop over a set
      visits it in the order of [elements], and nothing proved depends on
      that order.
    - Python's [re], [float], [int], [str] methods and
      [urllib.parse.urlparse] are library code; they are modelled by the
      executable definitions of modules [Py], [Re] and [UrlParse]. *)

From Stdlib Require Import ZArith QArith Qround Qabs Qminmax Lqa String Ascii List Bool Lia.
From stdpp Require Import gmap strings list.

Local Open Scope string_scope.
Local Open Scope list_scope.

(** ** Python built-ins *)

Module Py.

Definition is_digit (c : ascii) : bool :=
  let n := nat_of_ascii c in (48 <=? n)%nat && (n <=? 57)%nat.

Definition is_upper (c : ascii) : bool :=
  let n := nat_of_ascii c in (65 <=? n)%nat && (n <=? 90)%nat.

Definition is_lower (c : ascii) : bool :=
  let n := nat_of_ascii c in (97 <=? n)%nat && (n <=? 122)%nat.

Definition is_alpha (c : ascii) : bool := is_upper c || is_lower c.

(** [\s] on the ASCII range: space, \t, \n, \v, \f, \r and the four
    separators \x1c to \x1f. *)
Definition is_space (c : ascii) : bool :=
  let n := nat_of_ascii c in
  (n =? 32)%nat || ((9 <=? n)%nat && (n <=? 13)%nat) ||
  ((28 <=? n)%nat && (n <=? 31)%nat).

(** [\w]: letters, digits and the underscore. *)
Definition is_word (c : ascii) : bool :=
  is_alpha c || is_digit c || (nat_of_ascii c =? 95)%nat.

Definition lower_char (c : ascii) : ascii :=
  if is_upper c then ascii_of_nat (nat_of_ascii c + 32) else c.

Definition upper_char (c : ascii) : ascii :=
  if is_lower c then ascii_of_nat (nat_of_ascii c - 32) else c.

(** [s.upper()] *)
Fixpoint upper (s : string) : string :=
  match s with
  | EmptyString => EmptyString
  | String c t => String (upper_char c) (upper t)
  end.

(** [s.lower()] *)
Fixpoint lower (s : string) : string :=
  match s with
  | EmptyString => EmptyString
  | String c t => String (lower_char c) (lower t)
  end.

(** [needle in hay] *)
Fixpoint contains (needle hay : string) : bool :=
  String.prefix needle hay ||
  match hay with
  | EmptyString => false
  | String _ t => contains needle t
  end.

(** [s.startswith(p)] and [s.endswith(p)] *)
Definition startswith (p s : string) : bool := String.prefix p s.

Definition endswith (p s : string) : bool :=
  (String.length p <=? String.length s)%nat &&
  String.eqb (substring (String.length s - String.length p) (String.length p) s) p.

(** [s.replace(c, '')] for a one-character [c]. *)
Fixpoint remove_char (c : ascii) (s : string) : string :=
  match s with
  | EmptyString => EmptyString
  | String d t => if Ascii.eqb c d then remove_char c t else String d (remove_char c t)
  end.

(** [s.rstrip(chars)] *)
Fixpoint rstrip (chars : string) (s : string) : string :=
  match s with
  | EmptyString => EmptyString
  | String c t =>
      match rstrip chars t with
      | EmptyString => if contains (String c EmptyString) chars then EmptyString
                       else String c EmptyString
      | t' => String c t'
      end
  end.

(** [s.split(sep)[0]] for a one-character [sep]. *)
Fixpoint split_head (sep : ascii) (s : string) : string :=
  match s with
  | EmptyString => EmptyString
  | String c t => if Ascii.eqb sep c then EmptyString else String c (split_head sep t)
  end.

(** [len(s.split(sep))] for a one-character [sep]. *)
Fixpoint split_count (sep : ascii) (s : string) : nat :=
  match s with
  | EmptyString => 1
  | String c t => if Ascii.eqb sep c then S (split_count sep t) else split_count sep t
  end.

(** [s.title()]: the first letter of every run of letters in upper case,
    the others in lower case. *)
Fixpoint title_from (in_word : bool) (s : string) : string :=
  match s with
  | EmptyString => EmptyString
  | String c t =>
      if is_alpha c
      then String (if in_word then lower_char c else upper_char c) (title_from true t)
      else String c (title_from false t)
  end.

Definition title (s : string) : string := title_from false s.

(** Value of a string of decimal digits, left to right. *)
Fixpoint digits_value (acc : Z) (s : string) : option Z :=
  match s with
  | EmptyString => Some acc
  | String c t =>
      if is_digit c
      then digits_value (10 * acc + Z.of_nat (nat_of_ascii c - 48)) t
      else None
  end.

(** The interpreter's default limit on the length of a decimal string
    given to [int] ([sys.int_info.default_max_str_digits]). *)
Definition int_max_str_digits : nat := 4300.

(** [int(s)] on strings of decimal digits; [None] is [ValueError], raised
    for a string that is empty, is not made of digits, or is longer than
    the limit. *)
Definition int_of_string (s : string) : option Z :=
  match s with
  | EmptyString => None
  | _ => if (int_max_str_digits <? String.length s)%nat then None
         else digits_value 0 s
  end.

(** The conversion of an [int] operand to [float] raises [OverflowError]
    when the integer rounds to 2^1024 or more: from 2^1024 - 2^970 on. *)
Definition int_overflows_float (n : Z) : bool :=
  (2 ^ 1024 - 2 ^ 970 <=? Z.abs n)%Z.

(** Splits at the first ['.'], if any. *)
Fixpoint split_dot (s : string) : string * option string :=
  match s with
  | EmptyString => (EmptyString, None)
  | String c t =>
      if Ascii.eqb c "."%char then (EmptyString, Some t)
      else let '(a, b) := split_dot t in (String c a, b)
  end.

(** [float(s)] on the strings the revenue patterns can capture (digits
    with at most one decimal point, at least one digit); [None] is
    [ValueError]. *)
Definition float_of_string (s : string) : option Q :=
  let '(ip, fp) := split_dot s in
  let fr := match fp with Some f => f | None => EmptyString end in
  match ip, fr with
  | EmptyString, EmptyString => None
  | _, _ =>
      match digits_value 0 ip, digits_value 0 fr with
      | Some i, Some f =>
          Some (Qred (inject_Z i + inject_Z f / inject_Z (10 ^ Z.of_nat (String.length fr))))
      | _, _ => None
      end
  end.

(** [int(x)] of a float: truncation towards zero. *)
Definition int_of_float (x : Q) : Z :=
  if Qle_bool 0 x then Qfloor x else Qceiling x.

Definition fmul (a b : Q) : Q := Qred (a * b).
Definition fadd (a b : Q) : Q := Qred (a + b).
Definition fsub (a b : Q) : Q := Qred (a - b).
Definition fabs (a : Q) : Q := Qred (Qabs a).

(** [a < b], [a <= b] as booleans. *)
Definition flt (a b : Q) : bool := negb (Qle_bool b a).
Definition fle (a b : Q) : bool := Qle_bool a b.

(** [min(a, b)]: the first argument unless the second is smaller. *)
Definition fmin (a b : Q) : Q := if flt b a then b else a.

(** [a / b]; [None] is [ZeroDivisionError]. *)
Definition truediv (a b : Q) : option Q :=
  if Qeq_bool b 0 then None else Some (Qred (a / b)).

(** [any(kw in text for kw in kws)] *)
Definition any_in (kws : list string) (text : string) : bool :=
  existsb (fun kw => contains kw text) kws.

(** Insertion of [x] before the first element whose key is not larger. *)
Fixpoint insert_desc {A : Type} (key : A -> Q) (x : A) (l : list A) : list A :=
  match l with
  | [] => [x]
  | y :: l' => if flt (key x) (key y) then y :: insert_desc key x l' else x :: y :: l'
  end.

(** [sorted(l, key=key, reverse=True)]: a stable sort, largest key first,
    elements of equal key in their original order. *)
Fixpoint sorted_desc {A : Type} (key : A -> Q) (l : list A) : list A :=
  match l with
  | [] => []
  | x :: l' => insert_desc key x (sorted_desc key l')
  end.

(** [s.lstrip(c)] and [s.strip(c)] for a one-character [c]. *)
Fixpoint lstrip_char (c : ascii) (s : string) : string :=
  match s with
  | EmptyString => EmptyString
  | String d t => if Ascii.eqb c d then lstrip_char c t else s
  end.

Definition strip_char (c : ascii) (s : string) : string :=
  rstrip (String c EmptyString) (lstrip_char c s).

(** [s.count(c)] for a one-character [c]. *)
Fixpoint count_char (c : ascii) (s : string) : nat :=
  match s with
  | EmptyString => 0
  | String d t => if Ascii.eqb c d then S (count_char c t) else count_char c t
  end.

(** [s.capitalize()]: the first character in upper case, the others in
    lower case. *)
Definition capitalize (s : string) : string :=
  match s with
  | EmptyString => EmptyString
  | String c t => String (upper_char c) (lower t)
  end.

(** [s[n:]] *)
Definition drop_prefix (n : nat) (s : string) : string :=
  substring n (String.length s - n) s.

End Py.

(** ** Python's [re]: a backtracking matcher

    Leftmost match, alternatives tried in order, greedy repetition, numbered
    capturing groups, [\b], and the [re.IGNORECASE] flag on literals. *)

Module Re.

Inductive regex : Type :=
| Eps                              (* the empty pattern *)
| Chr (p : ascii -> bool)          (* a character class *)
| Lit (c : ascii)                  (* a literal character *)
| Seq (r1 r2 : regex)              (* r1r2 *)
| Alt (r1 r2 : regex)              (* r1|r2 *)
| Star (r : regex)                 (* r*, greedy *)
| Grp (n : nat) (r : regex)        (* capturing group number n *)
| WordB.                           (* \b *)

Definition plus (r : regex) : regex := Seq r (Star r).       (* r+ *)
Definition opt (r : regex) : regex := Alt r Eps.             (* r? *)

Fixpoint lit (s : string) : regex :=
  match s with
  | EmptyString => Eps
  | String c EmptyString => Lit c
  | String c t => Seq (Lit c) (lit t)
  end.

Fixpoint seqs (rs : list regex) : regex :=
  match rs with
  | [] => Eps
  | [r] => r
  | r :: rs' => Seq r (seqs rs')
  end.

Fixpoint alts (rs : list regex) : regex :=
  match rs with
  | [] => Eps
  | [r] => r
  | r :: rs' => Alt r (alts rs')
  end.

(** Highest group number of a pattern. *)
Fixpoint ngroups (r : regex) : nat :=
  match r with
  | Seq a b | Alt a b => Nat.max (ngroups a) (ngroups b)
  | Star a => ngroups a
  | Grp n a => Nat.max n (ngroups a)
  | _ => 0
  end.

(** Matcher state: the text still to read, the character just before it,
    the position, and the spans captured so far (latest first). *)
Record mstate : Type := MState {
  rest : string;
  prev : option ascii;
  pos : nat;
  caps : list (nat * (nat * nat))
}.

Definition next_char (s : mstate) : option ascii :=
  match rest s with
  | EmptyString => None
  | String c _ => Some c
  end.

Definition is_word_opt (o : option ascii) : bool :=
  match o with
  | Some c => Py.is_word c
  | None => false
  end.

Definition char_eq (ignorecase : bool) (a b : ascii) : bool :=
  if ignorecase then Ascii.eqb (Py.lower_char a) (Py.lower_char b) else Ascii.eqb a b.

(** Reads one character accepted by [p]. *)
Definition eat (p : ascii -> bool) (k : mstate -> option mstate) (s : mstate)
  : option mstate :=
  match rest s with
  | String c t =>
      if p c then k (MState t (Some c) (S (pos s)) (caps s)) else None
  | EmptyString => None
  end.

(** [run ic r k s]: match [r] at [s], then continue with [k]; the first
    success in backtracking order.  An iteration of [Star] that consumes
    nothing ends the repetition. *)
Fixpoint run (ic : bool) (r : regex) (k : mstate -> option mstate) (s : mstate)
  : option mstate :=
  match r with
  | Eps => k s
  | Chr p => eat p k s
  | Lit c => eat (char_eq ic c) k s
  | Seq r1 r2 => run ic r1 (run ic r2 k) s
  | Alt r1 r2 =>
      match run ic r1 k s with
      | Some e => Some e
      | None => run ic r2 k s
      end
  | Star r1 =>
      (fix loop (n : nat) (s : mstate) {struct n} : option mstate :=
         match n with
         | O => k s
         | S n' =>
             match run ic r1 (fun s' => if (pos s <? pos s')%nat then loop n' s' else None) s with
             | Some e => Some e
             | None => k s
             end
         end) (String.length (rest s)) s
  | Grp n r1 => run ic r1 (fun s' => k (MState (rest s') (prev s') (pos s') ((n, (pos s, pos s')) :: caps s'))) s
  | WordB => if xorb (is_word_opt (prev s)) (is_word_opt (next_char s)) then k s else None
  end.

(** A match object: [m.start()], [m.end()], [m.group(0)], [m.groups()]. *)
Record Match : Type := MkMatch {
  m_start : nat;
  m_end : nat;
  group0 : string;
  groups : list (option string)
}.

Fixpoint cap_lookup (n : nat) (cs : list (nat * (nat * nat))) : option (nat * nat) :=
  match cs with
  | [] => None
  | (m, span) :: cs' => if (n =? m)%nat then Some span else cap_lookup n cs'
  end.

Definition span_text (text : string) (span : nat * nat) : string :=
  substring (fst span) (snd span - fst span) text.

Definition mk_match (text : string) (r : regex) (s e : mstate) : Match :=
  {| m_start := pos s;
     m_end := pos e;
     group0 := span_text text (pos s, pos e);
     groups := map (fun n => option_map (span_text text) (cap_lookup n (caps e)))
                   (seq 1 (ngroups r)) |}.

(** Moves the start of the search one character to the right. *)
Definition step (s : mstate) : option mstate :=
  match rest s with
  | EmptyString => None
  | String c t => Some (MState t (Some c) (S (pos s)) [])
  end.

(** The non-overlapping matches from [s] on, left to right.  After a
    match the search resumes at its end (one character further after an
    empty match; the patterns of this program match no empty string). *)
Fixpoint scan (fuel : nat) (ic : bool) (text : string) (r : regex) (s : mstate)
  : list Match :=
  match fuel with
  | O => []
  | S fuel' =>
      match run ic r Some s with
      | Some e =>
          mk_match text r s e ::
          (if (pos s <? pos e)%nat
           then scan fuel' ic text r (MState (rest e) (prev e) (pos e) [])
           else match step s with
                | Some s' => scan fuel' ic text r s'
                | None => []
                end)
      | None =>
          match step s with
          | Some s' => scan fuel' ic text r s'
          | None => []
          end
      end
  end.

(** [re.finditer(pattern, text, flags)] *)
Definition finditer (ic : bool) (r : regex) (text : string) : list Match :=
  scan (S (String.length text)) ic text r (MState text None 0 []).

(** [m.groups()[i]]; the outer [None] is [IndexError]. *)
Definition group_at (m : Match) (i : nat) : option (option string) :=
  nth_error (groups m) i.

(** Character classes of the program's patterns. *)
Definition one_of (chars : string) (c : ascii) : bool :=
  Py.contains (String c EmptyString) chars.

Definition in_range (lo hi : ascii) (c : ascii) : bool :=
  (nat_of_ascii lo <=? nat_of_ascii c)%nat && (nat_of_ascii c <=? nat_of_ascii hi)%nat.

Definition digit : regex := Chr Py.is_digit.                (* \d *)
Definition ws : regex := Star (Chr Py.is_space).            (* \s* *)
Definition ws1 : regex := plus (Chr Py.is_space).           (* \s+ *)

End Re.

(** ** [saas_finder/extractors/revenue.py] *)

Module RevenueExtractor.
Import Re.

(** [saas_finder.twitter.models.RevenueType] *)
Inductive RevenueType : Type := MRR | ARR | MONTHLY | UNKNOWN.

(** [saas_finder.twitter.models.ExtractedRevenue] *)
Record ExtractedRevenue : Type := MkExtractedRevenue {
  raw_match : string;
  amount : Z;
  type : RevenueType;
  confidence : Q;
  has_screenshot : bool
}.

(** [( [\d,]+\.?\d* )] as group 1 *)
Definition number : regex :=
  Grp 1 (seqs [plus (Chr (fun c => Py.is_digit c || Ascii.eqb c ","%char));
               opt (Lit "."); Star digit]).

(** [([kK])?] and [([kK])] as group 2 *)
Definition kK : regex := Grp 2 (Chr (one_of "kK")).

(** [\$\s*( [\d,]+\.?\d* )\s*( [kK] )?] *)
Definition dollars : regex := seqs [Lit "$"; ws; number; ws; opt kK].

(** [PATTERNS]: (pattern, revenue_type, base_confidence), in the order of
    the source. *)
Definition PATTERNS : list (regex * RevenueType * Q) :=
  [ (* \$\s*( [\d,]+\.?\d* )\s*( [kK] )?\s*( MRR|mrr ) *)
    (seqs [dollars; ws; Grp 3 (alts [lit "MRR"; lit "mrr"])], MRR, 0.95%Q);
    (* \$\s*( [\d,]+\.?\d* )\s*( [kK] )?\s*( ARR|arr ) *)
    (seqs [dollars; ws; Grp 3 (alts [lit "ARR"; lit "arr"])], ARR, 0.95%Q);
    (* \$\s*( [\d,]+\.?\d* )\s*( [kK] )?\s*(?: /month|per\s*month|monthly|/mo\b ) *)
    (seqs [dollars; ws;
           alts [lit "/month"; seqs [lit "per"; ws; lit "month"]; lit "monthly";
                 seqs [lit "/mo"; WordB]]], MONTHLY, 0.90%Q);
    (* (?: making|hit|crossed|reached|at )\s*\$\s*( [\d,]+\.?\d* )\s*( [kK] )? *)
    (seqs [alts [lit "making"; lit "hit"; lit "crossed"; lit "reached"; lit "at"];
           ws; dollars], UNKNOWN, 0.75%Q);
    (* ( [\d,]+\.?\d* )\s*( [kK] )\s*(?: MRR|in\s*revenue|revenue ) *)
    (seqs [number; ws; kK; ws;
           alts [lit "MRR"; seqs [lit "in"; ws; lit "revenue"]; lit "revenue"]],
     MRR, 0.80%Q);
    (* \$\s*( [\d,]+\.?\d* )\s*( [kK] )?\s*(?: in\s* )?(?: monthly\s* )?revenue *)
    (seqs [dollars; ws; opt (seqs [lit "in"; ws]); opt (seqs [lit "monthly"; ws]);
           lit "revenue"], MONTHLY, 0.85%Q);
    (* ( [4-7] )\s*figure\s*( MRR|ARR|revenue ) *)
    (seqs [Grp 1 (Chr (in_range "4" "7")); ws; lit "figure"; ws;
           Grp 2 (alts [lit "MRR"; lit "ARR"; lit "revenue"])], UNKNOWN, 0.70%Q);
    (* (?: just\s*passed|now\s*at|currently\s*at )\s*\$\s*( [\d,]+\.?\d* )\s*( [kK] )? *)
    (seqs [alts [seqs [lit "just"; ws; lit "passed"]; seqs [lit "now"; ws; lit "at"];
                 seqs [lit "currently"; ws; lit "at"]];
           ws; dollars], UNKNOWN, 0.70%Q);
    (* (?: growing\s*to|scaled\s*to|grew\s*to )\s*\$\s*( [\d,]+\.?\d* )\s*( [kK] )?\s*(?: MRR )? *)
    (seqs [alts [seqs [lit "growing"; ws; lit "to"]; seqs [lit "scaled"; ws; lit "to"];
                 seqs [lit "grew"; ws; lit "to"]];
           ws; dollars; ws; opt (lit "MRR")], MRR, 0.75%Q);
    (* \$\s*( [\d,]+\.?\d* )\s*( [kK] )?\s*/mo\b *)
    (seqs [dollars; ws; lit "/mo"; WordB], MONTHLY, 0.85%Q);
    (* (?: revenue|mrr|arr )\s*:\s*\$\s*( [\d,]+\.?\d* )\s*( [kK] )? *)
    (seqs [alts [lit "revenue"; lit "mrr"; lit "arr"]; ws; Lit ":"; ws; dollars],
     MRR, 0.90%Q);
    (* from\s*\$0\s*to\s*\$\s*( [\d,]+\.?\d* )\s*( [kK] )? *)
    (seqs [lit "from"; ws; lit "$0"; ws; lit "to"; ws; dollars], UNKNOWN, 0.70%Q)
  ].

(** [FIGURE_ESTIMATES.get(figure, 0)]; [figure] is [None] when the group
    did not take part in the match. *)
Definition FIGURE_ESTIMATES_get (figure : option string) : Z :=
  match figure with
  | Some "4" => 5000
  | Some "5" => 50000
  | Some "6" => 500000
  | Some "7" => 5000000
  | _ => 0
  end.

Definition SCREENSHOT_KEYWORDS : list string :=
  ["screenshot"; "proof"; "stripe"; "dashboard";
   "pic"; "image"; "attached"; "below"; "stats";
   "ðŸ‘‡"; "ðŸ“Š"; "ðŸ“ˆ"; "ðŸ’°"; "ðŸš€"; "ðŸ’µ"].

(** [_parse_match]: the outer [None] is an exception leaving the method
    (caught by the caller's [except Exception]); otherwise the pair
    (amount or [None], confidence). *)
Definition _parse_match (m : Match) (base_confidence : Q)
  : option (option Z * Q) :=
  if Py.contains "figure" (Py.lower (group0 m)) then
    match group_at m 0 with
    | None => None
    | Some figure => Some (Some (FIGURE_ESTIMATES_get figure), base_confidence)
    end
  else
    match group_at m 0 with
    | None | Some None => None
    | Some (Some g0) =>
        let num_str := Py.remove_char ","%char g0 in
        match Py.float_of_string num_str with
        | None => Some (None, 0.0%Q)
        | Some amount =>
            let k_multiplier :=
              if (1 <? length (groups m))%nat
              then match group_at m 1 with Some g => g | None => None end
              else None in
            let amount :=
              match k_multiplier with
              | Some k =>
                  if negb (String.eqb k "") && String.eqb (Py.lower k) "k"
                  then Py.fmul amount 1000 else amount
              | None => amount
              end in
            if Py.fle amount 0 then Some (None, 0.0%Q)
            else if Py.flt 100000000 amount then Some (None, 0.0%Q)
            else Some (Some (Py.int_of_float amount), base_confidence)
        end
    end.

Definition _check_screenshot_indicators (text : string) : bool :=
  Py.any_in SCREENSHOT_KEYWORDS (Py.lower text).

(** The matches of all patterns in the order the two nested loops visit
    them, each with the kind and base confidence of its pattern. *)
Definition all_matches (text : string) : list (Match * RevenueType * Q) :=
  flat_map (fun '(pattern, revenue_type, base_confidence) =>
              map (fun m => (m, revenue_type, base_confidence))
                  (finditer true pattern text))
           PATTERNS.

(** One iteration of the inner loop of [extract]. *)
Definition extract_step (text : string)
    (st : option ExtractedRevenue * Q) (c : Match * RevenueType * Q)
  : option ExtractedRevenue * Q :=
  let '(best_match, best_confidence) := st in
  let '(m, revenue_type, base_confidence) := c in
  match _parse_match m base_confidence with
  | None => st                                   (* except Exception: continue *)
  | Some (None, _) => st                         (* amount is None: continue *)
  | Some (Some amount, confidence) =>
      if (amount <=? 0)%Z then st
      else
        let has_screenshot := _check_screenshot_indicators text in
        let confidence :=
          if has_screenshot then Py.fmin (Py.fadd confidence 0.1) 1.0 else confidence in
        if Py.flt best_confidence confidence
        then (Some (MkExtractedRevenue (group0 m) amount revenue_type confidence
                                       has_screenshot),
              confidence)
        else st
  end.

Definition extract (text : string) : option ExtractedRevenue :=
  if String.eqb text "" then None
  else fst (fold_left (extract_step text) (all_matches text) (None, 0.0%Q)).

(** One iteration of the inner loop of [extract_all]; the state is
    [results] and [seen_amounts]. *)
Definition extract_all_step (has_screenshot : bool)
    (st : list ExtractedRevenue * gset Z) (c : Match * RevenueType * Q)
  : list ExtractedRevenue * gset Z :=
  let '(results, seen_amounts) := st in
  let '(m, revenue_type, base_confidence) := c in
  match _parse_match m base_confidence with
  | None => st
  | Some (None, _) => st
  | Some (Some amount, confidence) =>
      if (amount <=? 0)%Z then st
      else if bool_decide (amount ∈ seen_amounts) then st
      else
        let confidence :=
          if has_screenshot then Py.fmin (Py.fadd confidence 0.1) 1.0 else confidence in
        (results ++ [MkExtractedRevenue (group0 m) amount revenue_type confidence
                                        has_screenshot],
         {[ amount ]} ∪ seen_amounts)
  end.

Definition extract_all (text : string) : list ExtractedRevenue :=
  if String.eqb text "" then []
  else
    let has_screenshot := _check_screenshot_indicators text in
    let results :=
      fst (fold_left (extract_all_step has_screenshot) (all_matches text) ([], ∅)) in
    Py.sorted_desc confidence results.

Definition is_revenue_tweet (text : string) (min_confidence : Q) : bool :=
  match extract text with
  | Some result => Py.fle min_confidence (confidence result)
  | None => false
  end.

End RevenueExtractor.

(** ** [saas_finder/parsers/mrr.py] *)

Module MRRParser.
Import Re.

Inductive RevenueType : Type := MRR | ARR | MONTHLY | REVENUE | UNKNOWN.

Definition RevenueType_eqb (a b : RevenueType) : bool :=
  match a, b with
  | MRR, MRR | ARR, ARR | MONTHLY, MONTHLY | REVENUE, REVENUE | UNKNOWN, UNKNOWN => true
  | _, _ => false
  end.

Record RevenueData : Type := MkRevenueData {
  amount : Q;
  type : RevenueType;
  raw_text : string;
  confidence : Q
}.

(** [RevenueData.monthly_equivalent] *)
Definition monthly_equivalent (r : RevenueData) : Q :=
  if RevenueType_eqb (type r) ARR then Qred (amount r / 12) else amount r.

(** [_parse_amount]; [None] is the [ValueError] of [float]. *)
Definition _parse_amount (amount_str : string) (multiply_k : bool) : option Q :=
  let cleaned := Py.remove_char ","%char amount_str in
  match Py.float_of_string cleaned with
  | None => None
  | Some amount => Some (if multiply_k then Py.fmul amount 1000 else amount)
  end.

(** [m.group(i)] for [i >= 1]; the outer [None] is [IndexError]. *)
Definition group (m : Match) (i : nat) : option (option string) :=
  group_at m (i - 1).

(** [( [\d,]+(?:\.\d+)? )] as group [n] *)
Definition number (n : nat) : regex :=
  Grp n (seqs [plus (Chr (fun c => Py.is_digit c || Ascii.eqb c ","%char));
               opt (seqs [Lit "."; plus digit])]).

Definition kK : regex := Chr (one_of "kK").

(** [(?:/month|/mo\b|per\s+month )] *)
Definition per_month : regex :=
  alts [lit "/month"; seqs [lit "/mo"; WordB]; seqs [lit "per"; ws1; lit "month"]].

(** ['k' in m.group(0).lower() and 'k' not in m.group(1).lower()] *)
Definition has_k (m : Match) (g1 : string) : bool :=
  Py.contains "k" (Py.lower (group0 m)) && negb (Py.contains "k" (Py.lower g1)).

(** [RevenueType.MRR if m.group(2).upper() == 'MRR' else RevenueType.ARR] *)
Definition mrr_or_arr (g2 : string) : RevenueType :=
  if String.eqb (Py.upper g2) "MRR" then MRR else ARR.

(** An extractor yields (amount, kind, confidence); [None] is the
    [ValueError] of [float] or [int], which [parse] catches.  The groups an
    extractor reads are never optional in its pattern; a match without them
    is given [None] as well. *)
Definition Extractor : Type := Match -> option (Q * RevenueType * Q).

Definition with_group1 (f : string -> option (Q * RevenueType * Q)) : Extractor :=
  fun m => match group m 1 with
           | Some (Some g1) => f g1
           | _ => None
           end.

Definition amount_kind (multiply_k : Match -> string -> bool)
    (rev_type : RevenueType) (conf : Q) : Extractor :=
  fun m => with_group1 (fun g1 =>
    match _parse_amount g1 (multiply_k m g1) with
    | Some a => Some (a, rev_type, conf)
    | None => None
    end) m.

Definition amount_mrr_arr (multiply_k : Match -> string -> bool) (conf : Q)
  : Extractor :=
  fun m => with_group1 (fun g1 =>
    match _parse_amount g1 (multiply_k m g1), group m 2 with
    | Some a, Some (Some g2) => Some (a, mrr_or_arr g2, conf)
    | _, _ => None
    end) m.

(** [int(m.group(1).replace(',', '')) * float(m.group(2).replace(',', ''))],
    when the product is formed; [customers_overflow] tells when forming it
    raises instead. *)
Definition customers_times_price : Extractor :=
  fun m =>
    match group m 1, group m 2 with
    | Some (Some g1), Some (Some g2) =>
        match Py.int_of_string (Py.remove_char ","%char g1),
              Py.float_of_string (Py.remove_char ","%char g2) with
        | Some n, Some price => Some (Py.fmul (inject_Z n) price, MRR, 0.65%Q)
        | _, _ => None
        end
    | _, _ => None
    end.

(** The [OverflowError] of the product above: both conversions succeed
    and the customer count is too large for a [float].  [parse] catches
    [ValueError] and [IndexError] only, so this exception leaves it. *)
Definition customers_overflow (m : Match) : bool :=
  match group m 1, group m 2 with
  | Some (Some g1), Some (Some g2) =>
      match Py.int_of_string (Py.remove_char ","%char g1),
            Py.float_of_string (Py.remove_char ","%char g2) with
      | Some n, Some _ => Py.int_overflows_float n
      | _, _ => false
      end
  | _, _ => false
  end.

(** [( \d+ )\s+paying\s+customers?\s+(?:at\s+ )?\$\s*( [\d,]+(?:\.\d+)? )] *)
Definition customers_pattern : regex :=
  seqs [Grp 1 (plus digit); ws1; lit "paying"; ws1; lit "customer"; opt (Lit "s");
        ws1; opt (seqs [lit "at"; ws1]); Lit "$"; ws; number 2].

Definition PATTERNS : list (regex * Extractor) :=
  [ (* \$\s*( [\d,]+(?:\.\d+)? )\s*[kK]?\s*( MRR|ARR ) *)
    (seqs [Lit "$"; ws; number 1; ws; opt kK; ws; Grp 2 (alts [lit "MRR"; lit "ARR"])],
     amount_mrr_arr has_k 0.95%Q);
    (* \$\s*( [\d,]+(?:\.\d+)? )\s*[kK]\s*( MRR|ARR ) *)
    (seqs [Lit "$"; ws; number 1; ws; kK; ws; Grp 2 (alts [lit "MRR"; lit "ARR"])],
     amount_mrr_arr (fun _ _ => true) 0.95%Q);
    (* \$\s*( [\d,]+(?:\.\d+)? )\s*[kK]?\s*(?:/month|/mo\b|per\s+month ) *)
    (seqs [Lit "$"; ws; number 1; ws; opt kK; ws; per_month],
     amount_kind has_k MONTHLY 0.90%Q);
    (* ( [\d,]+(?:\.\d+)? )\s*[kK]\s*(?:/month|/mo\b|per\s+month ) *)
    (seqs [number 1; ws; kK; ws; per_month],
     amount_kind (fun _ _ => true) MONTHLY 0.75%Q);
    (* \$\s*( [\d,]+(?:\.\d+)? )\s*[kK]?\s*(?:monthly\s+ )?revenue *)
    (seqs [Lit "$"; ws; number 1; ws; opt kK; ws; opt (seqs [lit "monthly"; ws1]);
           lit "revenue"],
     amount_kind has_k REVENUE 0.80%Q);
    (* (?:hit|reached|crossed|passed )\s+\$\s*( [\d,]+(?:\.\d+)? )\s*[kK]? *)
    (seqs [alts [lit "hit"; lit "reached"; lit "crossed"; lit "passed"]; ws1;
           Lit "$"; ws; number 1; ws; opt kK],
     amount_kind has_k UNKNOWN 0.70%Q);
    (* making\s+\$\s*( [\d,]+(?:\.\d+)? )\s*[kK]?\s*(?:/month|/mo\b|per\s+month|monthly )? *)
    (seqs [lit "making"; ws1; Lit "$"; ws; number 1; ws; opt kK; ws;
           opt (alts [lit "/month"; seqs [lit "/mo"; WordB];
                      seqs [lit "per"; ws1; lit "month"]; lit "monthly"])],
     amount_kind has_k MONTHLY 0.75%Q);
    (* X paying customers at $Y *)
    (customers_pattern, customers_times_price)
  ].

Definition all_matches (text : string) : list (Match * Extractor) :=
  flat_map (fun '(pattern, extractor) =>
              map (fun m => (m, extractor)) (finditer true pattern text))
           PATTERNS.

(** The context boost of [parse] for a match of kind [UNKNOWN]. *)
Definition boost (text_lower : string) (rev_type : RevenueType) (confidence : Q)
  : RevenueType * Q :=
  if RevenueType_eqb rev_type UNKNOWN then
    if Py.contains "mrr" text_lower then (MRR, Py.fadd confidence 0.1)
    else if Py.contains "arr" text_lower then (ARR, Py.fadd confidence 0.1)
    else if Py.any_in ["month"; "monthly"; "/mo"] text_lower
         then (MONTHLY, Py.fadd confidence 0.05)
         else (rev_type, confidence)
  else (rev_type, confidence).

(** The body of the inner loop of [parse]: the [RevenueData] appended for
    a match, or [None] when the match is skipped. *)
Definition parse_match (text : string) (c : Match * Extractor) : option RevenueData :=
  let '(m, extractor) := c in
  match extractor m with
  | None => None                          (* except (ValueError, IndexError) *)
  | Some (amount, rev_type, confidence) =>
      if Py.flt amount 100 then None      (* very small amounts *)
      else
        let '(rev_type, confidence) := boost (Py.lower text) rev_type confidence in
        let confidence := Py.fmin confidence 1.0 in
        Some (MkRevenueData amount rev_type (group0 m) confidence)
  end.

Definition parse_step (text : string) (results : list RevenueData)
    (c : Match * Extractor) : list RevenueData :=
  match parse_match text c with
  | Some r => results ++ [r]
  | None => results
  end.

(** [results] at the end of the loops of [parse]. *)
Definition parse_results (text : string) : list RevenueData :=
  fold_left (parse_step text) (all_matches text) [].

(** Whether the loops of [parse] are left by an exception: some match of
    the last pattern raises [OverflowError].  [parse_results], [parse] and
    [get_best_mrr] are what is computed when none does. *)
Definition parse_raises (text : string) : bool :=
  existsb customers_overflow (finditer true customers_pattern text).

(** Is [result] within 10% of an element of [unique]? *)
Definition is_duplicate (unique : list RevenueData) (result : RevenueData) : bool :=
  existsb (fun existing =>
             Py.flt 0 (amount existing) &&
             match Py.truediv (Py.fabs (Py.fsub (amount result) (amount existing)))
                              (amount existing) with
             | Some ratio => Py.flt ratio 0.1
             | None => false
             end)
          unique.

Definition _deduplicate (results : list RevenueData) : list RevenueData :=
  if (length results <=? 1)%nat then results
  else
    fold_left (fun unique result =>
                 if is_duplicate unique result then unique else unique ++ [result])
              (Py.sorted_desc confidence results) [].

Definition parse (text : string) : list RevenueData :=
  Py.sorted_desc confidence (_deduplicate (parse_results text)).

Definition get_best_mrr (text : string) : option RevenueData :=
  let results := parse text in
  match results with
  | [] => None
  | first :: _ =>
      match filter (fun r => RevenueType_eqb (type r) MRR) results with
      | r :: _ => Some r
      | [] =>
          match filter (fun r => RevenueType_eqb (type r) MONTHLY) results with
          | r :: _ => Some r
          | [] => Some first
          end
      end
  end.

(** [\$\s*[\d,]+], matched as written (no flag). *)
Definition dollar_number : regex :=
  seqs [Lit "$"; ws; plus (Chr (fun c => Py.is_digit c || Ascii.eqb c ","%char))].

(** [has_revenue_mention] *)
Definition has_revenue_mention (text : string) : bool :=
  let text_lower := Py.lower text in
  let keywords := ["mrr"; "arr"; "revenue"; "/month"; "per month"; "/mo"] in
  if negb (Py.any_in keywords text_lower) &&
     match finditer false dollar_number text with
     | [] => true                      (* re.search found nothing *)
     | _ :: _ => false
     end
  then false
  else (0 <? length (parse text))%nat.

(** The module's functions [parse_mrr] and [has_revenue]. *)
Definition parse_mrr (text : string) : option RevenueData := get_best_mrr text.

Definition has_revenue (text : string) : bool := has_revenue_mention text.

End MRRParser.

(** ** [urllib.parse.urlparse] *)

Module UrlParse.

(** Characters allowed in a scheme. *)
Definition scheme_char (c : ascii) : bool :=
  Py.is_alpha c || Py.is_digit c || Re.one_of "+-." c.

Fixpoint all_chars (p : ascii -> bool) (s : string) : bool :=
  match s with
  | EmptyString => true
  | String c t => p c && all_chars p t
  end.

(** [s] up to the first character accepted by [stop], and the rest from
    that character on. *)
Fixpoint break_at (stop : ascii -> bool) (s : string) : string * string :=
  match s with
  | EmptyString => (EmptyString, EmptyString)
  | String c t =>
      if stop c then (EmptyString, s)
      else let '(a, b) := break_at stop t in (String c a, b)
  end.

(** Splits off a scheme: a letter followed by scheme characters, up to
    the first [':']. *)
Definition split_scheme (url : string) : string * string :=
  let '(before, after) := break_at (Ascii.eqb ":"%char) url in
  match before, after with
  | String c _, String _ rest =>
      if Py.is_alpha c && all_chars scheme_char before
      then (Py.lower before, rest)
      else (EmptyString, url)
  | _, _ => (EmptyString, url)
  end.

(** Drops the parameters ([;...]) of the last path segment. *)
Fixpoint drop_params (path : string) : string :=
  match path with
  | EmptyString => EmptyString
  | String c t =>
      if Ascii.eqb c ";"%char && negb (Py.contains "/" t) then EmptyString
      else String c (drop_params t)
  end.

Definition uses_params : list string :=
  [""; "ftp"; "hdl"; "prospero"; "http"; "imap"; "https"; "shttp"; "rtsp"; "rtspu";
   "sip"; "sips"; "mms"; "sftp"; "tel"].

Record ParseResult : Type := MkParseResult {
  scheme : string;
  netloc : string;
  path : string
}.

(** [urlparse(url)], its scheme, netloc and path; [None] is the
    [ValueError] raised for a netloc with one square bracket only. *)
Definition urlparse (url : string) : option ParseResult :=
  let '(sch, rest) := split_scheme url in
  let '(loc, rest) :=
    if String.prefix "//" rest
    then break_at (Re.one_of "/?#") (substring 2 (String.length rest - 2) rest)
    else (EmptyString, rest) in
  if xorb (Py.contains "[" loc) (Py.contains "]" loc) then None
  else
    let p := fst (break_at (Re.one_of "?#") rest) in
    let p := if existsb (String.eqb sch) uses_params then drop_params p else p in
    Some (MkParseResult sch loc p).

End UrlParse.

(** ** [saas_finder/extractors/urls.py] *)

Module URLExtractor.
Import Re.

(** [saas_finder.twitter.models.ExtractedProduct] *)
Record ExtractedProduct : Type := MkExtractedProduct {
  url : string;
  name : option string;
  domain : string;
  is_valid_product : bool
}.

Definition EXCLUDED_DOMAINS : list string :=
  [ (* Social media *)
    "twitter.com"; "x.com"; "t.co"; "pic.twitter.com";
    "facebook.com"; "fb.com"; "instagram.com"; "linkedin.com";
    "tiktok.com"; "youtube.com"; "youtu.be"; "reddit.com";
    "discord.com"; "discord.gg"; "threads.net";
    (* Common services *)
    "google.com"; "goo.gl"; "bit.ly"; "bitly.com";
    "medium.com"; "substack.com"; "notion.so"; "notion.site";
    "github.com"; "gitlab.com"; "stackoverflow.com";
    (* Email/productivity *)
    "gmail.com"; "outlook.com"; "slack.com"; "zoom.us";
    (* Link shorteners *)
    "ow.ly"; "tinyurl.com"; "rebrand.ly"; "short.io";
    "is.gd"; "v.gd"; "cutt.ly"; "shorturl.at";
    (* Other *)
    "wikipedia.org"; "amazon.com"; "ebay.com" ].

Definition PRODUCT_TLDS : list string :=
  [".com"; ".io"; ".co"; ".app"; ".dev"; ".ai"; ".so"; ".me"].

Definition PRODUCT_KEYWORDS : list string :=
  ["app"; "dashboard"; "pricing"; "demo"; "beta";
   "saas"; "tool"; "software"; "platform"; "service"].

Definition dquote : ascii := ascii_of_nat 34.

(** The class of [url_pattern]: any character but white space and
    < > double-quote { } | \ ^ ` [ ] *)
Definition url_char (c : ascii) : bool :=
  negb (Py.is_space c || one_of "<>{}|\^`[]" c || Ascii.eqb c dquote).

(** [https?://] followed by one or more [url_char]; case-sensitive. *)
Definition url_pattern : regex :=
  seqs [lit "http"; opt (Lit "s"); lit "://"; plus (Chr url_char)].

(** The characters stripped from the right of a URL found in the text:
    . , ; : ! ? ) ' and the double quote. *)
Definition trailing_punctuation : string :=
  ".,;:!?)'" ++ String dquote EmptyString.

Definition _extract_urls_from_text (text : string) : list string :=
  let urls := map group0 (finditer false url_pattern text) in
  filter (fun u => negb (String.eqb u ""))
         (map (Py.rstrip trailing_punctuation) urls).

Definition _is_likely_product (url domain path : string) : bool :=
  let url_lower := Py.lower url in
  let has_product_tld := existsb (fun tld => Py.endswith tld domain) PRODUCT_TLDS in
  let has_product_keyword := Py.any_in PRODUCT_KEYWORDS url_lower in
  let base_domain := Py.split_head "."%char domain in
  let is_short_domain := (String.length base_domain <=? 15)%nat in
  let product_paths := ["/pricing"; "/demo"; "/features"; "/about"; "/blog"] in
  let has_product_path := Py.any_in product_paths (Py.lower path) in
  let score := 0%Z in
  let score := if has_product_tld then (score + 2)%Z else score in
  let score := if has_product_keyword then (score + 2)%Z else score in
  let score := if is_short_domain then (score + 1)%Z else score in
  let score := if has_product_path then (score + 1)%Z else score in
  let score :=
    if Py.endswith ".ai" domain || Py.endswith ".io" domain
    then (score + 1)%Z else score in
  (2 <=? score)%Z.

Definition _extract_name_from_domain (domain : string) : string :=
  let name :=
    if (2 <=? Py.split_count "."%char domain)%nat
    then Py.split_head "."%char domain
    else domain in
  Py.title name.

(** The domain [_analyze_url] classifies: the netloc in lower case
    without a leading [www.]. *)
Definition clean_domain (netloc : string) : string :=
  let domain := Py.lower netloc in
  if Py.startswith "www." domain
  then substring 4 (String.length domain - 4) domain
  else domain.

(** [any(excluded in domain for excluded in self.EXCLUDED_DOMAINS)] *)
Definition is_excluded (domain : string) : bool :=
  existsb (fun excluded => Py.contains excluded domain) EXCLUDED_DOMAINS.

(** [_analyze_url]; [None] when [urlparse] raises. *)
Definition _analyze_url (u : string) : option ExtractedProduct :=
  match UrlParse.urlparse u with
  | None => None
  | Some parsed =>
      let domain := clean_domain (UrlParse.netloc parsed) in
      if is_excluded domain
      then Some (MkExtractedProduct u None domain false)
      else
        let is_product := _is_likely_product u domain (UrlParse.path parsed) in
        let name := _extract_name_from_domain domain in
        Some (MkExtractedProduct u (Some name) domain is_product)
  end.

(** [all_urls]: the set built from the metadata URLs and the URLs of the
    text.  [urls] is [None] for the default argument. *)
Definition all_urls (text : string) (urls : option (list string)) : gset string :=
  let from_metadata : gset string :=
    match urls with
    | Some l => list_to_set l
    | None => ∅
    end in
  from_metadata ∪ list_to_set (_extract_urls_from_text text).

(** [extract]: the loop visits the set in the order of [elements]. *)
Definition extract (text : string) (urls : option (list string))
  : list ExtractedProduct :=
  fold_left (fun products u =>
               match _analyze_url u with
               | Some product =>
                   if is_valid_product product then products ++ [product] else products
               | None => products
               end)
            (elements (all_urls text urls)) [].

Definition extract_all (text : string) (urls : option (list string))
  : list ExtractedProduct :=
  fold_left (fun products u =>
               match _analyze_url u with
               | Some product => products ++ [product]
               | None => products
               end)
            (elements (all_urls text urls)) [].

End URLExtractor.

(** ** [saas_finder/parsers/url.py] *)

Module ParsersURL.
Import Re.

Record ProductURL : Type := MkProductURL {
  url : string;
  domain : string;
  is_product_url : bool;
  product_name : option string;
  confidence : Q
}.

Definition EXCLUDED_DOMAINS : list string :=
  [ (* Social Media *)
    "twitter.com"; "x.com"; "t.co"; "pic.twitter.com"; "facebook.com"; "fb.com";
    "instagram.com"; "linkedin.com"; "tiktok.com"; "youtube.com"; "youtu.be";
    "reddit.com"; "threads.net"; "mastodon.social";
    (* Link Shorteners *)
    "bit.ly"; "goo.gl"; "tinyurl.com"; "ow.ly"; "buff.ly"; "is.gd"; "v.gd";
    "shorte.st"; "adf.ly";
    (* Common Non-Product Sites *)
    "medium.com"; "substack.com"; "notion.so"; "docs.google.com"; "drive.google.com";
    "github.com"; "gitlab.com"; "bitbucket.org"; "imgur.com"; "giphy.com";
    (* Payment/Analytics *)
    "stripe.com"; "paypal.com"; "analytics.google.com" ].

(** [.]: any character but a newline. *)
Definition any_char : regex := Chr (fun c => negb (Ascii.eqb c (ascii_of_nat 10))).

(** [PRODUCT_DOMAIN_PATTERNS], each without its final [$]. *)
Definition PRODUCT_DOMAIN_PATTERNS : list regex :=
  [ seqs [Star any_char; lit ".io"];                       (* .*\.io$ *)
    seqs [Star any_char; lit ".ai"];                       (* .*\.ai$ *)
    seqs [Star any_char; lit ".co"];                       (* .*\.co$ *)
    seqs [Star any_char; lit ".app"];                      (* .*\.app$ *)
    seqs [Star any_char; lit ".so"];                       (* .*\.so$ *)
    seqs [Star any_char; lit ".tool"; opt (Lit "s")];      (* .*\.tools?$ *)
    seqs [Star any_char; lit ".dev"];                      (* .*\.dev$ *)
    seqs [Star any_char; lit ".xyz"];                      (* .*\.xyz$ *)
    seqs [lit "get"; Star any_char; lit ".com"];           (* get.*\.com$ *)
    seqs [lit "try"; Star any_char; lit ".com"];           (* try.*\.com$ *)
    seqs [lit "use"; Star any_char; lit ".com"] ].         (* use.*\.com$ *)

(** [$]: at the end of the text, or before a newline that ends it. *)
Definition at_dollar (s : mstate) : bool :=
  match rest s with
  | EmptyString => true
  | String c EmptyString => Ascii.eqb c (ascii_of_nat 10)
  | _ => false
  end.

(** [re.match(pattern + '$', text)] is not [None]. *)
Definition re_match_dollar (pattern : regex) (text : string) : bool :=
  match run false pattern (fun s => if at_dollar s then Some s else None)
            (MState text None 0 []) with
  | Some _ => true
  | None => false
  end.

(** [extract_urls]: the pattern and the clean-up are those of
    [URLExtractor._extract_urls_from_text]. *)
Definition extract_urls (text : string) : list string :=
  let urls := map group0 (finditer false URLExtractor.url_pattern text) in
  filter (fun u => negb (String.eqb u ""))
         (map (Py.rstrip URLExtractor.trailing_punctuation) urls).

(** The loop over [prefixes] of [_extract_product_name]: the first prefix
    that [name_part] starts with and is longer than is removed. *)
Fixpoint strip_first_prefix (prefixes : list string) (name_part : string) : string :=
  match prefixes with
  | [] => name_part
  | prefix :: prefixes' =>
      if Py.startswith prefix (Py.lower name_part) &&
         (String.length prefix <? String.length name_part)%nat
      then Py.drop_prefix (String.length prefix) name_part
      else strip_first_prefix prefixes' name_part
  end.

Definition _extract_product_name (domain : string) : option string :=
  if (Py.split_count "."%char domain <? 2)%nat then None
  else
    let first := Py.split_head "."%char domain in
    let prefixes := ["get"; "try"; "use"; "my"; "the"; "app"; "www"] in
    let name_part := strip_first_prefix prefixes first in
    let name_part := if (String.length name_part <? 2)%nat then first else name_part in
    Some (Py.capitalize name_part).

(** The confidence [_analyze_url] gives to a domain that is not excluded. *)
Definition url_confidence (domain path : string) : Q :=
  let confidence := 0.5%Q in
  let confidence :=
    if existsb (fun pattern => re_match_dollar pattern domain) PRODUCT_DOMAIN_PATTERNS
    then Py.fadd confidence 0.2 else confidence in
  let path := Py.strip_char "/"%char path in
  let confidence :=
    if String.eqb path "" then Py.fadd confidence 0.15
    else if (Py.count_char "/"%char path =? 0)%nat then Py.fadd confidence 0.1
    else if (2 <? Py.count_char "/"%char path)%nat then Py.fsub confidence 0.1
    else confidence in
  let product_paths := ["pricing"; "features"; "demo"; "signup"; "register"; "start"] in
  if Py.any_in product_paths (Py.lower path) then Py.fadd confidence 0.1 else confidence.

(** [_analyze_url]; the [ValueError] of [urlparse] is caught. *)
Definition _analyze_url (u : string) : ProductURL :=
  match UrlParse.urlparse u with
  | None => MkProductURL u "" false None 0.0%Q
  | Some parsed =>
      let domain := Py.lower (UrlParse.netloc parsed) in
      let domain :=
        if Py.startswith "www." domain then Py.drop_prefix 4 domain else domain in
      if existsb (String.eqb domain) EXCLUDED_DOMAINS
      then MkProductURL u domain false None 0.0%Q
      else
        let confidence := url_confidence domain (UrlParse.path parsed) in
        let product_name := _extract_product_name domain in
        let is_product := Py.fle 0.5 confidence in
        MkProductURL u domain is_product product_name (Py.fmin confidence 1.0)
  end.

Definition extract_product_urls (urls : list string) : list ProductURL :=
  let results := filter is_product_url (map _analyze_url urls) in
  Py.sorted_desc confidence results.

Definition get_best_product_url (text : string) : option ProductURL :=
  match extract_product_urls (extract_urls text) with
  | [] => None
  | best :: _ => Some best
  end.

(** The loop of [extract_from_tweet] over the attached URLs. *)
Definition add_attached (all_urls : list string) (u : string) : list string :=
  if existsb (String.eqb u) all_urls then all_urls else all_urls ++ [u].

Definition extract_from_tweet (text : string) (attached_urls : option (list string))
  : list ProductURL :=
  let all_urls := extract_urls text in
  let all_urls :=
    match attached_urls with
    | Some l => fold_left add_attached l all_urls
    | None => all_urls
    end in
  extract_product_urls all_urls.

(** [extract_product_url] and [is_product_domain], the module's functions. *)
Definition extract_product_url (text : string) : option ProductURL :=
  get_best_product_url text.

Definition is_product_domain (u : string) : bool :=
  match extract_product_urls [u] with
  | [] => false
  | first :: _ => is_product_url first
  end.

End ParsersURL.

(** ** [saas_finder/twitter/models.py]: the tweet *)

Module TwitterModels.

Record TweetAuthor : Type := MkTweetAuthor {
  author_id : string;
  username : string;
  name : string;
  followers_count : Z;
  verified : bool;
  description : option string
}.

Record TweetMedia : Type := MkTweetMedia {
  media_type : string;                 (* "photo", "video", "animated_gif" *)
  media_url : option string
}.

Record TweetMetrics : Type := MkTweetMetrics {
  like_count : Z;
  retweet_count : Z;
  reply_count : Z;
  quote_count : Z;
  impression_count : Z;
  bookmark_count : Z
}.

Record Tweet : Type := MkTweet {
  id : string;
  text : string;
  created_at : Z;
  author : option TweetAuthor;
  metrics : TweetMetrics;
  media : list TweetMedia;
  urls : list string
}.

(** [TweetMetrics.total_engagement] *)
Definition total_engagement (m : TweetMetrics) : Z :=
  (like_count m + retweet_count m + reply_count m + quote_count m)%Z.

(** [TweetMetrics.engagement_rate(impressions)]; [None] would be
    [ZeroDivisionError]. *)
Definition engagement_rate (m : TweetMetrics) (impressions : option Z) : option Q :=
  let imp :=
    match impressions with
    | Some i => if (i =? 0)%Z then impression_count m else i
    | None => impression_count m
    end in
  if (imp =? 0)%Z then Some 0.0%Q
  else Py.truediv (inject_Z (total_engagement m)) (inject_Z imp).

(** [Tweet.tweet_url] *)
Definition tweet_url (t : Tweet) : string :=
  match author t with
  | Some a => "https://twitter.com/" ++ username a ++ "/status/" ++ id t
  | None => "https://twitter.com/i/status/" ++ id t
  end.

(** [Tweet.has_image] and [Tweet.has_video] *)
Definition has_image (t : Tweet) : bool :=
  existsb (fun m => String.eqb (media_type m) "photo") (media t).

Definition has_video (t : Tweet) : bool :=
  existsb (fun m => String.eqb (media_type m) "video" ||
                    String.eqb (media_type m) "animated_gif") (media t).

(** [Tweet.external_urls] *)
Definition external_urls (t : Tweet) : list string :=
  let excluded_domains := ["twitter.com"; "x.com"; "t.co"; "pic.twitter.com"] in
  filter (fun u => negb (Py.any_in excluded_domains (Py.lower u))) (urls t).

(** [Tweet.calculate_engagement_rate]; [None] would be [ZeroDivisionError]. *)
Definition calculate_engagement_rate (t : Tweet) : option Q :=
  match author t with
  | None => Some 0.0%Q
  | Some a =>
      if (followers_count a =? 0)%Z then Some 0.0%Q
      else
        match Py.truediv (inject_Z (total_engagement (metrics t)))
                         (inject_Z (followers_count a)) with
        | Some r => Some (Py.fmul r 100)
        | None => None
        end
  end.

End TwitterModels.

(** ** [saas_finder/scoring/scorer.py] *)

Module ReplicabilityLevel.
Inductive t : Type := HIGH | MEDIUM | LOW | UNKNOWN.
End ReplicabilityLevel.

Module ProductComplexity.
Inductive t : Type := SINGLE_FEATURE | SIMPLE_SAAS | COMPLEX_SAAS | PLATFORM | UNKNOWN.

Definition eqb (a b : t) : bool :=
  match a, b with
  | SINGLE_FEATURE, SINGLE_FEATURE | SIMPLE_SAAS, SIMPLE_SAAS
  | COMPLEX_SAAS, COMPLEX_SAAS | PLATFORM, PLATFORM | UNKNOWN, UNKNOWN => true
  | _, _ => false
  end.
End ProductComplexity.

Module Scorer.

(** [config.ScoringConfig] *)
Record ScoringConfig : Type := MkScoringConfig {
  mrr_high : Z;
  mrr_medium : Z;
  mrr_low : Z;
  engagement_rate_threshold : Q;
  follower_threshold : Z;
  organic_traffic_threshold : Q
}.

(** The defaults of [ScoringConfig]. *)
Definition default_config : ScoringConfig :=
  {| mrr_high := 10000;
     mrr_medium := 5000;
     mrr_low := 1000;
     engagement_rate_threshold := 0.05%Q;
     follower_threshold := 5000;
     organic_traffic_threshold := 0.30%Q |}.

Record TrafficData : Type := MkTrafficData {
  organic_percent : Q;
  paid_percent : Q;
  social_percent : Q;
  referral_percent : Q;
  direct_percent : Q;
  estimated_monthly_visits : option Z;
  domain_authority : option Z;
  top_keywords : list string
}.

(** [TrafficData()] *)
Definition no_traffic : TrafficData :=
  MkTrafficData 0.0%Q 0.0%Q 0.0%Q 0.0%Q 0.0%Q None None [].

(** [TrafficData.has_data] *)
Definition has_data (t : TrafficData) : bool :=
  existsb id
    [ Py.flt 0 (organic_percent t);
      Py.flt 0 (paid_percent t);
      Py.flt 0 (social_percent t);
      match estimated_monthly_visits t with Some _ => true | None => false end ].

(** A part of a breakdown text; the joined text [" | ".join(details)] is
    the list of its parts, and a part carries the number it prints. *)
Inductive Detail : Type :=
| High_MRR (mrr : Q)                    (* High MRR ($...): +30 *)
| Medium_MRR (mrr : Q)                  (* Medium MRR ($...): +20 *)
| Low_MRR (mrr : Q)                     (* Low MRR ($...): +10 *)
| No_significant_MRR (mrr : Q)          (* No significant MRR ($...): +0 *)
| High_confidence_revenue_data          (* High confidence revenue data: +2 *)
| Stripe_screenshot                     (* Stripe screenshot: +12 *)
| Has_screenshot                        (* Has screenshot: +10 *)
| High_engagement (rate : Q)            (* High engagement (...): +10 *)
| Medium_engagement (rate : Q)          (* Medium engagement (...): +5 *)
| Influential_author (followers : Z)    (* Influential author (... followers): +5 *)
| Growing_author (followers : Z)        (* Growing author (... followers): +3 *)
| No_strong_growth_signals              (* No strong growth signals: +0 *)
| No_traffic_data_available             (* No traffic data available: +10 (neutral) *)
| Strong_organic (organic : Q)          (* Strong organic (...): +15 *)
| Some_organic (organic : Q)            (* Some organic (...): +8 *)
| Diverse_traffic_sources               (* Diverse traffic sources: +10 *)
| Limited_traffic_diversity             (* Limited traffic diversity: +0 *)
| Single_feature_tool                   (* Single feature tool: +20 *)
| Simple_SaaS                           (* Simple SaaS: +10 *)
| Complex_SaaS                          (* Complex SaaS: +5 *)
| Platform_complex                      (* Platform (complex): +0 *)
| Complexity_unknown.                   (* Complexity unknown: +10 (neutral) *)

Record ScoringResult : Type := MkScoringResult {
  total_score : Z;
  traction_score : Z;
  growth_score : Z;
  traffic_score : Z;
  simplicity_score : Z;
  breakdown : gmap string (list Detail)
}.

(** [ScoringResult.grade] *)
Definition grade (r : ScoringResult) : string :=
  if (90 <=? total_score r)%Z then "A+"
  else if (80 <=? total_score r)%Z then "A"
  else if (70 <=? total_score r)%Z then "B"
  else if (60 <=? total_score r)%Z then "C"
  else if (50 <=? total_score r)%Z then "D"
  else "F".

(** The explanation returned by [determine_replicability]. *)
Inductive Note : Type :=
| Mostly_paid_traffic (paid : Q)
| Mixed_traffic_sources
| Mostly_organic (organic : Q)
| Simple_single_feature_tool
| Early_stage
| Insufficient_data.

Record SaaSIdea : Type := MkSaaSIdea {
  tweet_id : string;
  tweet_url : string;
  tweet_text : string;
  author_username : string;
  author_followers : Z;
  tweet_date : Z;
  likes : Z;
  retweets : Z;
  replies : Z;
  impressions : Z;
  reported_mrr : option Q;
  revenue_confidence : Q;
  product_name : option string;
  product_url : option string;
  product_domain : option string;
  has_screenshot : bool;
  has_stripe_screenshot : bool;
  traffic : TrafficData;
  score : option ScoringResult;
  complexity : ProductComplexity.t;
  category : option string;
  replicability : ReplicabilityLevel.t;
  replicability_note : option Note;
  date_found : Z
}.

(** [SaaSIdea.engagement_rate]; [None] would be [ZeroDivisionError]. *)
Definition engagement_rate (idea : SaaSIdea) : option Q :=
  if (impressions idea =? 0)%Z then Some 0.0%Q
  else
    let total_engagement := (likes idea + retweets idea + replies idea)%Z in
    Py.truediv (inject_Z total_engagement) (inject_Z (impressions idea)).

(** [x / 2] *)
Definition half (x : Q) : Q := Qred (x / 2).

Section WithConfig.

Variable scoring_config : ScoringConfig.

Definition _score_traction (idea : SaaSIdea) : Z * list Detail :=
  let score := 0%Z in
  let details := [] in
  let mrr := match reported_mrr idea with
             | Some x => if Qeq_bool x 0 then 0%Q else x
             | None => 0%Q
             end in
  let '(score, details) :=
    if Py.fle (inject_Z (mrr_high scoring_config)) mrr
    then (30%Z, details ++ [High_MRR mrr])
    else if Py.fle (inject_Z (mrr_medium scoring_config)) mrr
    then (20%Z, details ++ [Medium_MRR mrr])
    else if Py.fle (inject_Z (mrr_low scoring_config)) mrr
    then (10%Z, details ++ [Low_MRR mrr])
    else (score, details ++ [No_significant_MRR mrr]) in
  let '(score, details) :=
    if Py.fle 0.9 (revenue_confidence idea)
    then (Z.min (score + 2) 30, details ++ [High_confidence_revenue_data])
    else (score, details) in
  (score, details).

(** [None] when reading [idea.engagement_rate] raises. *)
Definition _score_growth (idea : SaaSIdea) : option (Z * list Detail) :=
  let score := 0%Z in
  let details := [] in
  let '(score, details) :=
    if has_stripe_screenshot idea then ((score + 12)%Z, details ++ [Stripe_screenshot])
    else if has_screenshot idea then ((score + 10)%Z, details ++ [Has_screenshot])
    else (score, details) in
  let eng_threshold := engagement_rate_threshold scoring_config in
  rate ← engagement_rate idea;
  let '(score, details) :=
    if Py.flt eng_threshold rate
    then ((score + 10)%Z, details ++ [High_engagement rate])
    else if Py.flt (half eng_threshold) rate
    then ((score + 5)%Z, details ++ [Medium_engagement rate])
    else (score, details) in
  let followers := inject_Z (author_followers idea) in
  let threshold := inject_Z (follower_threshold scoring_config) in
  let '(score, details) :=
    if Py.fle threshold followers
    then ((score + 5)%Z, details ++ [Influential_author (author_followers idea)])
    else if Py.fle (half threshold) followers
    then ((score + 3)%Z, details ++ [Growing_author (author_followers idea)])
    else (score, details) in
  let score := Z.min score 25 in
  let details :=
    match details with
    | [] => [No_strong_growth_signals]
    | _ => details
    end in
  Some (score, details).

Definition _score_traffic (idea : SaaSIdea) : Z * list Detail :=
  let score := 0%Z in
  let details := [] in
  if negb (has_data (traffic idea)) then (10%Z, [No_traffic_data_available])
  else
    let traffic := traffic idea in
    let organic_threshold := organic_traffic_threshold scoring_config in
    let '(score, details) :=
      if Py.fle organic_threshold (organic_percent traffic)
      then ((score + 15)%Z, details ++ [Strong_organic (organic_percent traffic)])
      else if Py.fle (half organic_threshold) (organic_percent traffic)
      then ((score + 8)%Z, details ++ [Some_organic (organic_percent traffic)])
      else (score, details) in
    let '(score, details) :=
      if Py.flt 0.05 (paid_percent traffic) && Py.flt 0.05 (organic_percent traffic)
      then ((score + 10)%Z, details ++ [Diverse_traffic_sources])
      else (score, details) in
    let score := Z.min score 25 in
    let details :=
      match details with
      | [] => [Limited_traffic_diversity]
      | _ => details
      end in
    (score, details).

Definition _score_simplicity (idea : SaaSIdea) : Z * list Detail :=
  match complexity idea with
  | ProductComplexity.SINGLE_FEATURE => (20%Z, [Single_feature_tool])
  | ProductComplexity.SIMPLE_SAAS => (10%Z, [Simple_SaaS])
  | ProductComplexity.COMPLEX_SAAS => (5%Z, [Complex_SaaS])
  | ProductComplexity.PLATFORM => (0%Z, [Platform_complex])
  | _ => (10%Z, [Complexity_unknown])
  end.

(** [score_idea]; [None] when one of the four filters raises. *)
Definition score_idea (idea : SaaSIdea) : option ScoringResult :=
  let breakdown : gmap string (list Detail) := ∅ in
  let '(traction_score, traction_details) := _score_traction idea in
  let breakdown := <["traction" := traction_details]> breakdown in
  '(growth_score, growth_details) ← _score_growth idea;
  let breakdown := <["growth" := growth_details]> breakdown in
  let '(traffic_score, traffic_details) := _score_traffic idea in
  let breakdown := <["traffic" := traffic_details]> breakdown in
  let '(simplicity_score, simplicity_details) := _score_simplicity idea in
  let breakdown := <["simplicity" := simplicity_details]> breakdown in
  let total := (traction_score + growth_score + traffic_score + simplicity_score)%Z in
  Some (MkScoringResult total traction_score growth_score traffic_score
                        simplicity_score breakdown).

End WithConfig.

(** [if x:] for an optional float: present and not zero. *)
Definition truthy (x : option Q) : bool :=
  match x with
  | Some v => negb (Qeq_bool v 0)
  | None => false
  end.

Definition determine_replicability (idea : SaaSIdea) : ReplicabilityLevel.t * Note :=
  let traffic := traffic idea in
  if Py.flt 0.5 (paid_percent traffic)
  then (ReplicabilityLevel.HIGH, Mostly_paid_traffic (paid_percent traffic))
  else if Py.flt 0.2 (paid_percent traffic) && Py.flt 0.2 (organic_percent traffic)
  then (ReplicabilityLevel.MEDIUM, Mixed_traffic_sources)
  else if Py.flt 0.6 (organic_percent traffic)
  then (ReplicabilityLevel.LOW, Mostly_organic (organic_percent traffic))
  else if ProductComplexity.eqb (complexity idea) ProductComplexity.SINGLE_FEATURE
  then (ReplicabilityLevel.HIGH, Simple_single_feature_tool)
  else if truthy (reported_mrr idea) &&
          match reported_mrr idea with
          | Some mrr => Py.flt mrr 5000
          | None => false
          end
  then (ReplicabilityLevel.MEDIUM, Early_stage)
  else (ReplicabilityLevel.UNKNOWN, Insufficient_data).

(** [SaaSIdea.total_score] *)
Definition idea_total_score (idea : SaaSIdea) : Z :=
  match score idea with
  | Some r => total_score r
  | None => 0
  end.

(** [_is_stripe_screenshot] *)
Definition _is_stripe_screenshot (tweet : TwitterModels.Tweet) : bool :=
  if negb (TwitterModels.has_image tweet) then false
  else
    let text_lower := Py.lower (TwitterModels.text tweet) in
    let stripe_indicators :=
      ["stripe"; "dashboard"; "mrr chart"; "revenue chart";
       "stripe dashboard"; "payment"; "subscription"] in
    Py.any_in stripe_indicators text_lower.

(** [_estimate_complexity] *)
Definition _estimate_complexity (text : string) : ProductComplexity.t :=
  let text_lower := Py.lower text in
  let single_feature_words :=
    ["simple tool"; "one feature"; "single feature";
     "chrome extension"; "browser extension"; "bookmarklet";
     "widget"; "plugin"; "addon"; "shortcut"] in
  if Py.any_in single_feature_words text_lower then ProductComplexity.SINGLE_FEATURE
  else
    let platform_words :=
      ["platform"; "marketplace"; "ecosystem"; "suite";
       "enterprise"; "b2b platform"; "api platform"] in
    if Py.any_in platform_words text_lower then ProductComplexity.PLATFORM
    else
      let complex_words :=
        ["integrations"; "team features"; "collaboration";
         "workflow"; "automation platform"; "enterprise"] in
      if Py.any_in complex_words text_lower then ProductComplexity.COMPLEX_SAAS
      else ProductComplexity.SIMPLE_SAAS.

(** The table of [_guess_category], in the order the dictionary is
    iterated. *)
Definition categories : list (string * list string) :=
  [ ("AI/ML Tool", ["ai"; "gpt"; "llm"; "machine learning"; "chatbot"; "ai-powered"]);
    ("Video Tool", ["video"; "youtube"; "tiktok"; "reels"; "shorts"; "video editor"]);
    ("Writing Tool", ["writing"; "copywriting"; "content"; "blog"; "seo content"]);
    ("Design Tool", ["design"; "figma"; "ui/ux"; "graphics"; "logo"]);
    ("Developer Tool", ["developer"; "api"; "devtool"; "github"; "coding"; "code"]);
    ("Marketing Tool", ["marketing"; "email"; "newsletter"; "social media"; "ads"]);
    ("Productivity Tool", ["productivity"; "notion"; "task"; "todo"; "calendar"]);
    ("Analytics Tool", ["analytics"; "dashboard"; "metrics"; "tracking"]);
    ("E-commerce Tool", ["ecommerce"; "shopify"; "store"; "dropshipping"]);
    ("Finance Tool", ["finance"; "invoice"; "accounting"; "expense"; "budget"]);
    ("HR Tool", ["hr"; "hiring"; "recruitment"; "employee"; "payroll"]);
    ("Education Tool", ["education"; "course"; "learning"; "tutorial"; "teaching"]) ].

(** The loop of [_guess_category]. *)
Fixpoint first_category (table : list (string * list string)) (text_lower : string)
  : option string :=
  match table with
  | [] => None
  | (category, keywords) :: table' =>
      if Py.any_in keywords text_lower then Some category
      else first_category table' text_lower
  end.

Definition _guess_category (text : string) : option string :=
  first_category categories (Py.lower text).

(** The assignments [idea.score = ...] and
    [idea.replicability, idea.replicability_note = ...]. *)
Definition set_score (idea : SaaSIdea) (result : ScoringResult) : SaaSIdea :=
  {| tweet_id := tweet_id idea; tweet_url := tweet_url idea;
     tweet_text := tweet_text idea; author_username := author_username idea;
     author_followers := author_followers idea; tweet_date := tweet_date idea;
     likes := likes idea; retweets := retweets idea; replies := replies idea;
     impressions := impressions idea; reported_mrr := reported_mrr idea;
     revenue_confidence := revenue_confidence idea;
     product_name := product_name idea; product_url := product_url idea;
     product_domain := product_domain idea;
     has_screenshot := has_screenshot idea;
     has_stripe_screenshot := has_stripe_screenshot idea;
     traffic := traffic idea;
     score := Some result;
     complexity := complexity idea; category := category idea;
     replicability := replicability idea;
     replicability_note := replicability_note idea;
     date_found := date_found idea |}.

Definition set_replicability (idea : SaaSIdea) (level : ReplicabilityLevel.t)
    (note : Note) : SaaSIdea :=
  {| tweet_id := tweet_id idea; tweet_url := tweet_url idea;
     tweet_text := tweet_text idea; author_username := author_username idea;
     author_followers := author_followers idea; tweet_date := tweet_date idea;
     likes := likes idea; retweets := retweets idea; replies := replies idea;
     impressions := impressions idea; reported_mrr := reported_mrr idea;
     revenue_confidence := revenue_confidence idea;
     product_name := product_name idea; product_url := product_url idea;
     product_domain := product_domain idea;
     has_screenshot := has_screenshot idea;
     has_stripe_screenshot := has_stripe_screenshot idea;
     traffic := traffic idea;
     score := score idea;
     complexity := complexity idea; category := category idea;
     replicability := level;
     replicability_note := Some note;
     date_found := date_found idea |}.

(** [process_tweet], for the scorer's configuration and the time
    [datetime.now()] returns.  The outer [None] is an exception leaving
    the method, raised by [get_best_mrr] (the [OverflowError] of the MRR
    parser) or by [score_idea]; [Some None] is the result [None]. *)
Definition process_tweet (scoring_config : ScoringConfig) (now : Z)
    (tweet : TwitterModels.Tweet) : option (option SaaSIdea) :=
  if MRRParser.parse_raises (TwitterModels.text tweet) then None else
  let revenue_data := MRRParser.get_best_mrr (TwitterModels.text tweet) in
  let product_urls :=
    ParsersURL.extract_from_tweet (TwitterModels.text tweet)
                                  (Some (TwitterModels.urls tweet)) in
  match revenue_data with
  | None => Some None
  | Some revenue_data =>
      let product_url :=
        match product_urls with
        | first :: _ => Some first
        | [] => None
        end in
      let has_screenshot := TwitterModels.has_image tweet in
      let has_stripe_screenshot := _is_stripe_screenshot tweet in
      let idea :=
        {| tweet_id := TwitterModels.id tweet;
           tweet_url := TwitterModels.tweet_url tweet;
           tweet_text := TwitterModels.text tweet;
           author_username :=
             match TwitterModels.author tweet with
             | Some a => TwitterModels.username a
             | None => "unknown"
             end;
           author_followers :=
             match TwitterModels.author tweet with
             | Some a => TwitterModels.followers_count a
             | None => 0
             end;
           tweet_date := TwitterModels.created_at tweet;
           likes := TwitterModels.like_count (TwitterModels.metrics tweet);
           retweets := TwitterModels.retweet_count (TwitterModels.metrics tweet);
           replies := TwitterModels.reply_count (TwitterModels.metrics tweet);
           impressions := TwitterModels.impression_count (TwitterModels.metrics tweet);
           reported_mrr := Some (MRRParser.monthly_equivalent revenue_data);
           revenue_confidence := MRRParser.confidence revenue_data;
           product_name :=
             match product_url with
             | Some p => ParsersURL.product_name p
             | None => None
             end;
           product_url := option_map ParsersURL.url product_url;
           product_domain := option_map ParsersURL.domain product_url;
           has_screenshot := has_screenshot;
           has_stripe_screenshot := has_stripe_screenshot;
           traffic := no_traffic;
           score := None;
           complexity := _estimate_complexity (TwitterModels.text tweet);
           category := _guess_category (TwitterModels.text tweet);
           replicability := ReplicabilityLevel.UNKNOWN;
           replicability_note := None;
           date_found := now |} in
      match score_idea scoring_config idea with
      | None => None
      | Some result =>
          let idea := set_score idea result in
          let '(level, note) := determine_replicability idea in
          Some (Some (set_replicability idea level note))
      end
  end.

End Scorer.

(** ** [saas_finder/twitter/scrapers/scraper_manager.py] *)

Module ScraperManager.

(** The fields of [Tweet] the manager and the extractors read. *)
Record Tweet : Type := MkTweet {
  id : string;
  text : string;
  urls : list string
}.

(** An exception, with its message. *)
Inductive Exn : Type := Exception (msg : string).

(** What iterating an asynchronous generator to its end produces: the
    items it yields, in order, and the exception that ends it, if any. *)
Record Run : Type := MkRun {
  yielded : list Tweet;
  raised : option Exn
}.

(** Outcome of creating a scraper and awaiting its [initialize()]. *)
Inductive InitResult : Type :=
| InitTrue
| InitFalse
| InitRaise (e : Exn).

(** An implementation of [BaseScraper].  The first argument of [search]
    is the number of backend searches issued before this one: a backend
    is free to answer the same query differently at each call. *)
Record Scraper : Type := MkScraper {
  name : string;
  initialize_result : InitResult;
  search_stream : nat -> string -> Z -> option string -> option string -> Run
}.

(** The mutable attributes of a [ScraperManager], and the count of
    backend searches issued so far. *)
Record Manager : Type := MkManager {
  enable_scweet : bool;
  scrapers : list Scraper;
  active_scraper : option Scraper;
  _initialized : bool;
  calls : nat
}.

Section WithBackends.

(** The clients [initialize] creates, in priority order. *)
Variables twscrape apify scweet : Scraper.

(** One iteration of the loop of [initialize]. *)
Definition try_scraper (scrapers : list Scraper) (scraper : Scraper) : list Scraper :=
  match initialize_result scraper with
  | InitTrue => scrapers ++ [scraper]
  | InitFalse => scrapers
  | InitRaise _ => scrapers
  end.

Definition initialize (self : Manager) : bool * Manager :=
  let scrapers_to_try := [twscrape; apify] in
  let scrapers_to_try :=
    if enable_scweet self then scrapers_to_try ++ [scweet] else scrapers_to_try in
  let scrapers' := fold_left try_scraper scrapers_to_try (scrapers self) in
  match scrapers' with
  | first :: _ =>
      (true, MkManager (enable_scweet self) scrapers' (Some first) true (calls self))
  | [] =>
      (false, MkManager (enable_scweet self) scrapers' (active_scraper self)
                        (_initialized self) (calls self))
  end.

(** The loop [for scraper in self.scrapers] of [search]: [todo] are the
    scrapers still to try, [sent] the tweets yielded so far. *)
Fixpoint search_loop (query : string) (limit : Z) (since until : option string)
    (todo : list Scraper) (self : Manager) (last_error : option Exn)
    (sent : list Tweet) : Run * Manager :=
  match todo with
  | [] =>
      (* All scrapers failed: [if last_error: raise last_error] *)
      (MkRun sent last_error, self)
  | scraper :: todo' =>
      let r := search_stream scraper (calls self) query limit since until in
      let self := MkManager (enable_scweet self) (scrapers self) (active_scraper self)
                            (_initialized self) (S (calls self)) in
      match raised r with
      | None =>
          (* Success - update active scraper *)
          (MkRun (sent ++ yielded r) None,
           MkManager (enable_scweet self) (scrapers self) (Some scraper)
                     (_initialized self) (calls self))
      | Some e =>
          (* except Exception as e: last_error = e; continue *)
          search_loop query limit since until todo' self (Some e) (sent ++ yielded r)
      end
  end.

Definition search (self : Manager) (query : string) (limit : Z)
    (since until : option string) : Run * Manager :=
  let '(ready, self) :=
    if _initialized self then (true, self) else initialize self in
  if ready
  then search_loop query limit since until (scrapers self) self None []
  else (MkRun [] None, self).

(** The body of [async for tweet in self.search(...)]; the state is
    [seen_ids] and the tweets yielded so far. *)
Definition dedup_step (deduplicate : bool) (st : gset string * list Tweet)
    (tweet : Tweet) : gset string * list Tweet :=
  let '(seen_ids, out) := st in
  if deduplicate then
    if bool_decide (id tweet ∈ seen_ids) then st
    else ({[ id tweet ]} ∪ seen_ids, out ++ [tweet])
  else (seen_ids, out ++ [tweet]).

(** One iteration of [for query in queries]; an exception of [search]
    is logged and the loop continues. *)
Definition query_step (limit_per_query : Z) (deduplicate : bool)
    (st : gset string * list Tweet * Manager) (query : string)
  : gset string * list Tweet * Manager :=
  let '(seen_ids, out, self) := st in
  let '(r, self) := search self query limit_per_query None None in
  let '(seen_ids, out) :=
    fold_left (dedup_step deduplicate) (yielded r) (seen_ids, out) in
  (seen_ids, out, self).

(** [search_multiple_queries]: the tweets it yields, and the manager
    afterwards. *)
Definition search_multiple_queries (self : Manager) (queries : list string)
    (limit_per_query : Z) (deduplicate : bool) : list Tweet * Manager :=
  let '(_, out, self) :=
    fold_left (query_step limit_per_query deduplicate) queries (∅, [], self) in
  (out, self).

End WithBackends.

Section UserTweets.

(** The clients [initialize] creates, and what iterating
    [scraper.get_user_tweets(username, limit)] produces at a given call. *)
Variables twscrape apify scweet : Scraper.
Variable user_tweets_stream : Scraper -> nat -> string -> Z -> Run.

(** The loop [for scraper in self.scrapers] of [get_user_tweets]. *)
Fixpoint user_tweets_loop (username : string) (limit : Z) (todo : list Scraper)
    (self : Manager) (sent : list Tweet) : Run * Manager :=
  match todo with
  | [] =>
      (* All scrapers failed to get user tweets: logged, nothing raised *)
      (MkRun sent None, self)
  | scraper :: todo' =>
      let r := user_tweets_stream scraper (calls self) username limit in
      let self := MkManager (enable_scweet self) (scrapers self) (active_scraper self)
                            (_initialized self) (S (calls self)) in
      match raised r with
      | None =>
          (MkRun (sent ++ yielded r) None,
           MkManager (enable_scweet self) (scrapers self) (Some scraper)
                     (_initialized self) (calls self))
      | Some _ =>
          user_tweets_loop username limit todo' self (sent ++ yielded r)
      end
  end.

Definition get_user_tweets (self : Manager) (username : string) (limit : Z)
  : Run * Manager :=
  let '(ready, self) :=
    if _initialized self then (true, self) else initialize twscrape apify scweet self in
  if ready
  then user_tweets_loop username limit (scrapers self) self []
  else (MkRun [] None, self).

End UserTweets.

(** [close]: an exception of a scraper's [close()] is logged and ignored. *)
Definition close (self : Manager) : Manager :=
  MkManager (enable_scweet self) [] None false (calls self).

(** A manager as [__init__] leaves it. *)
Definition new_manager (enable_scweet : bool) : Manager :=
  MkManager enable_scweet [] None false 0.

End ScraperManager.

(** ** The replicability rules as a table *)

Module ReplicabilityRules.
Import Scorer.

(** The verdict of the first rule whose condition holds, else [default]. *)
Fixpoint first_match (rules : list (bool * ReplicabilityLevel.t))
    (default : ReplicabilityLevel.t) : ReplicabilityLevel.t :=
  match rules with
  | [] => default
  | (cond, verdict) :: rules' => if cond then verdict else first_match rules' default
  end.

(** The four rules on traffic mix and complexity. *)
Definition traffic_and_complexity_rules (idea : SaaSIdea)
  : list (bool * ReplicabilityLevel.t) :=
  let t := traffic idea in
  [ (Py.flt 0.5 (paid_percent t), ReplicabilityLevel.HIGH);
    (Py.flt 0.2 (paid_percent t) && Py.flt 0.2 (organic_percent t),
     ReplicabilityLevel.MEDIUM);
    (Py.flt 0.6 (organic_percent t), ReplicabilityLevel.LOW);
    (ProductComplexity.eqb (complexity idea) ProductComplexity.SINGLE_FEATURE,
     ReplicabilityLevel.HIGH) ].

(** The rule table in the words of the specification: the fifth rule
    asks for a monthly revenue below 5,000. *)
Definition stated_rules (idea : SaaSIdea) : list (bool * ReplicabilityLevel.t) :=
  traffic_and_complexity_rules idea ++
  [ (match reported_mrr idea with
     | Some mrr => Py.flt mrr 5000
     | None => false
     end, ReplicabilityLevel.MEDIUM) ].

(** The rule table with the fifth rule as the code tests it: a monthly
    revenue that is reported, is not zero, and is below 5,000. *)
Definition reported_revenue_rules (idea : SaaSIdea)
  : list (bool * ReplicabilityLevel.t) :=
  traffic_and_complexity_rules idea ++
  [ (match reported_mrr idea with
     | Some mrr => negb (Qeq_bool mrr 0) && Py.flt mrr 5000
     | None => false
     end, ReplicabilityLevel.MEDIUM) ].

End ReplicabilityRules.

(** ** Concrete inputs *)

Module Inputs.
Import Scorer.

(** [create_sample_idea()] of the tests, with its traffic mix, revenue
    and impressions left to choose. *)
Definition sample_idea (t : TrafficData) (mrr : option Q) (impressions : Z) : SaaSIdea :=
  {| tweet_id := "123456";
     tweet_url := "https://twitter.com/user/status/123456";
     tweet_text := "Sample tweet text";
     author_username := "testuser";
     author_followers := 1000;
     tweet_date := 0;
     likes := 100;
     retweets := 20;
     replies := 10;
     impressions := impressions;
     reported_mrr := mrr;
     revenue_confidence := 0.0%Q;
     product_name := None;
     product_url := None;
     product_domain := None;
     has_screenshot := false;
     has_stripe_screenshot := false;
     traffic := t;
     score := None;
     complexity := ProductComplexity.SIMPLE_SAAS;
     category := None;
     replicability := ReplicabilityLevel.UNKNOWN;
     replicability_note := None;
     date_found := 0 |}.

(** No traffic data, a reported monthly revenue of zero. *)
Definition zero_revenue_idea : SaaSIdea := sample_idea no_traffic (Some 0%Q) 5000.

(** Referral and direct shares only. *)
Definition referral_only : TrafficData :=
  MkTrafficData 0.0%Q 0.0%Q 0.0%Q 0.6%Q 0.4%Q None None [].

Definition referral_idea : SaaSIdea := sample_idea referral_only (Some 5000%Q) 5000.

Definition zero_impressions_idea : SaaSIdea := sample_idea no_traffic (Some 5000%Q) 0.

Import ScraperManager.

Definition tweet1 : Tweet := MkTweet "1" "Just hit $10K MRR!" [].
Definition tweet2 : Tweet := MkTweet "2" "We're at $120K ARR" [].

Definition rate_limited : Exn := Exception "rate limited".

(** Yields one tweet, then raises. *)
Definition flaky : Scraper :=
  MkScraper "twscrape" InitTrue (fun _ _ _ _ _ => MkRun [tweet1] (Some rate_limited)).

(** Yields one tweet and completes. *)
Definition steady : Scraper :=
  MkScraper "apify" InitTrue (fun _ _ _ _ _ => MkRun [tweet2] None).

(** Never initializes. *)
Definition absent : Scraper :=
  MkScraper "scweet" InitFalse (fun _ _ _ _ _ => MkRun [] None).

(** An initialized manager whose scrapers are [flaky], then [steady]. *)
Definition manager : Manager := MkManager false [flaky; steady] (Some flaky) true 0.

(** A text with a milestone of unknown kind and a month word, the match of
    the sixth pattern of [MRRParser.PATTERNS] in it, and its extractor. *)
Definition milestone_text : string := "hit $5000 this month".

Definition milestone_match : Re.Match :=
  Re.MkMatch 0 10 "hit $5000 " [Some "5000"].

Definition milestone_extractor : MRRParser.Extractor :=
  MRRParser.amount_kind MRRParser.has_k MRRParser.UNKNOWN 0.70%Q.

Definition twitter_url : string := "https://twitter.com/someone".

End Inputs.

(** * Theorems *)

(** Case analysis on every test of a straight-line definition. *)
Ltac case_ifs :=
  repeat match goal with
         | |- context [if ?b then _ else _] => destruct b
         end.

(** ** The scorer *)

Section ScorerFacts.
Import Scorer.

Variable cfg : ScoringConfig.

Lemma inject_Z_eq_0 (z : Z) : Qeq_bool (inject_Z z) 0 = true -> z = 0%Z.
Proof.
  intros H. apply Qeq_bool_iff in H. unfold Qeq in H. simpl in H. lia.
Qed.

(** The guard on [impressions] makes the division safe. *)
Lemma engagement_rate_total (idea : SaaSIdea) :
  exists rate, engagement_rate idea = Some rate.
Proof.
  unfold engagement_rate.
  destruct (impressions idea =? 0)%Z eqn:Himp; [eauto |].
  unfold Py.truediv.
  destruct (Qeq_bool (inject_Z (impressions idea)) 0) eqn:Hq; [| eauto].
  apply inject_Z_eq_0 in Hq. apply Z.eqb_neq in Himp. contradiction.
Qed.

Lemma _score_traction_bounds (idea : SaaSIdea) :
  (0 <= fst (_score_traction cfg idea) <= 30)%Z.
Proof.
  unfold _score_traction. case_ifs; simpl; lia.
Qed.

Lemma _score_growth_total (idea : SaaSIdea) :
  exists s d, _score_growth cfg idea = Some (s, d) /\ (0 <= s <= 25)%Z.
Proof.
  destruct (engagement_rate_total idea) as [rate Hrate].
  unfold _score_growth. rewrite Hrate. simpl.
  case_ifs; simpl; eexists; eexists; (split; [reflexivity | lia]).
Qed.

Lemma _score_traffic_bounds (idea : SaaSIdea) :
  (0 <= fst (_score_traffic cfg idea) <= 25)%Z.
Proof.
  unfold _score_traffic. case_ifs; simpl; lia.
Qed.

Lemma _score_simplicity_bounds (idea : SaaSIdea) :
  (0 <= fst (_score_simplicity idea) <= 20)%Z.
Proof.
  unfold _score_simplicity. destruct (complexity idea); simpl; lia.
Qed.

(** [score_idea] is the sum of the four filters, whenever the growth
    filter returns. *)
Lemma score_idea_eq (idea : SaaSIdea) (g : Z) (d : list Detail) :
  _score_growth cfg idea = Some (g, d) ->
  exists r, score_idea cfg idea = Some r /\
    traction_score r = fst (_score_traction cfg idea) /\
    growth_score r = g /\
    traffic_score r = fst (_score_traffic cfg idea) /\
    simplicity_score r = fst (_score_simplicity idea) /\
    total_score r =
      (traction_score r + growth_score r + traffic_score r + simplicity_score r)%Z.
Proof.
  intros Hg. unfold score_idea.
  destruct (_score_traction cfg idea) as [ts td].
  rewrite Hg. simpl.
  destruct (_score_traffic cfg idea) as [fs fd].
  destruct (_score_simplicity idea) as [ss sd].
  eexists. split; [reflexivity |]. simpl. repeat split; reflexivity.
Qed.

End ScorerFacts.

(** C3.  For every configuration and every idea, [score_idea] returns a
    result (no filter raises); its total is the sum of the four component
    scores and lies in [0, 100]; traction lies in [0, 30], growth in
    [0, 25], traffic in [0, 25] and simplicity in [0, 20]. *)
Theorem score_idea_total_and_bounded (cfg : Scorer.ScoringConfig) (idea : Scorer.SaaSIdea) :
  exists r, Scorer.score_idea cfg idea = Some r /\
    Scorer.total_score r =
      (Scorer.traction_score r + Scorer.growth_score r +
       Scorer.traffic_score r + Scorer.simplicity_score r)%Z /\
    (0 <= Scorer.total_score r <= 100)%Z /\
    (0 <= Scorer.traction_score r <= 30)%Z /\
    (0 <= Scorer.growth_score r <= 25)%Z /\
    (0 <= Scorer.traffic_score r <= 25)%Z /\
    (0 <= Scorer.simplicity_score r <= 20)%Z.
Proof.
  destruct (_score_growth_total cfg idea) as (g & d & Hg & Hgb).
  destruct (score_idea_eq cfg idea g d Hg) as (r & Hr & Ht & Hgr & Hf & Hs & Hsum).
  pose proof (_score_traction_bounds cfg idea) as Htb.
  pose proof (_score_traffic_bounds cfg idea) as Hfb.
  pose proof (_score_simplicity_bounds idea) as Hsb.
  exists r. rewrite <- Ht in Htb. rewrite <- Hf in Hfb. rewrite <- Hs in Hsb.
  rewrite <- Hgr in Hgb.
  repeat split; try tauto; lia.
Qed.

(** The traffic record [t] with other referral and direct shares. *)
Definition set_referral_direct (t : Scorer.TrafficData) (referral direct : Q)
  : Scorer.TrafficData :=
  Scorer.MkTrafficData
    (Scorer.organic_percent t) (Scorer.paid_percent t) (Scorer.social_percent t)
    referral direct
    (Scorer.estimated_monthly_visits t) (Scorer.domain_authority t) (Scorer.top_keywords t).

(** C9.  When the organic, paid and social shares are all zero and there is
    no estimate of monthly visits, [has_data] is false whatever the referral
    and direct shares are (changing them never changes [has_data]), and the
    traffic filter returns the neutral 10. *)
Theorem traffic_neutral_without_organic_paid_social
    (cfg : Scorer.ScoringConfig) (idea : Scorer.SaaSIdea) :
  (Scorer.organic_percent (Scorer.traffic idea) == 0)%Q ->
  (Scorer.paid_percent (Scorer.traffic idea) == 0)%Q ->
  (Scorer.social_percent (Scorer.traffic idea) == 0)%Q ->
  Scorer.estimated_monthly_visits (Scorer.traffic idea) = None ->
  Scorer.has_data (Scorer.traffic idea) = false /\
  (forall referral direct : Q,
      Scorer.has_data (set_referral_direct (Scorer.traffic idea) referral direct) =
      Scorer.has_data (Scorer.traffic idea)) /\
  Scorer._score_traffic cfg idea = (10%Z, [Scorer.No_traffic_data_available]) /\
  exists r, Scorer.score_idea cfg idea = Some r /\ Scorer.traffic_score r = 10%Z.
Proof.
  intros Ho Hp Hs Hv.
  assert (Hz : forall q : Q, (q == 0)%Q -> Py.flt 0 q = false).
  { intros q Hq. unfold Py.flt. apply negb_false_iff, Qle_bool_iff.
    rewrite Hq. apply Qle_refl. }
  assert (Hd : Scorer.has_data (Scorer.traffic idea) = false).
  { unfold Scorer.has_data. simpl. rewrite (Hz _ Ho), (Hz _ Hp), (Hz _ Hs), Hv.
    reflexivity. }
  assert (Ht : Scorer._score_traffic cfg idea = (10%Z, [Scorer.No_traffic_data_available])).
  { unfold Scorer._score_traffic. rewrite Hd. reflexivity. }
  split; [exact Hd |]. split; [intros referral direct; reflexivity |].
  split; [exact Ht |].
  destruct (_score_growth_total cfg idea) as (g & d & Hg & _).
  destruct (score_idea_eq cfg idea g d Hg) as (r & Hr & _ & _ & Hf & _).
  exists r. split; [assumption |]. rewrite Hf, Ht. reflexivity.
Qed.

(** The hypotheses of C9 hold for an idea whose traffic is 60% referral and
    40% direct. *)
Lemma traffic_neutral_witness :
  (0 < Scorer.referral_percent (Scorer.traffic Inputs.referral_idea))%Q /\
  (0 < Scorer.direct_percent (Scorer.traffic Inputs.referral_idea))%Q /\
  Scorer.has_data (Scorer.traffic Inputs.referral_idea) = false /\
  (forall referral direct : Q,
      Scorer.has_data (set_referral_direct (Scorer.traffic Inputs.referral_idea)
                                           referral direct) =
      Scorer.has_data (Scorer.traffic Inputs.referral_idea)) /\
  Scorer._score_traffic Scorer.default_config Inputs.referral_idea =
    (10%Z, [Scorer.No_traffic_data_available]) /\
  exists r, Scorer.score_idea Scorer.default_config Inputs.referral_idea = Some r /\
            Scorer.traffic_score r = 10%Z.
Proof.
  split; [reflexivity |]. split; [reflexivity |].
  apply (traffic_neutral_without_organic_paid_social
           Scorer.default_config Inputs.referral_idea); reflexivity.
Defined.

(** C10.  For every idea with zero impressions the engagement rate is
    defined and equals 0.0, and both the growth filter and [score_idea]
    return a result: no division error is raised. *)
Theorem zero_impressions_no_division_error
    (cfg : Scorer.ScoringConfig) (idea : Scorer.SaaSIdea) :
  Scorer.impressions idea = 0%Z ->
  Scorer.engagement_rate idea = Some 0.0%Q /\
  (exists s d, Scorer._score_growth cfg idea = Some (s, d)) /\
  (exists r, Scorer.score_idea cfg idea = Some r).
Proof.
  intros Himp. split.
  - unfold Scorer.engagement_rate. rewrite Himp. reflexivity.
  - destruct (_score_growth_total cfg idea) as (g & d & Hg & _).
    split; [eauto |].
    destruct (score_idea_eq cfg idea g d Hg) as (r & Hr & _). eauto.
Qed.

Lemma zero_impressions_witness :
  Scorer.engagement_rate Inputs.zero_impressions_idea = Some 0.0%Q /\
  (exists s d, Scorer._score_growth Scorer.default_config Inputs.zero_impressions_idea
               = Some (s, d)) /\
  (exists r, Scorer.score_idea Scorer.default_config Inputs.zero_impressions_idea = Some r).
Proof.
  apply (zero_impressions_no_division_error
           Scorer.default_config Inputs.zero_impressions_idea).
  reflexivity.
Defined.

(** C5, as stated, fails: an idea with no traffic data, simple-SaaS
    complexity and a reported monthly revenue of 0 has a revenue below
    5,000, so the stated rules give MEDIUM, but [determine_replicability]
    gives UNKNOWN. *)
Lemma replicability_zero_revenue_counterexample :
  Scorer.reported_mrr Inputs.zero_revenue_idea = Some 0%Q /\
  (0 < 5000)%Q /\
  ReplicabilityRules.first_match
    (ReplicabilityRules.stated_rules Inputs.zero_revenue_idea)
    ReplicabilityLevel.UNKNOWN = ReplicabilityLevel.MEDIUM /\
  fst (Scorer.determine_replicability Inputs.zero_revenue_idea) = ReplicabilityLevel.UNKNOWN.
Proof. repeat split. Qed.

(** C5, amended.  For every idea the verdict is that of the first matching
    rule, in this order: paid share > 50% gives HIGH; paid share > 20% and
    organic share > 20% gives MEDIUM; organic share > 60% gives LOW;
    single-feature complexity gives HIGH; a monthly revenue that is
    reported, is not zero and is below 5,000 gives MEDIUM; otherwise
    UNKNOWN. *)
Theorem determine_replicability_first_match (idea : Scorer.SaaSIdea) :
  fst (Scorer.determine_replicability idea) =
  ReplicabilityRules.first_match
    (ReplicabilityRules.reported_revenue_rules idea) ReplicabilityLevel.UNKNOWN.
Proof.
  unfold Scorer.determine_replicability, ReplicabilityRules.reported_revenue_rules,
    ReplicabilityRules.traffic_and_complexity_rules, Scorer.truthy.
  simpl.
  destruct (Py.flt 0.5 _); [reflexivity |].
  destruct (Py.flt 0.2 _ && Py.flt 0.2 _); [reflexivity |].
  destruct (Py.flt 0.6 _); [reflexivity |].
  destruct (ProductComplexity.eqb _ _); [reflexivity |].
  destruct (Scorer.reported_mrr idea) as [mrr |]; [| reflexivity].
  destruct (negb (Qeq_bool mrr 0) && Py.flt mrr 5000); reflexivity.
Qed.

(** ** The scraper manager *)

Section ManagerFacts.
Import ScraperManager.

Variables twscrape apify scweet : Scraper.

(** The tweets already sent are a prefix of what [search_loop] yields;
    they change nothing else. *)
Lemma search_loop_sent (query : string) (limit : Z) (since until : option string)
    (todo : list Scraper) :
  forall (self : Manager) (last_error : option Exn) (sent : list Tweet),
    search_loop query limit since until todo self last_error sent =
    (MkRun (sent ++ yielded (fst (search_loop query limit since until todo self last_error [])))
           (raised (fst (search_loop query limit since until todo self last_error []))),
     snd (search_loop query limit since until todo self last_error [])).
Proof.
  induction todo as [| scraper todo IH]; intros self last_error sent; simpl.
  - rewrite app_nil_r. reflexivity.
  - destruct (raised (search_stream scraper (calls self) query limit since until)).
    + rewrite (IH _ _ (sent ++ _)), (IH _ _ (yielded _)). simpl.
      rewrite app_assoc. reflexivity.
    + simpl. reflexivity.
Qed.

Lemma search_initialized (self : Manager) (query : string) (limit : Z)
    (since until : option string) :
  _initialized self = true ->
  search twscrape apify scweet self query limit since until =
  search_loop query limit since until (scrapers self) self None [].
Proof. intros H. unfold search. rewrite H. reflexivity. Qed.

(** A scraper whose stream ends with an exception: the loop keeps what it
    yielded, remembers the exception and goes on. *)
Lemma search_loop_cons_fail (query : string) (limit : Z) (since until : option string)
    (scraper : Scraper) (todo : list Scraper) (self : Manager)
    (last_error : option Exn) (sent items : list Tweet) (e : Exn) :
  search_stream scraper (calls self) query limit since until = MkRun items (Some e) ->
  search_loop query limit since until (scraper :: todo) self last_error sent =
  search_loop query limit since until todo
    (MkManager (enable_scweet self) (scrapers self) (active_scraper self)
               (_initialized self) (S (calls self)))
    (Some e) (sent ++ items).
Proof. intros H. simpl. rewrite H. reflexivity. Qed.

(** The run with deduplication ([d]) against the run without ([n]), after
    the same tweets went through both: the identifiers yielded by [d] are
    pairwise distinct and are exactly [seen_ids]; [d] yielded nothing that
    [n] did not; every tweet of [n] has its identifier among those of [d]. *)
Definition dedup_rel (d n : gset string * list Tweet) : Prop :=
  NoDup (map id (snd d)) /\
  (forall i, In i (map id (snd d)) <-> i ∈ fst d) /\
  (forall t, In t (snd d) -> In t (snd n)) /\
  (forall t, In t (snd n) -> In (id t) (map id (snd d))).

Lemma dedup_step_rel (d n : gset string * list Tweet) (tweet : Tweet) :
  dedup_rel d n -> dedup_rel (dedup_step true d tweet) (dedup_step false n tweet).
Proof.
  destruct d as [seen out], n as [seen_n out_n].
  intros (Hnd & Hseen & Hsub & Hcov). unfold dedup_step, dedup_rel in *. simpl in *.
  destruct (bool_decide (id tweet ∈ seen)) eqn:Hin; simpl.
  - apply bool_decide_eq_true in Hin. repeat split; try assumption.
    + apply Hseen.
    + apply Hseen.
    + intros t Ht. apply in_or_app. left. apply Hsub, Ht.
    + intros t Ht. apply in_app_or in Ht. destruct Ht as [Ht | [<- | []]].
      * apply Hcov, Ht.
      * apply Hseen, Hin.
  - apply bool_decide_eq_false in Hin. repeat split.
    + rewrite map_app. simpl. apply NoDup_app. split; [assumption |].
      split; [| apply NoDup_singleton].
      intros i Hi Hi'. apply list_elem_of_singleton in Hi'. subst i.
      apply Hin, Hseen, list_elem_of_In, Hi.
    + rewrite map_app. intros Hi. apply in_app_or in Hi.
      destruct Hi as [Hi | [<- | []]].
      * apply elem_of_union_r, Hseen, Hi.
      * apply elem_of_union_l, elem_of_singleton. reflexivity.
    + rewrite map_app. intros Hi. apply in_or_app.
      apply elem_of_union in Hi. destruct Hi as [Hi | Hi].
      * apply elem_of_singleton in Hi. subst i. right. left. reflexivity.
      * left. apply Hseen, Hi.
    + intros t Ht. apply in_or_app. apply in_app_or in Ht.
      destruct Ht as [Ht | Ht]; [left; apply Hsub, Ht | right; exact Ht].
    + intros t Ht. rewrite map_app. apply in_or_app. apply in_app_or in Ht.
      destruct Ht as [Ht | [<- | []]]; [left; apply Hcov, Ht |].
      right. left. reflexivity.
Qed.

Lemma dedup_fold_rel (tweets : list Tweet) :
  forall d n, dedup_rel d n ->
    dedup_rel (fold_left (dedup_step true) tweets d) (fold_left (dedup_step false) tweets n).
Proof.
  induction tweets as [| t tweets IH]; intros d n H; simpl; [assumption |].
  apply IH, dedup_step_rel, H.
Qed.

(** Both runs issue the same searches, so their managers stay equal. *)
Lemma query_step_rel (limit : Z) (d n : gset string * list Tweet * Manager)
    (query : string) :
  snd d = snd n -> dedup_rel (fst d) (fst n) ->
  snd (query_step twscrape apify scweet limit true d query) =
    snd (query_step twscrape apify scweet limit false n query) /\
  dedup_rel (fst (query_step twscrape apify scweet limit true d query))
            (fst (query_step twscrape apify scweet limit false n query)).
Proof.
  destruct d as [[seen out] self], n as [[seen_n out_n] self_n]. simpl.
  intros <- H. unfold query_step.
  destruct (search twscrape apify scweet self query limit None None) as [r self'].
  pose proof (dedup_fold_rel (yielded r) _ _ H) as H'.
  destruct (fold_left (dedup_step true) (yielded r) (seen, out)).
  destruct (fold_left (dedup_step false) (yielded r) (seen_n, out_n)).
  split; [reflexivity | exact H'].
Qed.

Lemma query_fold_rel (limit : Z) (queries : list string) :
  forall d n, snd d = snd n -> dedup_rel (fst d) (fst n) ->
    dedup_rel (fst (fold_left (query_step twscrape apify scweet limit true) queries d))
              (fst (fold_left (query_step twscrape apify scweet limit false) queries n)).
Proof.
  induction queries as [| q queries IH]; intros d n Hself H; simpl; [assumption |].
  destruct (query_step_rel limit d n q Hself H) as [Hself' H'].
  apply IH; assumption.
Qed.

End ManagerFacts.

(** C4.  For every manager, every list of queries and every limit, the
    tweets yielded by [search_multiple_queries] with deduplication enabled
    have pairwise distinct identifiers, whatever the backends return: a
    tweet whose identifier was yielded before is suppressed.  Nothing else
    is lost: against the same call without deduplication, every tweet
    yielded is one of that call's, and every identifier of that call
    is yielded. *)
Theorem search_multiple_queries_no_duplicate_id
    (twscrape apify scweet : ScraperManager.Scraper)
    (self : ScraperManager.Manager) (queries : list string) (limit_per_query : Z) :
  let unique := fst (ScraperManager.search_multiple_queries
                       twscrape apify scweet self queries limit_per_query true) in
  let every := fst (ScraperManager.search_multiple_queries
                      twscrape apify scweet self queries limit_per_query false) in
  NoDup (map ScraperManager.id unique) /\
  (forall t, In t unique -> In t every) /\
  (forall t, In t every -> In (ScraperManager.id t) (map ScraperManager.id unique)).
Proof.
  unfold ScraperManager.search_multiple_queries.
  pose proof (query_fold_rel twscrape apify scweet limit_per_query queries
                (∅, [], self) (∅, [], self) eq_refl) as H.
  destruct (fold_left _ queries (∅, [], self)) as [[seen out] self'].
  destruct (fold_left _ queries (∅, [], self)) as [[seen_n out_n] self_n].
  simpl in *.
  destruct H as (Hnd & _ & Hsub & Hcov).
  - unfold dedup_rel. simpl. repeat split; try constructor; try tauto.
    intros Hi. apply not_elem_of_empty in Hi. contradiction.
  - repeat split; assumption.
Qed.

(** C1, as stated, fails: the first scraper yields one tweet and then
    raises; the call does not raise, and the tweet of the second scraper
    follows the tweet already yielded. *)
Lemma search_midstream_failure_counterexample :
  ScraperManager.search_stream Inputs.flaky 0 "#buildinpublic MRR" 100 None None =
    ScraperManager.MkRun [Inputs.tweet1] (Some Inputs.rate_limited) /\
  fst (ScraperManager.search Inputs.flaky Inputs.steady Inputs.absent Inputs.manager
                             "#buildinpublic MRR" 100 None None) =
    ScraperManager.MkRun [Inputs.tweet1; Inputs.tweet2] None.
Proof. split; reflexivity. Qed.

(** C1, amended.  On an initialized manager, an exception that ends the
    stream of the first scraper, after any number of tweets, is caught: the
    tweets it yielded stay in the output and the manager goes on with the
    scrapers after it, whose output follows.  If there is no scraper left
    the exception reaches the caller; if the next scraper completes, the
    call completes and that scraper becomes the active one. *)
Theorem search_failure_falls_through
    (twscrape apify scweet : ScraperManager.Scraper) (self : ScraperManager.Manager)
    (query : string) (limit : Z) (since until : option string)
    (scraper : ScraperManager.Scraper) (rest : list ScraperManager.Scraper)
    (items : list ScraperManager.Tweet) (e : ScraperManager.Exn) :
  ScraperManager._initialized self = true ->
  ScraperManager.scrapers self = scraper :: rest ->
  ScraperManager.search_stream scraper (ScraperManager.calls self) query limit since until
    = ScraperManager.MkRun items (Some e) ->
  let result := ScraperManager.search twscrape apify scweet self query limit since until in
  let self' := ScraperManager.MkManager
                 (ScraperManager.enable_scweet self) (ScraperManager.scrapers self)
                 (ScraperManager.active_scraper self) (ScraperManager._initialized self)
                 (S (ScraperManager.calls self)) in
  let after := ScraperManager.search_loop query limit since until rest self' (Some e) [] in
  ScraperManager.yielded (fst result) = items ++ ScraperManager.yielded (fst after) /\
  ScraperManager.raised (fst result) = ScraperManager.raised (fst after) /\
  (rest = [] -> fst result = ScraperManager.MkRun items (Some e)) /\
  (forall next rest' items',
      rest = next :: rest' ->
      ScraperManager.search_stream next (S (ScraperManager.calls self)) query limit since until
        = ScraperManager.MkRun items' None ->
      fst result = ScraperManager.MkRun (items ++ items') None /\
      ScraperManager.active_scraper (snd result) = Some next).
Proof.
  intros Hinit Hscr Hrun result self' after.
  assert (Hres : result =
    ScraperManager.search_loop query limit since until rest self' (Some e) items).
  { subst result. rewrite search_initialized by assumption.
    assert (Hgen : forall l, l = scraper :: rest ->
              ScraperManager.search_loop query limit since until l self None [] =
              ScraperManager.search_loop query limit since until rest self' (Some e) items).
    { intros l ->. apply (search_loop_cons_fail _ _ _ _ _ _ _ _ [] items e Hrun). }
    apply Hgen, Hscr. }
  rewrite search_loop_sent in Hres. fold after in Hres.
  rewrite Hres. simpl. split; [reflexivity |]. split; [reflexivity |]. split.
  - intros ->. subst after. simpl. rewrite app_nil_r. reflexivity.
  - intros next rest' items' -> Hnext. subst after. simpl.
    rewrite Hnext. simpl. split; reflexivity.
Qed.

Lemma search_failure_falls_through_witness :
  fst (ScraperManager.search Inputs.flaky Inputs.steady Inputs.absent Inputs.manager
                             "#buildinpublic MRR" 100 None None) =
    ScraperManager.MkRun ([Inputs.tweet1] ++ [Inputs.tweet2]) None /\
  ScraperManager.active_scraper
    (snd (ScraperManager.search Inputs.flaky Inputs.steady Inputs.absent Inputs.manager
                                "#buildinpublic MRR" 100 None None)) = Some Inputs.steady.
Proof.
  destruct (search_failure_falls_through Inputs.flaky Inputs.steady Inputs.absent
              Inputs.manager "#buildinpublic MRR" 100 None None
              Inputs.flaky [Inputs.steady] [Inputs.tweet1] Inputs.rate_limited
              eq_refl eq_refl eq_refl) as (_ & _ & _ & Hnext).
  exact (Hnext Inputs.steady [] [Inputs.tweet2] eq_refl eq_refl).
Defined.

(** ** Lists built by the loops *)

Section LoopFacts.

Context {A B : Type}.

(** A loop that appends [y] when [f x = Some y] and skips [x] otherwise
    collects exactly the [y]s of the elements visited. *)
Lemma fold_left_collect (step : list B -> A -> list B) (f : A -> option B) :
  (forall acc x, step acc x = match f x with Some y => acc ++ [y] | None => acc end) ->
  forall (l : list A) (acc : list B) (y : B),
    In y (fold_left step l acc) <-> In y acc \/ exists x, In x l /\ f x = Some y.
Proof.
  intros Hstep. induction l as [| x l IH]; intros acc y; simpl.
  - split; [auto | intros [H | (x & [] & _)]; exact H].
  - rewrite IH, Hstep. split.
    + intros [H | (x' & Hx' & Hf)].
      * destruct (f x) as [y' |] eqn:Hfx; [| auto].
        apply in_app_or in H. destruct H as [H | [H | []]]; [auto |].
        subst y'. right. exists x. auto.
      * right. exists x'. auto.
    + intros [H | (x' & [Hx' | Hx'] & Hf)].
      * left. destruct (f x); [apply in_or_app |]; auto.
      * subst x'. left. rewrite Hf. apply in_or_app. right. left. reflexivity.
      * right. exists x'. auto.
Qed.

Lemma In_insert_desc (key : B -> Q) (x y : B) (l : list B) :
  In y (Py.insert_desc key x l) <-> y = x \/ In y l.
Proof.
  induction l as [| z l IH]; simpl.
  - split; [intros [H | []]; auto | intros [H | []]; auto].
  - destruct (Py.flt (key x) (key z)); simpl; [rewrite IH |]; intuition auto.
Qed.

(** Sorting keeps the elements. *)
Lemma In_sorted_desc (key : B -> Q) (y : B) (l : list B) :
  In y (Py.sorted_desc key l) <-> In y l.
Proof.
  induction l as [| x l IH]; simpl; [reflexivity |].
  rewrite In_insert_desc, IH. intuition auto.
Qed.

(** A loop that keeps or skips each element adds nothing else. *)
Lemma fold_left_keep_subset (skip : list B -> B -> bool) :
  forall (l acc : list B) (y : B),
    In y (fold_left (fun unique x => if skip unique x then unique else unique ++ [x])
                    l acc) ->
    In y acc \/ In y l.
Proof.
  induction l as [| x l IH]; intros acc y H; simpl in *; [auto |].
  apply IH in H. destruct H as [H | H]; [| auto].
  destruct (skip acc x); [auto |].
  apply in_app_or in H. destruct H as [H | [H | []]]; auto.
Qed.

End LoopFacts.

(** ** The revenue extractor *)

Section RevenueExtractorFacts.
Import RevenueExtractor.











End RevenueExtractorFacts.

(** ** The MRR parser *)

Section MRRParserFacts.
Import MRRParser.

Lemma flt_false_le (a b : Q) : Py.flt a b = false -> (b <= a)%Q.
Proof. unfold Py.flt. intros H. apply negb_false_iff, Qle_bool_iff in H. exact H. Qed.

Lemma flt_true_lt (a b : Q) : Py.flt a b = true -> (a < b)%Q.
Proof.
  unfold Py.flt. intros H. apply negb_true_iff in H.
  destruct (Qlt_le_dec a b) as [Hlt | Hle]; [exact Hlt |].
  apply Qle_bool_iff in Hle. congruence.
Qed.

Lemma le_flt_false (a b : Q) : (b <= a)%Q -> Py.flt a b = false.
Proof. unfold Py.flt. intros H. apply negb_false_iff, Qle_bool_iff, H. Qed.

(** [min(x, 1.0)] is the rational minimum. *)
Lemma fmin_one (x : Q) : (Py.fmin x 1.0 == Qmin x 1)%Q.
Proof.
  assert (H1 : (1.0 == 1)%Q) by reflexivity.
  unfold Py.fmin. destruct (Py.flt 1.0 x) eqn:H.
  - apply flt_true_lt in H. rewrite H1 in H. rewrite Q.min_r; [exact H1 |].
    apply Qlt_le_weak. exact H.
  - apply flt_false_le in H. rewrite H1 in H. rewrite Q.min_l; [reflexivity | exact H].
Qed.

Lemma fmin_one_le (x : Q) : (Py.fmin x 1.0 <= 1)%Q.
Proof. rewrite fmin_one. apply Q.le_min_r. Qed.

(** What the loop body of [parse] appends for a match. *)
Lemma parse_match_Some (text : string) (m : Re.Match) (extractor : Extractor)
    (r : RevenueData) :
  parse_match text (m, extractor) = Some r ->
  exists a ty conf,
    extractor m = Some (a, ty, conf) /\ (100 <= a)%Q /\
    r = MkRevenueData a (fst (boost (Py.lower text) ty conf)) (Re.group0 m)
                      (Py.fmin (snd (boost (Py.lower text) ty conf)) 1.0).
Proof.
  unfold parse_match.
  destruct (extractor m) as [[[a ty] conf] |]; [| discriminate].
  destruct (Py.flt a 100) eqn:Hsmall; [discriminate |].
  destruct (boost (Py.lower text) ty conf) as [ty' conf'] eqn:Hb.
  intros H. injection H as <-. exists a, ty, conf.
  split; [reflexivity |]. split; [apply flt_false_le, Hsmall |].
  rewrite Hb. reflexivity.
Qed.

Lemma In_parse_results (text : string) (r : RevenueData) :
  In r (parse_results text) <->
  exists c, In c (all_matches text) /\ parse_match text c = Some r.
Proof.
  unfold parse_results.
  rewrite (fold_left_collect (parse_step text) (parse_match text)) by reflexivity.
  simpl. tauto.
Qed.

Lemma In__deduplicate (results : list RevenueData) (r : RevenueData) :
  In r (_deduplicate results) -> In r results.
Proof.
  unfold _deduplicate. destruct (length results <=? 1)%nat; [auto |].
  intros H. apply fold_left_keep_subset in H. destruct H as [[] | H].
  apply In_sorted_desc in H. exact H.
Qed.

(** What [parse] returns was appended by its loop. *)
Lemma In_parse (text : string) (r : RevenueData) :
  In r (parse text) -> In r (parse_results text).
Proof.
  unfold parse. rewrite In_sorted_desc. apply In__deduplicate.
Qed.


(** [boost] on the kind [UNKNOWN]: the three tests of [parse], in order. *)
Lemma boost_unknown (text_lower : string) (conf : Q) :
  boost text_lower UNKNOWN conf =
  if Py.contains "mrr" text_lower then (MRR, Py.fadd conf 0.1)
  else if Py.contains "arr" text_lower then (ARR, Py.fadd conf 0.1)
  else if Py.any_in ["month"; "monthly"; "/mo"] text_lower
       then (MONTHLY, Py.fadd conf 0.05)
       else (UNKNOWN, conf).
Proof. reflexivity. Qed.

(** With a context keyword in the text, [boost] leaves no kind unknown. *)
Lemma boost_known (text_lower : string) (ty : RevenueType) (conf : Q) :
  Py.contains "mrr" text_lower || Py.contains "arr" text_lower ||
  Py.any_in ["month"; "monthly"; "/mo"] text_lower = true ->
  fst (boost text_lower ty conf) <> UNKNOWN.
Proof.
  unfold boost. intros Hkw.
  destruct ty; simpl; try discriminate.
  destruct (Py.contains "mrr" text_lower); [discriminate |].
  destruct (Py.contains "arr" text_lower); [discriminate |].
  simpl in Hkw. unfold Py.any_in in *. rewrite Hkw. discriminate.
Qed.

End MRRParserFacts.



(** The context boost of [MRRParser.parse].  For a match whose extractor
    gives the kind UNKNOWN (and an amount of at least 100): if ['mrr'],
    ['arr'] or a month word occurs in the lower-cased text, the candidate
    [parse] builds for the match has the kind MRR, else ARR, else MONTHLY,
    in this order of precedence, and its confidence is the minimum of 1 and
    the base confidence plus 0.1 (0.05 for a month word).  Every candidate
    [parse] returns is one built this way, none has the kind UNKNOWN, and
    none has a confidence above 1. *)
Lemma parse_boosts_unknown
    (text : string) (m : Re.Match) (extractor : MRRParser.Extractor) (amount conf : Q) :
  In (m, extractor) (MRRParser.all_matches text) ->
  extractor m = Some (amount, MRRParser.UNKNOWN, conf) ->
  (100 <= amount)%Q ->
  let mrr := Py.contains "mrr" (Py.lower text) in
  let arr := Py.contains "arr" (Py.lower text) in
  let month := Py.any_in ["month"; "monthly"; "/mo"] (Py.lower text) in
  mrr || arr || month = true ->
  exists r,
    MRRParser.parse_match text (m, extractor) = Some r /\
    In r (MRRParser.parse_results text) /\
    MRRParser.amount r = amount /\
    MRRParser.raw_text r = Re.group0 m /\
    MRRParser.type r =
      (if mrr then MRRParser.MRR else if arr then MRRParser.ARR else MRRParser.MONTHLY) /\
    (MRRParser.confidence r == Qmin (conf + (if mrr || arr then 0.1 else 0.05)) 1)%Q /\
    forall r', In r' (MRRParser.parse text) ->
      In r' (MRRParser.parse_results text) /\
      MRRParser.type r' <> MRRParser.UNKNOWN /\
      (MRRParser.confidence r' <= 1)%Q.
Proof.
  intros Hin Hex Hamount mrr arr month Hkw. subst mrr arr month.
  assert (Hpm : MRRParser.parse_match text (m, extractor) =
    Some (MRRParser.MkRevenueData amount
            (fst (MRRParser.boost (Py.lower text) MRRParser.UNKNOWN conf)) (Re.group0 m)
            (Py.fmin (snd (MRRParser.boost (Py.lower text) MRRParser.UNKNOWN conf)) 1.0))).
  { unfold MRRParser.parse_match. rewrite Hex, (le_flt_false _ _ Hamount).
    destruct (MRRParser.boost _ _ _). reflexivity. }
  eexists. split; [exact Hpm |].
  split; [apply In_parse_results; exists (m, extractor); split; assumption |].
  split; [reflexivity |]. split; [reflexivity |].
  cbn [MRRParser.type MRRParser.confidence].
  split; [| split].
  - rewrite boost_unknown.
    destruct (Py.contains "mrr" _); [reflexivity |].
    destruct (Py.contains "arr" _); [reflexivity |].
    cbn [orb] in Hkw. rewrite Hkw. reflexivity.
  - rewrite fmin_one, boost_unknown.
    destruct (Py.contains "mrr" _);
      [cbn [orb snd]; unfold Py.fadd; rewrite Qred_correct; reflexivity |].
    destruct (Py.contains "arr" _);
      [cbn [orb snd]; unfold Py.fadd; rewrite Qred_correct; reflexivity |].
    cbn [orb] in Hkw. rewrite Hkw.
    cbn [orb snd]. unfold Py.fadd. rewrite Qred_correct. reflexivity.
  - intros r' Hr'. apply In_parse in Hr'. split; [exact Hr' |].
    apply In_parse_results in Hr'. destruct Hr' as ([m' extractor'] & _ & Hr').
    apply parse_match_Some in Hr'. destruct Hr' as (a & ty & c & _ & _ & ->).
    cbn [MRRParser.type MRRParser.confidence].
    split; [apply boost_known, Hkw | apply fmin_one_le].
Qed.

(** C8.  [$120K ARR] gives the amount 120,000 with the kind ARR, from the
    MRR parser and from the revenue extractor, and the monthly equivalent of
    the parser's result is 10,000.  The monthly equivalent of any revenue
    data is its amount divided by 12 when its kind is ARR, and its amount
    unchanged for every other kind. *)
Theorem arr_120k_monthly_equivalent :
  MRRParser.get_best_mrr "$120K ARR" =
    Some (MRRParser.MkRevenueData 120000%Q MRRParser.ARR "$120K ARR" 0.95%Q) /\
  option_map MRRParser.monthly_equivalent (MRRParser.get_best_mrr "$120K ARR") =
    Some 10000%Q /\
  RevenueExtractor.extract "$120K ARR" =
    Some (RevenueExtractor.MkExtractedRevenue
            "$120K ARR" 120000 RevenueExtractor.ARR 0.95%Q false) /\
  (forall r, MRRParser.type r = MRRParser.ARR ->
             (MRRParser.monthly_equivalent r == MRRParser.amount r / 12)%Q) /\
  (forall r, MRRParser.type r <> MRRParser.ARR ->
             MRRParser.monthly_equivalent r = MRRParser.amount r).
Proof.
  split; [vm_compute; reflexivity |].
  split; [vm_compute; reflexivity |].
  split; [vm_compute; reflexivity |].
  split; intros r Hr; unfold MRRParser.monthly_equivalent.
  - rewrite Hr. simpl. apply Qred_correct.
  - destruct (MRRParser.type r); simpl; congruence.
Qed.

(** ** The URL extractor *)

Section URLExtractorFacts.
Import URLExtractor.

Lemma prefix_refl (s : string) : String.prefix s s = true.
Proof.
  induction s as [| c s IH]; simpl; [reflexivity |].
  destruct (ascii_dec c c); [exact IH | contradiction].
Qed.

(** Every string contains itself. *)
Lemma contains_refl (s : string) : Py.contains s s = true.
Proof.
  destruct s as [| c s]; [reflexivity |].
  change (Py.contains (String c s) (String c s))
    with (String.prefix (String c s) (String c s) || Py.contains (String c s) s).
  rewrite prefix_refl. reflexivity.
Qed.

(** A domain of the exclusion set passes the substring test of
    [_analyze_url]. *)
Lemma In_EXCLUDED_is_excluded (domain : string) :
  In domain EXCLUDED_DOMAINS -> is_excluded domain = true.
Proof.
  intros H. unfold is_excluded. apply existsb_exists.
  exists domain. split; [exact H | apply contains_refl].
Qed.

Lemma _analyze_url_url (u : string) (p : ExtractedProduct) :
  _analyze_url u = Some p -> url p = u.
Proof.
  unfold _analyze_url. destruct (UrlParse.urlparse u); [| discriminate].
  destruct (is_excluded _); intros H; injection H as <-; reflexivity.
Qed.

Lemma _analyze_url_excluded (u : string) (parsed : UrlParse.ParseResult) :
  UrlParse.urlparse u = Some parsed ->
  In (clean_domain (UrlParse.netloc parsed)) EXCLUDED_DOMAINS ->
  _analyze_url u =
    Some (MkExtractedProduct u None (clean_domain (UrlParse.netloc parsed)) false).
Proof.
  intros Hp Hd. unfold _analyze_url. rewrite Hp, (In_EXCLUDED_is_excluded _ Hd).
  reflexivity.
Qed.

(** [extract] returns the valid products among the analysed URLs. *)
Lemma In_extract (text : string) (urls : option (list string)) (p : ExtractedProduct) :
  In p (extract text urls) <->
  exists u, u ∈ all_urls text urls /\ _analyze_url u = Some p /\ is_valid_product p = true.
Proof.
  unfold extract.
  rewrite (fold_left_collect _
             (fun u => match _analyze_url u with
                       | Some product => if is_valid_product product then Some product else None
                       | None => None
                       end)).
  - split.
    + intros [[] | (u & Hu & Hf)]. exists u.
      split; [apply elem_of_elements, list_elem_of_In, Hu |].
      destruct (_analyze_url u) as [q |]; [| discriminate].
      destruct (is_valid_product q) eqn:Hv; [| discriminate].
      injection Hf as <-. split; [reflexivity | exact Hv].
    + intros (u & Hu & Ha & Hv). right. exists u.
      split; [apply list_elem_of_In, elem_of_elements, Hu |].
      rewrite Ha, Hv. reflexivity.
  - intros acc u. destruct (_analyze_url u) as [q |]; [| reflexivity].
    destruct (is_valid_product q); reflexivity.
Qed.

(** [extract_all] returns every analysed URL. *)
Lemma In_extract_all (text : string) (urls : option (list string)) (p : ExtractedProduct) :
  In p (extract_all text urls) <->
  exists u, u ∈ all_urls text urls /\ _analyze_url u = Some p.
Proof.
  unfold extract_all. rewrite (fold_left_collect _ _analyze_url) by reflexivity.
  split.
  - intros [[] | (u & Hu & Hf)]. exists u.
    split; [apply elem_of_elements, list_elem_of_In, Hu | exact Hf].
  - intros (u & Hu & Ha). right. exists u.
    split; [apply list_elem_of_In, elem_of_elements, Hu | exact Ha].
Qed.

End URLExtractorFacts.

(** C6, as stated, fails: the attached URL [https://twitter.com/someone] is
    a candidate whose domain [twitter.com] is in the exclusion set, and
    [extract] returns the empty list. *)
Lemma extract_omits_excluded_domain :
  Inputs.twitter_url ∈ URLExtractor.all_urls "" (Some [Inputs.twitter_url]) /\
  option_map (fun parsed => URLExtractor.clean_domain (UrlParse.netloc parsed))
             (UrlParse.urlparse Inputs.twitter_url) = Some "twitter.com" /\
  In "twitter.com" URLExtractor.EXCLUDED_DOMAINS /\
  URLExtractor.extract "" (Some [Inputs.twitter_url]) = [].
Proof.
  split; [unfold URLExtractor.all_urls; set_solver |].
  split; [vm_compute; reflexivity |].
  split; [simpl; tauto |].
  vm_compute. reflexivity.
Qed.

(** C6, amended.  For every text and attached-URL list, a candidate URL
    that [urlparse] accepts and whose lower-cased, www-stripped domain is
    in the exclusion set is omitted from the result of [extract]; it is in
    the result of [extract_all], with its validity flag set to false. *)
Theorem excluded_domain_only_in_extract_all
    (text : string) (urls : option (list string)) (u : string)
    (parsed : UrlParse.ParseResult) :
  u ∈ URLExtractor.all_urls text urls ->
  UrlParse.urlparse u = Some parsed ->
  In (URLExtractor.clean_domain (UrlParse.netloc parsed)) URLExtractor.EXCLUDED_DOMAINS ->
  (forall p, In p (URLExtractor.extract text urls) -> URLExtractor.url p <> u) /\
  In (URLExtractor.MkExtractedProduct
        u None (URLExtractor.clean_domain (UrlParse.netloc parsed)) false)
     (URLExtractor.extract_all text urls) /\
  (forall p, In p (URLExtractor.extract_all text urls) ->
             URLExtractor.url p = u -> URLExtractor.is_valid_product p = false).
Proof.
  intros Hu Hp Hd.
  pose proof (_analyze_url_excluded u parsed Hp Hd) as Ha.
  split; [| split].
  - intros p Hin Heq. apply In_extract in Hin. destruct Hin as (u' & _ & Ha' & Hv).
    pose proof (_analyze_url_url _ _ Ha') as Hu'. rewrite Heq in Hu'. subst u'.
    rewrite Ha in Ha'. injection Ha' as <-. discriminate Hv.
  - apply In_extract_all. exists u. split; assumption.
  - intros p Hin Heq. apply In_extract_all in Hin. destruct Hin as (u' & _ & Ha').
    pose proof (_analyze_url_url _ _ Ha') as Hu'. rewrite Heq in Hu'. subst u'.
    rewrite Ha in Ha'. injection Ha' as <-. reflexivity.
Qed.

Lemma excluded_domain_only_in_extract_all_witness :
  (forall p, In p (URLExtractor.extract "" (Some [Inputs.twitter_url])) ->
             URLExtractor.url p <> Inputs.twitter_url) /\
  In (URLExtractor.MkExtractedProduct Inputs.twitter_url None "twitter.com" false)
     (URLExtractor.extract_all "" (Some [Inputs.twitter_url])) /\
  (forall p, In p (URLExtractor.extract_all "" (Some [Inputs.twitter_url])) ->
             URLExtractor.url p = Inputs.twitter_url ->
             URLExtractor.is_valid_product p = false).
Proof.
  assert (Hu : Inputs.twitter_url ∈ URLExtractor.all_urls "" (Some [Inputs.twitter_url])).
  { unfold URLExtractor.all_urls. set_solver. }
  assert (Hd : In "twitter.com" URLExtractor.EXCLUDED_DOMAINS).
  { simpl. tauto. }
  exact (excluded_domain_only_in_extract_all "" (Some [Inputs.twitter_url])
           Inputs.twitter_url
           (UrlParse.MkParseResult "https" "twitter.com" "/someone")
           Hu eq_refl Hd).
Defined.

(** * Further properties *)

(** ** Sorting by descending key *)

Section SortFacts.

Context {B : Type}.
Variable key : B -> Q.

(** [descending l]: every element's key is at least the key of every
    element after it. *)
Definition descending (l : list B) : Prop :=
  ForallOrdPairs (fun a b => (key b <= key a)%Q) l.

Lemma insert_desc_perm (x : B) (l : list B) :
  Permutation (Py.insert_desc key x l) (x :: l).
Proof.
  induction l as [| y l IH]; simpl; [reflexivity |].
  destruct (Py.flt (key x) (key y)); [| reflexivity].
  rewrite IH. apply perm_swap.
Qed.

Lemma sorted_desc_perm (l : list B) : Permutation (Py.sorted_desc key l) l.
Proof.
  induction l as [| x l IH]; simpl; [reflexivity |].
  rewrite insert_desc_perm, IH. reflexivity.
Qed.

Lemma insert_desc_descending (x : B) (l : list B) :
  descending l -> descending (Py.insert_desc key x l).
Proof.
  unfold descending. induction l as [| y l IH]; intros Hl; simpl.
  - constructor; constructor.
  - inversion Hl as [| y' l' Hy Hl']; subst.
    destruct (Py.flt (key x) (key y)) eqn:Hxy.
    + apply flt_true_lt in Hxy. constructor; [| apply IH, Hl'].
      apply List.Forall_forall. intros z Hz. apply In_insert_desc in Hz.
      destruct Hz as [-> | Hz]; [apply Qlt_le_weak, Hxy |].
      rewrite List.Forall_forall in Hy. apply Hy, Hz.
    + apply flt_false_le in Hxy. constructor; [| exact Hl].
      constructor; [exact Hxy |].
      rewrite List.Forall_forall in Hy |- *. intros z Hz.
      apply Qle_trans with (key y); [apply Hy, Hz | exact Hxy].
Qed.

Lemma sorted_desc_descending (l : list B) : descending (Py.sorted_desc key l).
Proof.
  induction l as [| x l IH]; simpl; [constructor |].
  apply insert_desc_descending, IH.
Qed.

(** The head of a descending list has the largest key. *)
Lemma descending_head (x : B) (l : list B) (y : B) :
  descending (x :: l) -> In y (x :: l) -> (key y <= key x)%Q.
Proof.
  intros H Hy. inversion H as [| x' l' Hx _]; subst.
  destruct Hy as [<- | Hy]; [apply Qle_refl |].
  rewrite List.Forall_forall in Hx. apply Hx, Hy.
Qed.

Lemma descending_filter (P : B -> Prop) `{forall x, Decision (P x)} (l : list B) :
  descending l -> descending (filter P l).
Proof.
  unfold descending. induction 1 as [| x l Hx Hl IH]; [constructor |].
  rewrite filter_cons. destruct (decide (P x)); [| exact IH].
  constructor; [| exact IH].
  rewrite List.Forall_forall in Hx |- *. intros y Hy.
  apply list_elem_of_In, list_elem_of_filter in Hy. apply Hx, list_elem_of_In, Hy.
Qed.

End SortFacts.

(** ** The revenue extractor: the two loops compared *)

Section RevenueExtractorLoops.
Import RevenueExtractor.

(** The record an iteration of either loop builds for a match, if any;
    [shot] is the screenshot flag of the text. *)
Definition candidate (shot : bool) (c : Re.Match * RevenueType * Q)
  : option ExtractedRevenue :=
  let '(m, revenue_type, base_confidence) := c in
  match _parse_match m base_confidence with
  | Some (Some a, conf) =>
      if (a <=? 0)%Z then None
      else Some (MkExtractedRevenue (Re.group0 m) a revenue_type
                   (if shot then Py.fmin (Py.fadd conf 0.1) 1.0 else conf) shot)
  | _ => None
  end.

Lemma extract_step_candidate (text : string)
    (st : option ExtractedRevenue * Q) (c : Re.Match * RevenueType * Q) :
  extract_step text st c =
  match candidate (_check_screenshot_indicators text) c with
  | Some v => if Py.flt (snd st) (confidence v) then (Some v, confidence v) else st
  | None => st
  end.
Proof.
  unfold extract_step, candidate. destruct st as [best bc], c as [[m ty] base].
  destruct (_parse_match m base) as [[[a |] conf] |]; try reflexivity.
  destruct (a <=? 0)%Z; reflexivity.
Qed.

Lemma extract_all_step_candidate (shot : bool)
    (st : list ExtractedRevenue * gset Z) (c : Re.Match * RevenueType * Q) :
  extract_all_step shot st c =
  match candidate shot c with
  | Some v => if bool_decide (amount v ∈ snd st) then st
              else (fst st ++ [v], {[ amount v ]} ∪ snd st)
  | None => st
  end.
Proof.
  unfold extract_all_step, candidate. destruct st as [results seen], c as [[m ty] base].
  destruct (_parse_match m base) as [[[a |] conf] |]; try reflexivity.
  destruct (a <=? 0)%Z; reflexivity.
Qed.

(** The base confidences of [PATTERNS]. *)
Lemma PATTERNS_confidence :
  Forall (fun p => (0.70 <= snd p <= 0.95)%Q) PATTERNS.
Proof.
  unfold PATTERNS.
  repeat (constructor; [simpl; split; unfold Qle; simpl; lia |]).
  constructor.
Qed.

Lemma all_matches_confidence (text : string) (m : Re.Match) (ty : RevenueType) (base : Q) :
  In (m, ty, base) (all_matches text) -> (0.70 <= base <= 0.95)%Q.
Proof.
  unfold all_matches. intros H. apply in_flat_map in H.
  destruct H as ([[pat ty'] base'] & Hp & Hm).
  apply in_map_iff in Hm. destruct Hm as (m' & Heq & _). injection Heq as _ _ <-.
  pose proof PATTERNS_confidence as HF. rewrite List.Forall_forall in HF.
  apply (HF _ Hp).
Qed.

Lemma _parse_match_confidence (m : Re.Match) (base conf : Q) (a : Z) :
  _parse_match m base = Some (Some a, conf) -> conf = base.
Proof.
  unfold _parse_match. destruct (Py.contains "figure" _).
  - destruct (Re.group_at m 0); [| discriminate]. intros H. injection H as _ <-. reflexivity.
  - destruct (Re.group_at m 0) as [[g0 |] |]; try discriminate.
    destruct (Py.float_of_string _); [| discriminate].
    case_ifs; intros H; try discriminate; injection H as _ <-; reflexivity.
Qed.

(** A candidate: positive amount, the flag of the text, a confidence
    between 0.70 and 1; above 0.79 with the flag (the smallest case is the
    sum 0.70 + 0.1, which a float sum leaves just short of 0.80), and 0.95
    at most without it. *)
Lemma candidate_facts (shot : bool) (m : Re.Match) (ty : RevenueType) (base : Q)
    (v : ExtractedRevenue) :
  candidate shot (m, ty, base) = Some v ->
  (0.70 <= base <= 0.95)%Q ->
  (0 < amount v)%Z /\ has_screenshot v = shot /\
  (0.70 <= confidence v <= 1)%Q /\
  (shot = true -> (0.79 <= confidence v)%Q) /\
  (shot = false -> (confidence v <= 0.95)%Q).
Proof.
  unfold candidate. intros H [Hlo Hhi].
  destruct (_parse_match m base) as [[[a |] conf] |] eqn:Hp; try discriminate.
  apply _parse_match_confidence in Hp. subst conf.
  destruct (a <=? 0)%Z eqn:Ha; [discriminate |]. injection H as <-. simpl.
  apply Z.leb_gt in Ha. split; [exact Ha |]. split; [reflexivity |].
  destruct shot.
  - assert (Hb : (Py.fmin (Py.fadd base 0.1) 1.0 == Qmin (base + 0.1) 1)%Q).
    { rewrite fmin_one. unfold Py.fadd. rewrite Qred_correct. reflexivity. }
    assert (H80 : (0.80 <= Qmin (base + 0.1) 1)%Q).
    { apply Q.min_glb; lra. }
    rewrite Hb. split; [split; [lra | apply Q.le_min_r] |].
    split; [intros _; lra | discriminate].
  - split; [split; lra |]. split; [discriminate | intros _; lra].
Qed.

(** What the loop of [extract] holds after the matches [done]: nothing when
    no match gave a candidate, else a candidate of largest confidence. *)
Definition best_of (done : list (Re.Match * RevenueType * Q)) (shot : bool)
    (st : option ExtractedRevenue * Q) : Prop :=
  match fst st with
  | None => (snd st == 0)%Q /\ forall c, In c done -> candidate shot c = None
  | Some r =>
      snd st = confidence r /\
      (exists c, In c done /\ candidate shot c = Some r) /\
      forall c v, In c done -> candidate shot c = Some v -> (confidence v <= confidence r)%Q
  end.

Lemma extract_fold_best (text : string) (todo : list (Re.Match * RevenueType * Q)) :
  forall done st,
    (forall c v, In c todo ->
       candidate (_check_screenshot_indicators text) c = Some v -> (0 < confidence v)%Q) ->
    best_of done (_check_screenshot_indicators text) st ->
    best_of (done ++ todo) (_check_screenshot_indicators text)
            (fold_left (extract_step text) todo st).
Proof.
  set (shot := _check_screenshot_indicators text).
  induction todo as [| c todo IH]; intros done st Hpos Hst; simpl.
  - rewrite app_nil_r. exact Hst.
  - replace (done ++ c :: todo) with ((done ++ [c]) ++ todo)
      by (rewrite <- app_assoc; reflexivity).
    apply IH; [intros c' v Hc'; apply Hpos; right; exact Hc' |].
    rewrite extract_step_candidate. fold shot.
    destruct st as [best bc]. unfold best_of in *. simpl in *.
    destruct (candidate shot c) as [v |] eqn:Hc.
    + assert (Hv : (0 < confidence v)%Q) by (apply (Hpos c v); [left; reflexivity | exact Hc]).
      destruct best as [r |].
      * destruct Hst as (-> & (c0 & Hc0 & Hr) & Hmax).
        destruct (Py.flt (confidence r) (confidence v)) eqn:Hlt; simpl.
        -- apply flt_true_lt in Hlt. split; [reflexivity |].
           split; [exists c; split; [apply in_or_app; right; left; reflexivity | exact Hc] |].
           intros c' v' Hc' Hv'. apply in_app_or in Hc'. destruct Hc' as [Hc' | [<- | []]].
           ++ apply Qle_trans with (confidence r); [apply (Hmax c' v' Hc' Hv') |].
              apply Qlt_le_weak, Hlt.
           ++ rewrite Hc in Hv'. injection Hv' as <-. apply Qle_refl.
        -- apply flt_false_le in Hlt. split; [reflexivity |].
           split; [exists c0; split; [apply in_or_app; left; exact Hc0 | exact Hr] |].
           intros c' v' Hc' Hv'. apply in_app_or in Hc'. destruct Hc' as [Hc' | [<- | []]].
           ++ apply (Hmax c' v' Hc' Hv').
           ++ rewrite Hc in Hv'. injection Hv' as <-. exact Hlt.
      * destruct Hst as (Hbc & Hnone).
        assert (Hlt : Py.flt bc (confidence v) = true).
        { unfold Py.flt. apply negb_true_iff.
          destruct (Qle_bool (confidence v) bc) eqn:Hle; [| reflexivity].
          apply Qle_bool_iff in Hle. rewrite Hbc in Hle. lra. }
        rewrite Hlt. simpl. split; [reflexivity |].
        split; [exists c; split; [apply in_or_app; right; left; reflexivity | exact Hc] |].
        intros c' v' Hc' Hv'. apply in_app_or in Hc'. destruct Hc' as [Hc' | [<- | []]].
        -- rewrite (Hnone c' Hc') in Hv'. discriminate.
        -- rewrite Hc in Hv'. injection Hv' as <-. apply Qle_refl.
    + destruct best as [r |]; simpl.
      * destruct Hst as (Hbc & (c0 & Hc0 & Hr) & Hmax). split; [exact Hbc |].
        split; [exists c0; split; [apply in_or_app; left; exact Hc0 | exact Hr] |].
        intros c' v' Hc' Hv'. apply in_app_or in Hc'. destruct Hc' as [Hc' | [<- | []]].
        -- apply (Hmax c' v' Hc' Hv').
        -- rewrite Hc in Hv'. discriminate.
      * destruct Hst as (Hbc & Hnone). split; [exact Hbc |].
        intros c' Hc'. apply in_app_or in Hc'. destruct Hc' as [Hc' | [<- | []]].
        -- apply Hnone, Hc'.
        -- exact Hc.
Qed.

(** What the loop of [extract_all] holds after the matches [done]: one
    candidate for each amount a match gave, the first one, and
    [seen_amounts] are the amounts of the results. *)
Definition firsts_of (done : list (Re.Match * RevenueType * Q)) (shot : bool)
    (st : list ExtractedRevenue * gset Z) : Prop :=
  NoDup (map amount (fst st)) /\
  (forall a, a ∈ snd st <-> In a (map amount (fst st))) /\
  (forall v, In v (fst st) -> exists c, In c done /\ candidate shot c = Some v) /\
  (forall c v, In c done -> candidate shot c = Some v -> amount v ∈ snd st).

Lemma extract_all_fold_firsts (shot : bool) (todo : list (Re.Match * RevenueType * Q)) :
  forall done st,
    firsts_of done shot st ->
    firsts_of (done ++ todo) shot (fold_left (extract_all_step shot) todo st).
Proof.
  induction todo as [| c todo IH]; intros done st Hst; simpl.
  - rewrite app_nil_r. exact Hst.
  - replace (done ++ c :: todo) with ((done ++ [c]) ++ todo)
      by (rewrite <- app_assoc; reflexivity).
    apply IH. rewrite extract_all_step_candidate.
    destruct st as [results seen]. destruct Hst as (Hnd & Hseen & Hfrom & Hall).
    simpl in *.
    destruct (candidate shot c) as [v |] eqn:Hc.
    + destruct (bool_decide (amount v ∈ seen)) eqn:Hin.
      * apply bool_decide_eq_true in Hin. repeat split; simpl; try assumption.
        -- apply Hseen.
        -- apply Hseen.
        -- intros v' Hv'. destruct (Hfrom v' Hv') as (c' & Hc' & Hcv).
           exists c'. split; [apply in_or_app; left; exact Hc' | exact Hcv].
        -- intros c' v' Hc' Hv'. apply in_app_or in Hc'.
           destruct Hc' as [Hc' | [<- | []]]; [apply (Hall c' v' Hc' Hv') |].
           rewrite Hc in Hv'. injection Hv' as <-. exact Hin.
      * apply bool_decide_eq_false in Hin. repeat split; simpl.
        -- rewrite map_app. simpl. apply NoDup_app. split; [exact Hnd |].
           split; [| apply NoDup_singleton].
           intros a Ha Ha'. apply list_elem_of_singleton in Ha'. subst a.
           apply Hin, Hseen, list_elem_of_In, Ha.
        -- rewrite map_app. intros Ha. apply in_or_app.
           apply elem_of_union in Ha. destruct Ha as [Ha | Ha].
           ++ apply elem_of_singleton in Ha. subst a. right. left. reflexivity.
           ++ left. apply Hseen, Ha.
        -- rewrite map_app. intros Ha. apply in_app_or in Ha.
           destruct Ha as [Ha | [<- | []]].
           ++ apply elem_of_union_r, Hseen, Ha.
           ++ apply elem_of_union_l, elem_of_singleton. reflexivity.
        -- intros v' Hv'. apply in_app_or in Hv'. destruct Hv' as [Hv' | [<- | []]].
           ++ destruct (Hfrom v' Hv') as (c' & Hc' & Hcv).
              exists c'. split; [apply in_or_app; left; exact Hc' | exact Hcv].
           ++ exists c. split; [apply in_or_app; right; left; reflexivity | exact Hc].
        -- intros c' v' Hc' Hv'. apply in_app_or in Hc'.
           destruct Hc' as [Hc' | [<- | []]].
           ++ apply elem_of_union_r, (Hall c' v' Hc' Hv').
           ++ rewrite Hc in Hv'. injection Hv' as <-.
              apply elem_of_union_l, elem_of_singleton. reflexivity.
    + repeat split; simpl; try assumption.
      * apply Hseen.
      * apply Hseen.
      * intros v' Hv'. destruct (Hfrom v' Hv') as (c' & Hc' & Hcv).
        exists c'. split; [apply in_or_app; left; exact Hc' | exact Hcv].
      * intros c' v' Hc' Hv'. apply in_app_or in Hc'.
        destruct Hc' as [Hc' | [<- | []]]; [apply (Hall c' v' Hc' Hv') |].
        rewrite Hc in Hv'. discriminate.
Qed.

(** Every candidate of a text has a confidence above zero. *)
Lemma candidate_positive (text : string) (shot : bool)
    (c : Re.Match * RevenueType * Q) (v : ExtractedRevenue) :
  In c (all_matches text) -> candidate shot c = Some v -> (0 < confidence v)%Q.
Proof.
  destruct c as [[m ty] base]. intros Hc Hv.
  apply all_matches_confidence in Hc.
  destruct (candidate_facts shot m ty base v Hv Hc) as (_ & _ & Hconf & _). lra.
Qed.

(** The state of [extract] at the end of its loops. *)
Lemma extract_best (text : string) :
  text <> "" ->
  exists st,
    extract text = fst st /\
    best_of (all_matches text) (_check_screenshot_indicators text) st.
Proof.
  intros Hne. exists (fold_left (extract_step text) (all_matches text) (None, 0.0%Q)).
  split.
  - unfold extract. destruct (String.eqb text "") eqn:He; [| reflexivity].
    apply String.eqb_eq in He. contradiction.
  - apply (extract_fold_best text (all_matches text) []).
    + intros c v Hc Hv. exact (candidate_positive text _ c v Hc Hv).
    + simpl. split; [reflexivity | intros c []].
Qed.

(** The state of [extract_all] before its sort. *)
Lemma extract_all_firsts (text : string) :
  text <> "" ->
  exists st,
    extract_all text = Py.sorted_desc confidence (fst st) /\
    firsts_of (all_matches text) (_check_screenshot_indicators text) st.
Proof.
  intros Hne.
  exists (fold_left (extract_all_step (_check_screenshot_indicators text))
                    (all_matches text) ([], ∅)).
  split.
  - unfold extract_all. destruct (String.eqb text "") eqn:He; [| reflexivity].
    apply String.eqb_eq in He. contradiction.
  - apply (extract_all_fold_firsts _ (all_matches text) []).
    repeat split; simpl; try constructor.
    + intros Ha. apply not_elem_of_empty in Ha. contradiction.
    + intros [].
    + intros v [].
    + intros c v [].
Qed.

(** The confidence of the best match is 0.70 at least. *)
(** What [extract] returns was built for a match of a pattern of the
    table, with the kind of that pattern. *)
Lemma extract_from_pattern (text : string) (r : ExtractedRevenue) :
  extract text = Some r ->
  exists pattern m base,
    In (pattern, type r, base) PATTERNS /\
    In m (Re.finditer true pattern text) /\
    raw_match r = Re.group0 m /\
    confidence r =
      (if _check_screenshot_indicators text
       then Py.fmin (Py.fadd base 0.1) 1.0 else base).
Proof.
  destruct (String.eqb_spec text "") as [-> | Hne]; [discriminate |].
  destruct (extract_best text Hne) as ([best bc] & -> & Hb). simpl.
  intros ->. unfold best_of in Hb. simpl in Hb.
  destruct Hb as (_ & ([[m ty] base] & Hc & Hv) & _).
  unfold all_matches in Hc. apply in_flat_map in Hc.
  destruct Hc as ([[pattern ty'] base'] & Hp & Hm).
  apply in_map_iff in Hm. destruct Hm as (m' & Heq & Hm).
  injection Heq as -> -> ->.
  unfold candidate in Hv.
  destruct (_parse_match m base) as [[[a |] conf] |] eqn:Hpm; try discriminate.
  apply _parse_match_confidence in Hpm. subst conf.
  destruct (a <=? 0)%Z; [discriminate |]. injection Hv as <-. simpl.
  exists pattern, m, base. repeat split; assumption || reflexivity.
Qed.

Lemma extract_confidence_ge (text : string) (r : ExtractedRevenue) :
  extract text = Some r -> (0.70 <= confidence r)%Q.
Proof.
  destruct (String.eqb_spec text "") as [-> | Hne]; [discriminate |].
  destruct (extract_best text Hne) as ([best bc] & -> & Hb). simpl.
  intros ->. unfold best_of in Hb. simpl in Hb.
  destruct Hb as (_ & ([[m ty] base] & Hc & Hv) & _).
  apply all_matches_confidence in Hc.
  destruct (candidate_facts _ m ty base r Hv Hc) as (_ & _ & Hconf & _). lra.
Qed.

End RevenueExtractorLoops.

(** C7, as stated, fails for the revenue extractor.  With a month word in
    the text, [RevenueExtractor.extract] returns the milestone of
    [hit $5000 this month] with the kind UNKNOWN and the base confidence
    0.75 of its pattern; with 'mrr' in the text, it returns [5 figure MRR]
    with the kind UNKNOWN and the base confidence 0.70. *)
Lemma extract_keeps_unknown_counterexample :
  Py.any_in ["month"; "monthly"; "/mo"] (Py.lower "hit $5000 this month") = true /\
  RevenueExtractor.extract "hit $5000 this month" =
    Some (RevenueExtractor.MkExtractedRevenue
            "hit $5000 " 5000 RevenueExtractor.UNKNOWN 0.75%Q false) /\
  Py.contains "mrr" (Py.lower "5 figure MRR") = true /\
  RevenueExtractor.extract "5 figure MRR" =
    Some (RevenueExtractor.MkExtractedRevenue
            "5 figure MRR" 50000 RevenueExtractor.UNKNOWN 0.70%Q false).
Proof. vm_compute. repeat split. Qed.

(** C7, amended.  The reclassification is that of [MRRParser.parse]: for
    every text and every match whose extractor gives the kind UNKNOWN (and
    an amount of at least 100), if ['mrr'], ['arr'] or a month word occurs
    in the lower-cased text, the candidate [parse] builds for the match has
    the kind MRR, else ARR, else MONTHLY, in this order of precedence, and
    its confidence is the minimum of 1 and the base confidence plus 0.1
    (0.05 for a month word); every candidate [parse] returns is one built
    this way, none has the kind UNKNOWN, and none has a confidence above 1.
    [RevenueExtractor.extract] has no such step: what it returns has the
    kind of a pattern of its table that matches the text, whatever words
    the text holds, and the base confidence of that pattern unless the text
    has a screenshot keyword. *)
Theorem reclassification_in_parse_only (text : string) :
  (forall (m : Re.Match) (extractor : MRRParser.Extractor) (amount conf : Q),
     In (m, extractor) (MRRParser.all_matches text) ->
     extractor m = Some (amount, MRRParser.UNKNOWN, conf) ->
     (100 <= amount)%Q ->
     let mrr := Py.contains "mrr" (Py.lower text) in
     let arr := Py.contains "arr" (Py.lower text) in
     let month := Py.any_in ["month"; "monthly"; "/mo"] (Py.lower text) in
     mrr || arr || month = true ->
     exists r,
       MRRParser.parse_match text (m, extractor) = Some r /\
       In r (MRRParser.parse_results text) /\
       MRRParser.amount r = amount /\
       MRRParser.raw_text r = Re.group0 m /\
       MRRParser.type r =
         (if mrr then MRRParser.MRR else if arr then MRRParser.ARR
          else MRRParser.MONTHLY) /\
       (MRRParser.confidence r == Qmin (conf + (if mrr || arr then 0.1 else 0.05)) 1)%Q /\
       forall r', In r' (MRRParser.parse text) ->
         In r' (MRRParser.parse_results text) /\
         MRRParser.type r' <> MRRParser.UNKNOWN /\
         (MRRParser.confidence r' <= 1)%Q) /\
  (forall r, RevenueExtractor.extract text = Some r ->
     exists pattern m base,
       In (pattern, RevenueExtractor.type r, base) RevenueExtractor.PATTERNS /\
       In m (Re.finditer true pattern text) /\
       RevenueExtractor.raw_match r = Re.group0 m /\
       (RevenueExtractor._check_screenshot_indicators text = false ->
        RevenueExtractor.confidence r = base)).
Proof.
  split.
  - intros m extractor amount conf. apply parse_boosts_unknown.
  - intros r Hr.
    destruct (extract_from_pattern text r Hr) as (pattern & m & base & Hp & Hm & Hraw & Hc).
    exists pattern, m, base. repeat split; try assumption.
    intros Hshot. rewrite Hshot in Hc. exact Hc.
Qed.

Lemma reclassification_in_parse_only_witness :
  (exists r,
     MRRParser.parse_match Inputs.milestone_text
       (Inputs.milestone_match, Inputs.milestone_extractor) = Some r /\
     In r (MRRParser.parse_results Inputs.milestone_text) /\
     MRRParser.amount r = 5000%Q /\
     MRRParser.raw_text r = "hit $5000 " /\
     MRRParser.type r = MRRParser.MONTHLY /\
     (MRRParser.confidence r == Qmin (0.70 + 0.05) 1)%Q /\
     forall r', In r' (MRRParser.parse Inputs.milestone_text) ->
       In r' (MRRParser.parse_results Inputs.milestone_text) /\
       MRRParser.type r' <> MRRParser.UNKNOWN /\
       (MRRParser.confidence r' <= 1)%Q) /\
  (exists pattern m base,
     In (pattern, RevenueExtractor.UNKNOWN, base) RevenueExtractor.PATTERNS /\
     In m (Re.finditer true pattern Inputs.milestone_text) /\
     "hit $5000 " = Re.group0 m /\
     0.75%Q = base).
Proof.
  destruct (reclassification_in_parse_only Inputs.milestone_text) as [Hparse Hextract].
  split.
  - assert (Hin : In (Inputs.milestone_match, Inputs.milestone_extractor)
                     (MRRParser.all_matches Inputs.milestone_text)).
    { vm_compute. left. reflexivity. }
    assert (Hex : Inputs.milestone_extractor Inputs.milestone_match =
                  Some (5000%Q, MRRParser.UNKNOWN, 0.70%Q)).
    { vm_compute. reflexivity. }
    assert (Hamount : (100 <= 5000)%Q).
    { unfold Qle. simpl. lia. }
    exact (Hparse Inputs.milestone_match Inputs.milestone_extractor 5000%Q 0.70%Q
                  Hin Hex Hamount eq_refl).
  - assert (Hr : RevenueExtractor.extract Inputs.milestone_text =
                 Some (RevenueExtractor.MkExtractedRevenue
                         "hit $5000 " 5000 RevenueExtractor.UNKNOWN 0.75%Q false)).
    { vm_compute. reflexivity. }
    destruct (Hextract _ Hr) as (pattern & m & base & Hp & Hm & Hraw & Hc).
    exists pattern, m, base. repeat split; try assumption.
    apply Hc. vm_compute. reflexivity.
Defined.

(** X1.  [extract_all] returns candidates with pairwise distinct amounts,
    in order of non-increasing confidence. *)
Theorem extract_all_distinct_descending (text : string) :
  NoDup (map RevenueExtractor.amount (RevenueExtractor.extract_all text)) /\
  descending RevenueExtractor.confidence (RevenueExtractor.extract_all text).
Proof.
  destruct (String.eqb_spec text "") as [-> | Hne].
  - split; constructor.
  - destruct (extract_all_firsts text Hne) as (st & -> & Hnd & _).
    split; [| apply sorted_desc_descending].
    rewrite (Permutation_map RevenueExtractor.amount
               (sorted_desc_perm RevenueExtractor.confidence (fst st))).
    exact Hnd.
Qed.

(** X2.  Every candidate [extract] or [extract_all] returns has a
    confidence between 0.70 and 1 and carries the screenshot flag of the
    text.  When the text has a screenshot keyword the confidence is above
    0.79: the smallest case is the sum 0.70 + 0.1, which the float sum of
    the program leaves one rounding error short of 0.80.  When it has none,
    the confidence is 0.95 at most. *)
Theorem extracted_confidence_range (text : string) :
  let ok (r : RevenueExtractor.ExtractedRevenue) :=
    (0.70 <= RevenueExtractor.confidence r <= 1)%Q /\
    RevenueExtractor.has_screenshot r =
      RevenueExtractor._check_screenshot_indicators text /\
    (RevenueExtractor.has_screenshot r = true ->
     (0.79 <= RevenueExtractor.confidence r)%Q) /\
    (RevenueExtractor.has_screenshot r = false ->
     (RevenueExtractor.confidence r <= 0.95)%Q) in
  (forall r, RevenueExtractor.extract text = Some r -> ok r) /\
  (forall r, In r (RevenueExtractor.extract_all text) -> ok r).
Proof.
  intros ok.
  assert (Hcand : forall c v, In c (RevenueExtractor.all_matches text) ->
            candidate (RevenueExtractor._check_screenshot_indicators text) c = Some v ->
            ok v).
  { intros [[m ty] base] v Hc Hv. apply all_matches_confidence in Hc.
    destruct (candidate_facts _ m ty base v Hv Hc) as (_ & Hs & Hconf & H79 & H95).
    unfold ok. rewrite Hs. split; [exact Hconf |]. split; [reflexivity |].
    split; [exact H79 | exact H95]. }
  destruct (String.eqb_spec text "") as [-> | Hne].
  - split; [intros r H; discriminate H | intros r []].
  - split.
    + destruct (extract_best text Hne) as ([best bc] & -> & Hb). simpl.
      intros r ->. unfold best_of in Hb. simpl in Hb.
      destruct Hb as (_ & (c & Hc & Hv) & _). apply (Hcand c r Hc Hv).
    + destruct (extract_all_firsts text Hne) as (st & -> & _ & _ & Hfrom & _).
      intros r Hr. apply In_sorted_desc in Hr.
      destruct (Hfrom r Hr) as (c & Hc & Hv). apply (Hcand c r Hc Hv).
Qed.

(** X3.  For a threshold of at most 0.70 (the default is 0.5),
    [is_revenue_tweet] holds exactly when [extract] finds a candidate. *)
Theorem is_revenue_tweet_iff_extract (text : string) (min_confidence : Q) :
  (min_confidence <= 0.70)%Q ->
  RevenueExtractor.is_revenue_tweet text min_confidence = true <->
  RevenueExtractor.extract text <> None.
Proof.
  intros Hmin. unfold RevenueExtractor.is_revenue_tweet.
  destruct (RevenueExtractor.extract text) as [r |] eqn:He.
  - split; [discriminate |]. intros _.
    pose proof (extract_confidence_ge text r He) as Hlo.
    apply Qle_bool_iff. lra.
  - split; [discriminate | intros H; contradiction].
Qed.

Lemma is_revenue_tweet_iff_extract_witness :
  RevenueExtractor.is_revenue_tweet "Just hit $10K MRR!" 0.5 = true <->
  RevenueExtractor.extract "Just hit $10K MRR!" <> None.
Proof.
  apply (is_revenue_tweet_iff_extract "Just hit $10K MRR!" 0.5).
  unfold Qle. simpl. lia.
Defined.

(** X4.  [extract] finds nothing exactly when [extract_all] is empty; when
    it finds a candidate, its amount is the amount of a candidate of
    [extract_all], and no candidate of [extract_all] has a larger
    confidence. *)
Theorem extract_best_of_extract_all (text : string) :
  (RevenueExtractor.extract text = None <-> RevenueExtractor.extract_all text = []) /\
  forall r, RevenueExtractor.extract text = Some r ->
    (exists r', In r' (RevenueExtractor.extract_all text) /\
                RevenueExtractor.amount r' = RevenueExtractor.amount r) /\
    (forall r', In r' (RevenueExtractor.extract_all text) ->
                (RevenueExtractor.confidence r' <= RevenueExtractor.confidence r)%Q).
Proof.
  destruct (String.eqb_spec text "") as [-> | Hne].
  - split; [split; reflexivity | intros r H; discriminate H].
  - destruct (extract_best text Hne) as ([best bc] & -> & Hb).
    destruct (extract_all_firsts text Hne) as ([results seen] & -> & Hnd & Hseen & Hfrom & Hall).
    unfold best_of in Hb. simpl in *. split.
    + split.
      * intros ->. destruct Hb as [_ Hnone].
        destruct results as [| v results]; [reflexivity |].
        destruct (Hfrom v (or_introl eq_refl)) as (c & Hc & Hv).
        rewrite (Hnone c Hc) in Hv. discriminate.
      * intros Hnil. destruct best as [r |]; [| reflexivity].
        destruct Hb as (_ & (c & Hc & Hv) & _).
        pose proof (Hall c r Hc Hv) as Hin. apply Hseen in Hin.
        apply in_map_iff in Hin. destruct Hin as (r' & _ & Hr').
        apply (In_sorted_desc RevenueExtractor.confidence) in Hr'.
        rewrite Hnil in Hr'. destruct Hr'.
    + intros r ->. destruct Hb as (_ & (c & Hc & Hv) & Hmax). split.
      * pose proof (Hall c r Hc Hv) as Hin. apply Hseen in Hin.
        apply in_map_iff in Hin. destruct Hin as (r' & Ha & Hr').
        exists r'. split; [apply In_sorted_desc, Hr' | exact Ha].
      * intros r' Hr'. apply In_sorted_desc in Hr'.
        destruct (Hfrom r' Hr') as (c' & Hc' & Hv'). apply (Hmax c' r' Hc' Hv').
Qed.

(** ** Digits: what a pattern captures comes from the text *)

Section DigitFacts.

(** Does [s] hold a decimal digit? *)
Fixpoint has_digit (s : string) : bool :=
  match s with
  | EmptyString => false
  | String c t => Py.is_digit c || has_digit t
  end.

Lemma has_digit_substring (text : string) :
  forall a n, has_digit (substring a n text) = true -> has_digit text = true.
Proof.
  induction text as [| c text IH]; intros a n H.
  - destruct a, n; simpl in H; discriminate.
  - destruct a as [| a].
    + destruct n as [| n]; simpl in H; [discriminate |].
      simpl. apply orb_true_iff in H. destruct H as [H | H].
      * rewrite H. reflexivity.
      * rewrite (IH 0%nat n H). apply orb_true_r.
    + simpl in H. simpl. rewrite (IH a n H). apply orb_true_r.
Qed.

Lemma has_digit_remove_char (c : ascii) (s : string) :
  has_digit (Py.remove_char c s) = true -> has_digit s = true.
Proof.
  induction s as [| d s IH]; simpl; [auto |].
  destruct (Ascii.eqb c d); simpl; intros H.
  - rewrite (IH H). apply orb_true_r.
  - apply orb_true_iff in H. destruct H as [-> | H]; [reflexivity |].
    rewrite (IH H). apply orb_true_r.
Qed.

Lemma digits_value_has_digit (s : string) :
  forall acc v, s <> "" -> Py.digits_value acc s = Some v -> has_digit s = true.
Proof.
  destruct s as [| c s]; intros acc v Hne H; [contradiction |].
  simpl in H. simpl. destruct (Py.is_digit c); [reflexivity | discriminate].
Qed.

Lemma split_dot_has_digit (s : string) :
  forall ip fp, Py.split_dot s = (ip, fp) ->
    has_digit ip = true \/ (exists f, fp = Some f /\ has_digit f = true) ->
    has_digit s = true.
Proof.
  induction s as [| c s IH]; intros ip fp Hs Hd; simpl in Hs.
  - injection Hs as <- <-. destruct Hd as [Hd | (f & Hf & _)]; discriminate.
  - destruct (Ascii.eqb c ".") eqn:Hc.
    + injection Hs as <- <-. destruct Hd as [Hd | (f & Hf & Hd)]; [discriminate |].
      injection Hf as <-. simpl. rewrite Hd. apply orb_true_r.
    + destruct (Py.split_dot s) as [a b] eqn:Hab. injection Hs as <- <-.
      simpl. simpl in Hd. destruct Hd as [Hd | Hd].
      * apply orb_true_iff in Hd. destruct Hd as [-> | Hd]; [reflexivity |].
        rewrite (IH a b eq_refl (or_introl Hd)). apply orb_true_r.
      * rewrite (IH a b eq_refl (or_intror Hd)). apply orb_true_r.
Qed.

(** [float] accepts no string without a digit. *)
Lemma float_of_string_has_digit (s : string) (q : Q) :
  Py.float_of_string s = Some q -> has_digit s = true.
Proof.
  unfold Py.float_of_string. destruct (Py.split_dot s) as [ip fp] eqn:Hs.
  remember (match fp with Some f => f | None => EmptyString end) as fr eqn:Hfr.
  intros H. apply (split_dot_has_digit s ip fp Hs).
  destruct ip as [| c ip]; cbv beta iota zeta in H.
  - destruct fr as [| d fr]; [discriminate |].
    destruct fp as [f |]; [| discriminate]. subst f.
    right. exists (String d fr). split; [reflexivity |].
    destruct (Py.digits_value 0 (String d fr)) as [v |] eqn:Hv.
    + apply (digits_value_has_digit _ 0%Z v); [discriminate | exact Hv].
    + destruct (Py.digits_value 0 ""); discriminate.
  - left. destruct (Py.digits_value 0 (String c ip)) as [v |] eqn:Hv.
    + apply (digits_value_has_digit _ 0%Z v); [discriminate | exact Hv].
    + destruct fr; discriminate.
Qed.

Lemma int_of_string_has_digit (s : string) (n : Z) :
  Py.int_of_string s = Some n -> has_digit s = true.
Proof.
  unfold Py.int_of_string. destruct s as [| c s]; [discriminate |].
  destruct (_ <? _)%nat; [discriminate |].
  apply digits_value_has_digit. discriminate.
Qed.

(** The groups of a match are pieces of the text. *)
Lemma scan_groups_substring (ic : bool) (text : string) (r : Re.regex) (fuel : nat) :
  forall s m g,
    In m (Re.scan fuel ic text r s) -> In (Some g) (Re.groups m) ->
    exists a n, g = substring a n text.
Proof.
  assert (Hmk : forall s e g, In (Some g) (Re.groups (Re.mk_match text r s e)) ->
                              exists a n, g = substring a n text).
  { intros s e g H. unfold Re.mk_match in H. simpl in H.
    apply in_map_iff in H. destruct H as (k & Hk & _).
    destruct (Re.cap_lookup k (Re.caps e)) as [span |]; [| discriminate].
    simpl in Hk. injection Hk as <-. unfold Re.span_text. eauto. }
  induction fuel as [| fuel IH]; intros s m g Hm Hg; simpl in Hm; [destruct Hm |].
  destruct (Re.run ic r Some s) as [e |].
  - destruct Hm as [<- | Hm]; [apply (Hmk s e g Hg) |].
    destruct (Re.pos s <? Re.pos e)%nat; [apply (IH _ m g Hm Hg) |].
    destruct (Re.step s); [apply (IH _ m g Hm Hg) | destruct Hm].
  - destruct (Re.step s); [apply (IH _ m g Hm Hg) | destruct Hm].
Qed.

Lemma finditer_group_digit (ic : bool) (r : Re.regex) (text : string)
    (m : Re.Match) (g : string) :
  In m (Re.finditer ic r text) -> In (Some g) (Re.groups m) ->
  has_digit g = true -> has_digit text = true.
Proof.
  intros Hm Hg Hd. unfold Re.finditer in Hm.
  destruct (scan_groups_substring _ _ _ _ _ m g Hm Hg) as (a & n & ->).
  apply (has_digit_substring text a n Hd).
Qed.

End DigitFacts.

(** ** The MRR parser: order, separation and the best match *)

Section PairFacts.

Context {B : Type}.
Variable R : B -> B -> Prop.

Lemma ForallOrdPairs_snoc (l : list B) (x : B) :
  ForallOrdPairs R l -> (forall a, In a l -> R a x) -> ForallOrdPairs R (l ++ [x]).
Proof.
  induction 1 as [| a l Ha Hl IH]; intros Hx; simpl.
  - constructor; constructor.
  - constructor.
    + apply List.Forall_forall. intros b Hb. apply in_app_or in Hb.
      destruct Hb as [Hb | [<- | []]].
      * rewrite List.Forall_forall in Ha. apply Ha, Hb.
      * apply Hx. left. reflexivity.
    + apply IH. intros b Hb. apply Hx. right. exact Hb.
Qed.

Lemma ForallOrdPairs_drop (l : list B) (x : B) (t : list B) :
  ForallOrdPairs R (l ++ x :: t) -> ForallOrdPairs R (l ++ t).
Proof.
  induction l as [| a l IH]; simpl; intros H; inversion H as [| a' l' Ha Hl]; subst.
  - exact Hl.
  - constructor; [| apply IH, Hl].
    rewrite List.Forall_forall in Ha |- *. intros b Hb. apply Ha.
    apply in_app_or in Hb. apply in_or_app.
    destruct Hb as [Hb | Hb]; [left; exact Hb | right; right; exact Hb].
Qed.

(** A loop that keeps or skips the elements of [todo], in order, keeps
    what holds of all ordered pairs of [unique ++ todo]. *)
Lemma fold_keep_ForallOrdPairs (skip : list B -> B -> bool) (todo : list B) :
  forall unique,
    ForallOrdPairs R (unique ++ todo) ->
    ForallOrdPairs R
      (fold_left (fun u x => if skip u x then u else u ++ [x]) todo unique).
Proof.
  induction todo as [| x todo IH]; intros unique H; simpl.
  - rewrite app_nil_r in H. exact H.
  - apply IH. destruct (skip unique x).
    + apply (ForallOrdPairs_drop unique x todo H).
    + rewrite <- app_assoc. exact H.
Qed.

End PairFacts.

Section MRRParserOrder.
Import MRRParser.

(** A list in descending order is left as it is by the sort. *)
Lemma sorted_desc_id {B : Type} (key : B -> Q) (l : list B) :
  descending key l -> Py.sorted_desc key l = l.
Proof.
  induction l as [| x l IH]; intros H; [reflexivity |].
  inversion H as [| x' l' Hx Hl]; subst. simpl. rewrite (IH Hl).
  destruct l as [| y l]; [reflexivity |]. simpl.
  rewrite List.Forall_forall in Hx.
  rewrite (le_flt_false (key x) (key y)); [reflexivity |].
  apply Hx. left. reflexivity.
Qed.

(** The amounts of [e] and [r] differ by a tenth of the amount of [e] at
    least. *)
Definition apart (e r : RevenueData) : Prop :=
  (0.1 * amount e <= Qabs (amount r - amount e))%Q.

Lemma is_duplicate_false (unique : list RevenueData) (r e : RevenueData) :
  is_duplicate unique r = false -> In e unique -> (0 < amount e)%Q -> apart e r.
Proof.
  unfold is_duplicate, apart. intros H He Hpos.
  destruct (Qlt_le_dec (Qabs (amount r - amount e)) (0.1 * amount e)) as [Hlt | Hle];
    [exfalso | exact Hle].
  apply not_true_iff_false in H. apply H. apply existsb_exists.
  exists e. split; [exact He |]. apply andb_true_iff. split.
  - unfold Py.flt. apply negb_true_iff.
    destruct (Qle_bool (amount e) 0) eqn:Hz; [| reflexivity].
    apply Qle_bool_iff in Hz. lra.
  - unfold Py.truediv.
    destruct (Qeq_bool (amount e) 0) eqn:Hz; [apply Qeq_bool_iff in Hz; lra |].
    unfold Py.flt. apply negb_true_iff.
    destruct (Qle_bool 0.1 _) eqn:Hr; [| reflexivity].
    apply Qle_bool_iff in Hr. unfold Py.fabs, Py.fsub in Hr.
    rewrite !Qred_correct in Hr.
    assert (Heq : (Qabs (amount r - amount e) / amount e * amount e ==
                   Qabs (amount r - amount e))%Q) by (field; lra).
    assert (Hm : (0.1 * amount e <=
                  Qabs (amount r - amount e) / amount e * amount e)%Q)
      by (apply Qmult_le_compat_r; [exact Hr | lra]).
    rewrite Heq in Hm. lra.
Qed.

(** [_deduplicate]: what it keeps is in descending order of confidence,
    and each kept element is apart from those kept before it. *)
Lemma _deduplicate_facts (results : list RevenueData) :
  (forall r, In r results -> (0 < amount r)%Q) ->
  descending confidence (_deduplicate results) /\
  ForallOrdPairs apart (_deduplicate results).
Proof.
  intros Hpos. unfold _deduplicate.
  destruct (length results <=? 1)%nat eqn:Hlen.
  - destruct results as [| x [| y results]]; try discriminate;
      split; repeat constructor.
  - split.
    + apply (fold_keep_ForallOrdPairs _ is_duplicate). simpl.
      apply sorted_desc_descending.
    + assert (Hs : forall r, In r (Py.sorted_desc confidence results) -> (0 < amount r)%Q).
      { intros r Hr. apply Hpos, (In_sorted_desc confidence), Hr. }
      revert Hs. generalize (Py.sorted_desc confidence results). intros todo.
      assert (Hgen : forall unique,
                ForallOrdPairs apart unique ->
                (forall e, In e unique -> (0 < amount e)%Q) ->
                (forall r, In r todo -> (0 < amount r)%Q) ->
                ForallOrdPairs apart
                  (fold_left (fun u x => if is_duplicate u x then u else u ++ [x])
                             todo unique)).
      { induction todo as [| x todo IH]; intros unique Hu Hup Htp; simpl; [exact Hu |].
        destruct (is_duplicate unique x) eqn:Hd.
        - apply IH; [exact Hu | exact Hup | intros r Hr; apply Htp; right; exact Hr].
        - apply IH.
          + apply ForallOrdPairs_snoc; [exact Hu |].
            intros e He. apply (is_duplicate_false unique x e Hd He), Hup, He.
          + intros e He. apply in_app_or in He. destruct He as [He | [<- | []]].
            * apply Hup, He.
            * apply Htp. left. reflexivity.
          + intros r Hr. apply Htp. right. exact Hr. }
      intros Hs. apply Hgen; [constructor | intros e [] | exact Hs].
Qed.

Lemma parse_results_positive (text : string) (r : RevenueData) :
  In r (parse_results text) -> (0 < amount r)%Q.
Proof.
  intros H. apply In_parse_results in H. destruct H as ([m ex] & _ & H).
  apply parse_match_Some in H. destruct H as (a & ty & c & _ & Ha & ->). simpl. lra.
Qed.

(** The last sort of [parse] finds its list already in order. *)
Lemma parse_eq__deduplicate (text : string) :
  parse text = _deduplicate (parse_results text).
Proof.
  unfold parse. apply sorted_desc_id.
  apply _deduplicate_facts, parse_results_positive.
Qed.

Lemma Is_true_RevenueType_eqb (a b : RevenueType) :
  Is_true (RevenueType_eqb a b) <-> a = b.
Proof. destruct a, b; simpl; split; intros H; try reflexivity; try discriminate; try tauto. Qed.

(** The head of the elements of a descending list that satisfy [P]. *)
Lemma filter_head {B : Type} (key : B -> Q) (P : B -> Prop) `{forall x, Decision (P x)}
    (l : list B) (x : B) (t : list B) :
  descending key l -> filter P l = x :: t ->
  P x /\ In x l /\ forall y, In y l -> P y -> (key y <= key x)%Q.
Proof.
  intros Hl Hf.
  assert (Hx : x ∈ filter P l) by (rewrite Hf; left).
  apply list_elem_of_filter in Hx. destruct Hx as [HP Hx].
  split; [exact HP |]. split; [apply list_elem_of_In, Hx |].
  intros y Hy HPy.
  apply (descending_head key x t); [rewrite <- Hf; apply descending_filter, Hl |].
  rewrite <- Hf. apply list_elem_of_In, list_elem_of_filter.
  split; [exact HPy | apply list_elem_of_In, Hy].
Qed.

Lemma filter_nil_not {B : Type} (P : B -> Prop) `{forall x, Decision (P x)}
    (l : list B) (y : B) :
  filter P l = [] -> In y l -> ~ P y.
Proof.
  intros Hf Hy HP.
  assert (H' : y ∈ filter P l)
    by (apply list_elem_of_filter; split; [exact HP | apply list_elem_of_In, Hy]).
  rewrite Hf in H'. inversion H'.
Qed.

End MRRParserOrder.


(** X6.  [get_best_mrr] returns nothing exactly when [parse] is empty.  Its
    result is a candidate of [parse]: when [parse] has candidates of kind
    MRR, one of them of largest confidence; else, when it has candidates of
    kind MONTHLY, one of them of largest confidence; else a candidate of
    largest confidence. *)
Theorem get_best_mrr_preference (text : string) :
  (MRRParser.get_best_mrr text = None <-> MRRParser.parse text = []) /\
  forall r, MRRParser.get_best_mrr text = Some r ->
    In r (MRRParser.parse text) /\
    let has kind := exists r', In r' (MRRParser.parse text) /\ MRRParser.type r' = kind in
    let best_of_kind kind :=
      MRRParser.type r = kind /\
      forall r', In r' (MRRParser.parse text) -> MRRParser.type r' = kind ->
                 (MRRParser.confidence r' <= MRRParser.confidence r)%Q in
    (has MRRParser.MRR -> best_of_kind MRRParser.MRR) /\
    (~ has MRRParser.MRR -> has MRRParser.MONTHLY -> best_of_kind MRRParser.MONTHLY) /\
    (~ has MRRParser.MRR -> ~ has MRRParser.MONTHLY ->
     forall r', In r' (MRRParser.parse text) ->
                (MRRParser.confidence r' <= MRRParser.confidence r)%Q).
Proof.
  assert (Hdesc : descending MRRParser.confidence (MRRParser.parse text)).
  { rewrite parse_eq__deduplicate. apply _deduplicate_facts, parse_results_positive. }
  unfold MRRParser.get_best_mrr.
  destruct (MRRParser.parse text) as [| first results] eqn:Hparse.
  - split; [split; reflexivity | intros r H; discriminate H].
  - set (l := first :: results) in *.
    split; [split; intros H; [| discriminate H] |].
    { destruct (filter _ l); [destruct (filter _ l) |]; discriminate H. }
    intros r Hr. cbv zeta.
    destruct (filter (fun r => Is_true (MRRParser.RevenueType_eqb (MRRParser.type r)
                                          MRRParser.MRR)) l) as [| x t] eqn:Hmrr.
    + assert (Hno : ~ exists r', In r' l /\ MRRParser.type r' = MRRParser.MRR).
      { intros (r' & Hr' & Ht). apply (filter_nil_not _ l r' Hmrr Hr').
        apply Is_true_RevenueType_eqb, Ht. }
      destruct (filter (fun r => Is_true (MRRParser.RevenueType_eqb (MRRParser.type r)
                                            MRRParser.MONTHLY)) l) as [| y u] eqn:Hmon.
      * injection Hr as <-.
        split; [left; reflexivity |]. split; [intros H; contradiction |].
        split.
        -- intros _ (r' & Hr' & Ht). exfalso.
           apply (filter_nil_not _ l r' Hmon Hr'). apply Is_true_RevenueType_eqb, Ht.
        -- intros _ _ r' Hr'. apply (descending_head _ first results r' Hdesc Hr').
      * injection Hr as <-.
        destruct (filter_head MRRParser.confidence _ l y u Hdesc Hmon) as (Hy & Hin & Hmax).
        apply Is_true_RevenueType_eqb in Hy.
        split; [exact Hin |]. split; [intros H; contradiction |].
        split.
        -- intros _ _. split; [exact Hy |].
           intros r' Hr' Ht. apply (Hmax r' Hr'). apply Is_true_RevenueType_eqb, Ht.
        -- intros _ Hnm. exfalso. apply Hnm. exists y. split; assumption.
    + injection Hr as <-.
      destruct (filter_head MRRParser.confidence _ l x t Hdesc Hmrr) as (Hx & Hin & Hmax).
      apply Is_true_RevenueType_eqb in Hx.
      split; [exact Hin |]. split.
      * intros _. split; [exact Hx |].
        intros r' Hr' Ht. apply (Hmax r' Hr'). apply Is_true_RevenueType_eqb, Ht.
      * split; intros Hnm; exfalso; apply Hnm; exists x; split; assumption.
Qed.

(** ** No digit, no revenue *)

Section NoDigit.

Lemma FIGURE_ESTIMATES_get_digit (figure : option string) :
  (0 < RevenueExtractor.FIGURE_ESTIMATES_get figure)%Z ->
  exists g, figure = Some g /\ has_digit g = true.
Proof.
  intros H. destruct figure as [[| c g] |]; simpl in H; try lia.
  exists (String c g). split; [reflexivity |].
  destruct c as [[] [] [] [] [] [] [] []]; simpl in *; try lia; reflexivity.
Qed.

(** A match [_parse_match] turns into a positive amount captured a digit. *)
Lemma _parse_match_digit (m : Re.Match) (base conf : Q) (a : Z) :
  RevenueExtractor._parse_match m base = Some (Some a, conf) -> (0 < a)%Z ->
  exists g, In (Some g) (Re.groups m) /\ has_digit g = true.
Proof.
  unfold RevenueExtractor._parse_match, Re.group_at. intros H Ha.
  destruct (Py.contains "figure" _).
  - destruct (nth_error (Re.groups m) 0) as [figure |] eqn:Hg; [| discriminate].
    injection H as <- _.
    destruct (FIGURE_ESTIMATES_get_digit figure Ha) as (g & -> & Hd).
    exists g. split; [apply (nth_error_In _ _ Hg) | exact Hd].
  - destruct (nth_error (Re.groups m) 0) as [[g0 |] |] eqn:Hg; try discriminate.
    destruct (Py.float_of_string _) as [q |] eqn:Hq; [| discriminate].
    exists g0. split; [apply (nth_error_In _ _ Hg) |].
    apply (has_digit_remove_char ","%char), (float_of_string_has_digit _ q Hq).
Qed.

Lemma candidate_digit (text : string) (shot : bool)
    (c : Re.Match * RevenueExtractor.RevenueType * Q)
    (v : RevenueExtractor.ExtractedRevenue) :
  In c (RevenueExtractor.all_matches text) -> candidate shot c = Some v ->
  has_digit text = true.
Proof.
  destruct c as [[m ty] base]. intros Hc Hv.
  unfold RevenueExtractor.all_matches in Hc. apply in_flat_map in Hc.
  destruct Hc as ([[pat ty'] base'] & _ & Hm).
  apply in_map_iff in Hm. destruct Hm as (m' & Heq & Hm). injection Heq as -> _ _.
  unfold candidate in Hv.
  destruct (RevenueExtractor._parse_match m base) as [[[a |] conf] |] eqn:Hp;
    try discriminate.
  destruct (a <=? 0)%Z eqn:Ha; [discriminate |]. apply Z.leb_gt in Ha.
  destruct (_parse_match_digit m base conf a Hp Ha) as (g & Hg & Hd).
  apply (finditer_group_digit true pat text m g Hm Hg Hd).
Qed.

Lemma group_In (m : Re.Match) (i : nat) (g : string) :
  MRRParser.group m i = Some (Some g) -> In (Some g) (Re.groups m).
Proof. unfold MRRParser.group, Re.group_at. apply nth_error_In. Qed.

Lemma _parse_amount_digit (g : string) (k : bool) (a : Q) :
  MRRParser._parse_amount g k = Some a -> has_digit g = true.
Proof.
  unfold MRRParser._parse_amount.
  destruct (Py.float_of_string _) as [q |] eqn:Hq; [| discriminate]. intros _.
  apply (has_digit_remove_char ","%char), (float_of_string_has_digit _ q Hq).
Qed.

Lemma amount_kind_digit (k : Re.Match -> string -> bool) (kind : MRRParser.RevenueType)
    (conf : Q) (m : Re.Match) (res : Q * MRRParser.RevenueType * Q) :
  MRRParser.amount_kind k kind conf m = Some res ->
  exists g, In (Some g) (Re.groups m) /\ has_digit g = true.
Proof.
  unfold MRRParser.amount_kind, MRRParser.with_group1.
  destruct (MRRParser.group m 1) as [[g1 |] |] eqn:Hg; try discriminate.
  destruct (MRRParser._parse_amount g1 _) as [a |] eqn:Ha; [| discriminate]. intros _.
  exists g1. split; [apply (group_In m 1 g1 Hg) | apply (_parse_amount_digit _ _ _ Ha)].
Qed.

Lemma amount_mrr_arr_digit (k : Re.Match -> string -> bool) (conf : Q) (m : Re.Match)
    (res : Q * MRRParser.RevenueType * Q) :
  MRRParser.amount_mrr_arr k conf m = Some res ->
  exists g, In (Some g) (Re.groups m) /\ has_digit g = true.
Proof.
  unfold MRRParser.amount_mrr_arr, MRRParser.with_group1.
  destruct (MRRParser.group m 1) as [[g1 |] |] eqn:Hg; try discriminate.
  destruct (MRRParser._parse_amount g1 _) as [a |] eqn:Ha; [| discriminate]. intros _.
  exists g1. split; [apply (group_In m 1 g1 Hg) | apply (_parse_amount_digit _ _ _ Ha)].
Qed.

Lemma customers_times_price_digit (m : Re.Match) (res : Q * MRRParser.RevenueType * Q) :
  MRRParser.customers_times_price m = Some res ->
  exists g, In (Some g) (Re.groups m) /\ has_digit g = true.
Proof.
  unfold MRRParser.customers_times_price.
  destruct (MRRParser.group m 1) as [[g1 |] |] eqn:Hg; try discriminate.
  destruct (MRRParser.group m 2) as [[g2 |] |]; try discriminate.
  destruct (Py.int_of_string _) as [n |] eqn:Hn; [| discriminate]. intros _.
  exists g1. split; [apply (group_In m 1 g1 Hg) |].
  apply (has_digit_remove_char ","%char), (int_of_string_has_digit _ n Hn).
Qed.

(** Every extractor of [MRRParser.PATTERNS] reads a digit it captured. *)
Lemma extractor_digit (pat : Re.regex) (ex : MRRParser.Extractor) (m : Re.Match)
    (res : Q * MRRParser.RevenueType * Q) :
  In (pat, ex) MRRParser.PATTERNS -> ex m = Some res ->
  exists g, In (Some g) (Re.groups m) /\ has_digit g = true.
Proof.
  unfold MRRParser.PATTERNS. cbn [In]. intros H.
  repeat (destruct H as [H | H];
          [injection H as _ <-;
           first [apply amount_kind_digit | apply amount_mrr_arr_digit
                 | apply customers_times_price_digit] |]).
  destruct H.
Qed.

Lemma parse_match_digit (text : string) (c : Re.Match * MRRParser.Extractor)
    (r : MRRParser.RevenueData) :
  In c (MRRParser.all_matches text) -> MRRParser.parse_match text c = Some r ->
  has_digit text = true.
Proof.
  destruct c as [m ex]. intros Hc Hr.
  unfold MRRParser.all_matches in Hc. apply in_flat_map in Hc.
  destruct Hc as ([pat ex'] & Hp & Hm).
  apply in_map_iff in Hm. destruct Hm as (m' & Heq & Hm). injection Heq as -> ->.
  apply parse_match_Some in Hr. destruct Hr as (a & ty & conf & Hex & _).
  destruct (extractor_digit pat ex m _ Hp Hex) as (g & Hg & Hd).
  apply (finditer_group_digit true pat text m g Hm Hg Hd).
Qed.

End NoDigit.

(** X7.  A text without a decimal digit yields no revenue: [extract],
    [extract_all], [parse] and [get_best_mrr] find nothing, and
    [has_revenue_mention] is false. *)
Theorem no_digit_no_revenue (text : string) :
  has_digit text = false ->
  RevenueExtractor.extract text = None /\
  RevenueExtractor.extract_all text = [] /\
  MRRParser.parse text = [] /\
  MRRParser.get_best_mrr text = None /\
  MRRParser.has_revenue_mention text = false.
Proof.
  intros Hnd.
  assert (Hparse : MRRParser.parse text = []).
  { assert (Hres : MRRParser.parse_results text = []).
    { destruct (MRRParser.parse_results text) as [| r l] eqn:Hr; [reflexivity |].
      assert (Hin : In r (MRRParser.parse_results text)) by (rewrite Hr; left; reflexivity).
      apply In_parse_results in Hin. destruct Hin as (c & Hc & Hm).
      rewrite (parse_match_digit text c r Hc Hm) in Hnd. discriminate. }
    unfold MRRParser.parse. rewrite Hres. reflexivity. }
  assert (Hextract : RevenueExtractor.extract text = None /\
                     RevenueExtractor.extract_all text = []).
  { destruct (String.eqb_spec text "") as [-> | Hne]; [split; reflexivity |].
    destruct (extract_best text Hne) as ([best bc] & -> & Hb).
    destruct (extract_all_firsts text Hne) as ([results seen] & -> & _ & _ & Hfrom & _).
    unfold best_of in Hb. simpl in *. split.
    - destruct best as [r |]; [| reflexivity].
      destruct Hb as (_ & (c & Hc & Hv) & _).
      rewrite (candidate_digit text _ c r Hc Hv) in Hnd. discriminate.
    - destruct results as [| v results]; [reflexivity |].
      destruct (Hfrom v (or_introl eq_refl)) as (c & Hc & Hv).
      rewrite (candidate_digit text _ c v Hc Hv) in Hnd. discriminate. }
  destruct Hextract as [He Ha].
  split; [exact He |]. split; [exact Ha |]. split; [exact Hparse |].
  split.
  - unfold MRRParser.get_best_mrr. rewrite Hparse. reflexivity.
  - unfold MRRParser.has_revenue_mention. rewrite Hparse.
    destruct (negb _ && _); reflexivity.
Qed.

Lemma no_digit_no_revenue_witness :
  RevenueExtractor.extract "Building something cool" = None /\
  RevenueExtractor.extract_all "Building something cool" = [] /\
  MRRParser.parse "Building something cool" = [] /\
  MRRParser.get_best_mrr "Building something cool" = None /\
  MRRParser.has_revenue_mention "Building something cool" = false.
Proof. apply (no_digit_no_revenue "Building something cool"). reflexivity. Defined.

(** ** The URL extractor: what it returns *)

Section URLExtractorMore.
Import URLExtractor.

Lemma rstrip_idempotent (chars s : string) :
  Py.rstrip chars (Py.rstrip chars s) = Py.rstrip chars s.
Proof.
  induction s as [| c s IH]; [reflexivity |].
  simpl. destruct (Py.rstrip chars s) as [| d t] eqn:Hr.
  - destruct (Py.contains (String c "") chars) eqn:Hc; [reflexivity |].
    simpl. rewrite Hc. reflexivity.
  - change (Py.rstrip chars (String c (String d t)))
      with (match Py.rstrip chars (String d t) with
            | EmptyString => if Py.contains (String c "") chars then EmptyString
                             else String c EmptyString
            | t' => String c t'
            end).
    rewrite IH. reflexivity.
Qed.

(** The [.ai]/[.io] suffixes are product TLDs. *)
Lemma ai_io_product_tld (domain : string) :
  Py.endswith ".ai" domain || Py.endswith ".io" domain = true ->
  existsb (fun tld => Py.endswith tld domain) PRODUCT_TLDS = true.
Proof.
  intros H. apply orb_true_iff in H. apply existsb_exists.
  destruct H as [H | H]; [exists ".ai" | exists ".io"];
    (split; [simpl; tauto | exact H]).
Qed.

Lemma _analyze_url_not_excluded (u : string) (p : ExtractedProduct) :
  _analyze_url u = Some p -> is_valid_product p = true ->
  is_excluded (domain p) = false /\ name p <> None.
Proof.
  unfold _analyze_url. destruct (UrlParse.urlparse u) as [parsed |]; [| discriminate].
  destruct (is_excluded _) eqn:He; intros H Hv; injection H as <-; simpl in *.
  - discriminate.
  - split; [exact He | discriminate].
Qed.

End URLExtractorMore.

(** X8.  [extract] returns exactly the products of [extract_all] that are
    flagged valid; none of them has a domain containing a domain of the
    exclusion set, and each has a name. *)
Theorem extract_valid_of_extract_all (text : string) (urls : option (list string)) :
  (forall p, In p (URLExtractor.extract text urls) <->
             In p (URLExtractor.extract_all text urls) /\
             URLExtractor.is_valid_product p = true) /\
  (forall p, In p (URLExtractor.extract text urls) ->
             URLExtractor.name p <> None /\
             forall excluded, In excluded URLExtractor.EXCLUDED_DOMAINS ->
                              Py.contains excluded (URLExtractor.domain p) = false).
Proof.
  split.
  - intros p. rewrite In_extract, In_extract_all. split.
    + intros (u & Hu & Ha & Hv). split; [exists u; split; assumption | exact Hv].
    + intros [(u & Hu & Ha) Hv]. exists u. repeat split; assumption.
  - intros p Hp. apply In_extract in Hp. destruct Hp as (u & _ & Ha & Hv).
    destruct (_analyze_url_not_excluded u p Ha Hv) as [He Hn].
    split; [exact Hn |]. intros excluded Hex.
    unfold URLExtractor.is_excluded in He.
    destruct (Py.contains excluded (URLExtractor.domain p)) eqn:Hc; [| reflexivity].
    assert (Ht : existsb (fun e => Py.contains e (URLExtractor.domain p))
                         URLExtractor.EXCLUDED_DOMAINS = true)
      by (apply existsb_exists; exists excluded; split; assumption).
    rewrite He in Ht. discriminate.
Qed.

(** X9.  The URLs found in a text are not empty and end with none of the
    punctuation characters that are stripped: stripping them again changes
    nothing.  This holds for [URLExtractor._extract_urls_from_text] and for
    [extract_urls] of [parsers/url.py]. *)
Theorem text_urls_stripped (text : string) (u : string) :
  In u (URLExtractor._extract_urls_from_text text) \/ In u (ParsersURL.extract_urls text) ->
  u <> "" /\ Py.rstrip URLExtractor.trailing_punctuation u = u.
Proof.
  assert (H : forall l : list string,
            u ∈ filter (fun v => Is_true (negb (String.eqb v "")))
                       (map (Py.rstrip URLExtractor.trailing_punctuation) l) ->
            u <> "" /\ Py.rstrip URLExtractor.trailing_punctuation u = u).
  { intros l Hu. apply list_elem_of_filter in Hu. destruct Hu as [Hne Hu].
    split.
    - intros ->. simpl in Hne. exact Hne.
    - apply list_elem_of_In, in_map_iff in Hu. destruct Hu as (v & <- & _).
      apply rstrip_idempotent. }
  unfold URLExtractor._extract_urls_from_text, ParsersURL.extract_urls.
  intros [Hu | Hu]; apply list_elem_of_In in Hu; apply (H _ Hu).
Qed.

Lemma text_urls_stripped_witness :
  "https://getwidget.io/pricing" <> "" /\
  Py.rstrip URLExtractor.trailing_punctuation "https://getwidget.io/pricing" =
    "https://getwidget.io/pricing".
Proof.
  apply (text_urls_stripped "Try https://getwidget.io/pricing." "https://getwidget.io/pricing").
  left. vm_compute. left. reflexivity.
Defined.

(** X10.  [_is_likely_product] accepts a URL exactly when its domain ends
    with a product TLD, or the URL contains a product keyword, or the first
    label of the domain is at most 15 characters long and the path contains
    a product path; the extra point for [.ai] and [.io] never changes the
    decision. *)
Theorem _is_likely_product_decision (url domain path : string) :
  URLExtractor._is_likely_product url domain path =
  existsb (fun tld => Py.endswith tld domain) URLExtractor.PRODUCT_TLDS ||
  Py.any_in URLExtractor.PRODUCT_KEYWORDS (Py.lower url) ||
  ((String.length (Py.split_head "." domain) <=? 15)%nat &&
   Py.any_in ["/pricing"; "/demo"; "/features"; "/about"; "/blog"] (Py.lower path)).
Proof.
  unfold URLExtractor._is_likely_product.
  pose proof (ai_io_product_tld domain) as Hai.
  destruct (Py.endswith ".ai" domain || Py.endswith ".io" domain).
  - rewrite (Hai eq_refl). case_ifs; reflexivity.
  - clear Hai. case_ifs; reflexivity.
Qed.

(** ** [parsers/url.py]: confidence and decision *)

Section ParsersURLFacts.
Import ParsersURL.

Lemma count_char_empty (c : ascii) (s : string) :
  String.eqb s "" = true -> Py.count_char c s = 0%nat.
Proof. intros H. apply String.eqb_eq in H. subst s. reflexivity. Qed.

(** The confidence of a domain that is not excluded is one of a few sums;
    it is below 0.5 only for 0.4, the sum of the base and the penalty for a
    deep path. *)
Lemma url_confidence_facts (domain path : string) :
  let stripped := Py.strip_char "/" path in
  (0.4 <= url_confidence domain path <= 0.95)%Q /\
  Py.fle 0.5 (url_confidence domain path) =
    existsb (fun pattern => re_match_dollar pattern domain) PRODUCT_DOMAIN_PATTERNS ||
    negb (2 <? Py.count_char "/" stripped)%nat ||
    Py.any_in ["pricing"; "features"; "demo"; "signup"; "register"; "start"]
              (Py.lower stripped) /\
  (Py.fle 0.5 (url_confidence domain path) = false ->
   (url_confidence domain path == 0.4)%Q).
Proof.
  intros stripped. unfold url_confidence. fold stripped.
  pose proof (count_char_empty "/" stripped) as Hempty.
  destruct (String.eqb stripped "").
  - rewrite (Hempty eq_refl). simpl (2 <? 0)%nat.
    case_ifs; vm_compute; repeat split; intros; discriminate.
  - clear Hempty.
    destruct (Py.count_char "/" stripped) as [| [| [| n]]]; simpl (_ =? _)%nat;
      simpl (_ <? _)%nat;
      case_ifs; vm_compute; repeat split; intros; discriminate.
Qed.

Lemma add_attached_In (l : list string) :
  forall acc u, In u (fold_left add_attached l acc) <-> In u acc \/ In u l.
Proof.
  induction l as [| x l IH]; intros acc u; simpl; [tauto |].
  rewrite IH. unfold add_attached.
  destruct (existsb (String.eqb x) acc) eqn:Hx.
  - apply existsb_exists in Hx. destruct Hx as (y & Hy & Heq).
    apply String.eqb_eq in Heq. subst y. split; [tauto |].
    intros [H | [<- | H]]; tauto.
  - rewrite in_app_iff. simpl. tauto.
Qed.

Lemma In_extract_product_urls (urls : list string) (p : ProductURL) :
  In p (extract_product_urls urls) <->
  is_product_url p = true /\ exists u, In u urls /\ p = _analyze_url u.
Proof.
  unfold extract_product_urls. rewrite In_sorted_desc.
  rewrite <- list_elem_of_In, list_elem_of_filter, list_elem_of_In, in_map_iff.
  split.
  - intros [Hp (u & <- & Hu)]. split; [apply Is_true_true, Hp | eauto].
  - intros [Hp (u & Hu & ->)]. split; [apply Is_true_true, Hp | eauto].
Qed.

End ParsersURLFacts.

(** X11.  [_analyze_url] of [parsers/url.py] gives a confidence between 0
    and 0.95; a product URL has a confidence of at least 0.5, and a URL that
    is not a product has the confidence 0 (excluded, or not parsed) or
    0.4. *)
Theorem analyze_url_confidence (u : string) :
  let p := ParsersURL._analyze_url u in
  (0 <= ParsersURL.confidence p <= 0.95)%Q /\
  (ParsersURL.is_product_url p = true -> (0.5 <= ParsersURL.confidence p)%Q) /\
  (ParsersURL.is_product_url p = false ->
   (ParsersURL.confidence p == 0)%Q \/ (ParsersURL.confidence p == 0.4)%Q).
Proof.
  unfold ParsersURL._analyze_url.
  destruct (UrlParse.urlparse u) as [parsed |].
  2:{ simpl. split; [split; lra |]. split; [discriminate | left; reflexivity]. }
  set (domain := if Py.startswith "www." _ then _ else _).
  destruct (existsb (String.eqb domain) ParsersURL.EXCLUDED_DOMAINS).
  { simpl. split; [split; lra |]. split; [discriminate | left; reflexivity]. }
  destruct (url_confidence_facts domain (UrlParse.path parsed)) as ([Hlo Hhi] & _ & H04).
  cbv zeta. simpl.
  assert (Hmin : (Py.fmin (ParsersURL.url_confidence domain (UrlParse.path parsed)) 1.0 ==
                  ParsersURL.url_confidence domain (UrlParse.path parsed))%Q).
  { rewrite fmin_one. apply Q.min_l. lra. }
  rewrite Hmin. split; [split; lra |]. split.
  - intros H. apply Qle_bool_iff in H. exact H.
  - intros H. right. apply H04, H.
Qed.

(** X12.  A URL that [urlparse] accepts is a product URL exactly when its
    domain is not in the exclusion set and, besides, its domain matches a
    product pattern, or its path (slashes stripped at both ends) has at most
    two slashes, or that path contains a product word. *)
Theorem analyze_url_decision (u : string) (parsed : UrlParse.ParseResult) :
  UrlParse.urlparse u = Some parsed ->
  let p := ParsersURL._analyze_url u in
  let path := Py.strip_char "/" (UrlParse.path parsed) in
  ParsersURL.is_product_url p =
    negb (existsb (String.eqb (ParsersURL.domain p)) ParsersURL.EXCLUDED_DOMAINS) &&
    (existsb (fun pattern => ParsersURL.re_match_dollar pattern (ParsersURL.domain p))
             ParsersURL.PRODUCT_DOMAIN_PATTERNS ||
     negb (2 <? Py.count_char "/" path)%nat ||
     Py.any_in ["pricing"; "features"; "demo"; "signup"; "register"; "start"]
               (Py.lower path)).
Proof.
  intros Hp. unfold ParsersURL._analyze_url. rewrite Hp.
  set (domain := if Py.startswith "www." _ then _ else _).
  destruct (existsb (String.eqb domain) ParsersURL.EXCLUDED_DOMAINS) eqn:He;
    cbv zeta; cbn [ParsersURL.is_product_url ParsersURL.domain]; rewrite He;
    [reflexivity |].
  destruct (url_confidence_facts domain (UrlParse.path parsed)) as (_ & Hd & _).
  exact Hd.
Qed.

Lemma analyze_url_decision_witness :
  ParsersURL.is_product_url (ParsersURL._analyze_url "https://example.org/a/b/c/d") =
    negb (existsb (String.eqb
                     (ParsersURL.domain (ParsersURL._analyze_url "https://example.org/a/b/c/d")))
                  ParsersURL.EXCLUDED_DOMAINS) &&
    (existsb (fun pattern =>
                ParsersURL.re_match_dollar pattern
                  (ParsersURL.domain (ParsersURL._analyze_url "https://example.org/a/b/c/d")))
             ParsersURL.PRODUCT_DOMAIN_PATTERNS ||
     negb (2 <? Py.count_char "/" (Py.strip_char "/" "/a/b/c/d"))%nat ||
     Py.any_in ["pricing"; "features"; "demo"; "signup"; "register"; "start"]
               (Py.lower (Py.strip_char "/" "/a/b/c/d"))).
Proof.
  exact (analyze_url_decision "https://example.org/a/b/c/d"
           (UrlParse.MkParseResult "https" "example.org" "/a/b/c/d") eq_refl).
Defined.

(** X13.  [extract_product_urls] returns the analyses of its URLs that are
    product URLs, in order of non-increasing confidence; so
    [get_best_product_url] returns nothing exactly when the text has no
    product URL, and else a product URL of the text of largest
    confidence. *)
Theorem best_product_url_largest_confidence (text : string) :
  let found := ParsersURL.extract_product_urls (ParsersURL.extract_urls text) in
  descending ParsersURL.confidence found /\
  (forall p, In p found <->
             ParsersURL.is_product_url p = true /\
             exists u, In u (ParsersURL.extract_urls text) /\ p = ParsersURL._analyze_url u) /\
  (ParsersURL.get_best_product_url text = None <-> found = []) /\
  (forall best, ParsersURL.get_best_product_url text = Some best ->
     In best found /\
     forall p, In p found -> (ParsersURL.confidence p <= ParsersURL.confidence best)%Q).
Proof.
  intros found.
  assert (Hd : descending ParsersURL.confidence found)
    by (apply sorted_desc_descending).
  split; [exact Hd |]. split; [intros p; apply In_extract_product_urls |].
  unfold ParsersURL.get_best_product_url. fold found.
  destruct found as [| first rest].
  - split; [split; reflexivity | intros best H; discriminate H].
  - split; [split; intros H; discriminate H |].
    intros best H. injection H as <-. split; [left; reflexivity |].
    intros p Hp. apply (descending_head _ first rest p Hd Hp).
Qed.

(** X14.  [extract_from_tweet] analyses the URLs of the text and the
    attached URLs alike: a product URL is returned exactly when it is the
    analysis of a URL found in the text or attached to the tweet. *)
Theorem extract_from_tweet_sources (text : string) (attached : list string)
    (p : ParsersURL.ProductURL) :
  In p (ParsersURL.extract_from_tweet text (Some attached)) <->
  ParsersURL.is_product_url p = true /\
  exists u, (In u (ParsersURL.extract_urls text) \/ In u attached) /\
            p = ParsersURL._analyze_url u.
Proof.
  unfold ParsersURL.extract_from_tweet. rewrite In_extract_product_urls.
  split; intros [Hp (u & Hu & ->)]; (split; [exact Hp |]); exists u;
    (split; [| reflexivity]); apply add_attached_In; exact Hu.
Qed.

(** ** The scorer: grades, traction and [process_tweet] *)

Section ScorerMore.
Import Scorer.

(** The grades from worst to best. *)
Definition grade_rank (g : string) : nat :=
  if String.eqb g "A+" then 5
  else if String.eqb g "A" then 4
  else if String.eqb g "B" then 3
  else if String.eqb g "C" then 2
  else if String.eqb g "D" then 1
  else 0.

Lemma fle_false_lt (a b : Q) : Py.fle a b = false -> (b < a)%Q.
Proof.
  unfold Py.fle. intros H. destruct (Qlt_le_dec b a) as [Hlt | Hle]; [exact Hlt |].
  apply Qle_bool_iff in Hle. congruence.
Qed.

(** Without traffic data the total is 85 at most. *)
Lemma score_idea_no_traffic (cfg : ScoringConfig) (idea : SaaSIdea) :
  has_data (traffic idea) = false ->
  exists r, score_idea cfg idea = Some r /\
            traffic_score r = 10%Z /\ (0 <= total_score r <= 85)%Z.
Proof.
  intros Hd.
  destruct (_score_growth_total cfg idea) as (g & d & Hgr & Hg).
  destruct (score_idea_eq cfg idea g d Hgr) as (r & Hr & Ht & Hgs & Hf & Hs & Hsum).
  pose proof (_score_traction_bounds cfg idea) as Htb.
  pose proof (_score_simplicity_bounds idea) as Hsb.
  assert (H10 : traffic_score r = 10%Z).
  { rewrite Hf. unfold _score_traffic. rewrite Hd. reflexivity. }
  exists r. split; [exact Hr |]. split; [exact H10 | lia].
Qed.

Lemma grade_A_plus (r : ScoringResult) : grade r = "A+" -> (90 <= total_score r)%Z.
Proof.
  unfold grade. destruct (90 <=? total_score r)%Z eqn:H; [intros _; lia |].
  case_ifs; discriminate.
Qed.

End ScorerMore.

(** X15.  The grade never decreases when the total grows: of two results,
    the one with the larger total has a grade at least as good. *)
Theorem grade_monotone (r1 r2 : Scorer.ScoringResult) :
  (Scorer.total_score r1 <= Scorer.total_score r2)%Z ->
  (grade_rank (Scorer.grade r1) <= grade_rank (Scorer.grade r2))%nat.
Proof.
  intros H. unfold Scorer.grade.
  repeat match goal with
         | |- context [(?a <=? ?b)%Z] =>
             let E := fresh "E" in destruct (a <=? b)%Z eqn:E;
             [apply Z.leb_le in E | apply Z.leb_gt in E]
         end; simpl; try lia; vm_compute; lia.
Qed.

Lemma grade_monotone_witness :
  (grade_rank (Scorer.grade (Scorer.MkScoringResult 89 30 25 24 10 ∅)) <=
   grade_rank (Scorer.grade (Scorer.MkScoringResult 90 30 25 25 10 ∅)))%nat.
Proof.
  apply (grade_monotone (Scorer.MkScoringResult 89 30 25 24 10 ∅)
                        (Scorer.MkScoringResult 90 30 25 25 10 ∅)).
  simpl. lia.
Defined.

(** X16.  An idea without traffic data scores the neutral 10 for traffic,
    so its total is 85 at most and its grade is never A+. *)
Theorem no_traffic_data_never_A_plus (cfg : Scorer.ScoringConfig) (idea : Scorer.SaaSIdea) :
  Scorer.has_data (Scorer.traffic idea) = false ->
  exists r, Scorer.score_idea cfg idea = Some r /\
            Scorer.traffic_score r = 10%Z /\
            (Scorer.total_score r <= 85)%Z /\
            Scorer.grade r <> "A+".
Proof.
  intros Hd. destruct (score_idea_no_traffic cfg idea Hd) as (r & Hr & H10 & Ht).
  exists r. split; [exact Hr |]. split; [exact H10 |]. split; [lia |].
  intros Hg. apply grade_A_plus in Hg. lia.
Qed.

Lemma no_traffic_data_never_A_plus_witness :
  exists r, Scorer.score_idea Scorer.default_config Inputs.zero_revenue_idea = Some r /\
            Scorer.traffic_score r = 10%Z /\
            (Scorer.total_score r <= 85)%Z /\
            Scorer.grade r <> "A+".
Proof.
  apply (no_traffic_data_never_A_plus Scorer.default_config Inputs.zero_revenue_idea).
  reflexivity.
Defined.

(** X17.  With thresholds in increasing order (low, medium, high), the
    traction score never decreases when the reported revenue and the
    revenue confidence grow. *)
Theorem traction_monotone (cfg : Scorer.ScoringConfig) (i1 i2 : Scorer.SaaSIdea) :
  (Scorer.mrr_low cfg <= Scorer.mrr_medium cfg <= Scorer.mrr_high cfg)%Z ->
  let revenue idea := match Scorer.reported_mrr idea with Some x => x | None => 0%Q end in
  (revenue i1 <= revenue i2)%Q ->
  (Scorer.revenue_confidence i1 <= Scorer.revenue_confidence i2)%Q ->
  (fst (Scorer._score_traction cfg i1) <= fst (Scorer._score_traction cfg i2))%Z.
Proof.
  intros [Hlm Hmh] revenue Hrev Hconf. subst revenue. cbv beta in Hrev.
  rewrite Zle_Qle in Hlm, Hmh.
  unfold Scorer._score_traction.
  destruct (Scorer.reported_mrr i1) as [x1 |], (Scorer.reported_mrr i2) as [x2 |];
    repeat match goal with
           | |- context [Qeq_bool ?a ?b] =>
               let E := fresh "E" in destruct (Qeq_bool a b) eqn:E;
               [apply Qeq_bool_iff in E | apply Qeq_bool_neq in E]
           end;
    repeat match goal with
           | |- context [Py.fle ?a ?b] =>
               let E := fresh "E" in destruct (Py.fle a b) eqn:E;
               [apply Qle_bool_iff in E | apply fle_false_lt in E]
           end;
    simpl; try lia; exfalso; lra.
Qed.

Lemma traction_monotone_witness :
  (fst (Scorer._score_traction Scorer.default_config Inputs.zero_revenue_idea) <=
   fst (Scorer._score_traction Scorer.default_config Inputs.referral_idea))%Z.
Proof.
  apply (traction_monotone Scorer.default_config Inputs.zero_revenue_idea
                           Inputs.referral_idea).
  - simpl. lia.
  - unfold Qle. simpl. lia.
  - unfold Qle. simpl. lia.
Defined.

(** ** [process_tweet] *)

Section ProcessTweet.
Import Scorer.




(** What [process_tweet] builds when it returns an idea: the idea scored,
    [idea0], is the one of the constructor call. *)
Lemma process_tweet_inv (cfg : ScoringConfig) (now : Z) (tweet : TwitterModels.Tweet)
    (idea : SaaSIdea) :
  process_tweet cfg now tweet = Some (Some idea) ->
  exists rd r idea0,
    MRRParser.get_best_mrr (TwitterModels.text tweet) = Some rd /\
    score_idea cfg idea0 = Some r /\
    traffic idea0 = no_traffic /\
    complexity idea0 = _estimate_complexity (TwitterModels.text tweet) /\
    reported_mrr idea0 = Some (MRRParser.monthly_equivalent rd) /\
    revenue_confidence idea0 = MRRParser.confidence rd /\
    has_screenshot idea0 = TwitterModels.has_image tweet /\
    has_stripe_screenshot idea0 = _is_stripe_screenshot tweet /\
    tweet_id idea0 = TwitterModels.id tweet /\
    tweet_text idea0 = TwitterModels.text tweet /\
    tweet_url idea0 = TwitterModels.tweet_url tweet /\
    idea = set_replicability (set_score idea0 r)
             (fst (determine_replicability (set_score idea0 r)))
             (snd (determine_replicability (set_score idea0 r))).
Proof.
  unfold process_tweet.
  destruct (MRRParser.parse_raises (TwitterModels.text tweet)); [discriminate |].
  destruct (MRRParser.get_best_mrr (TwitterModels.text tweet)) as [rd |]; [| discriminate].
  match goal with
  | |- context [score_idea cfg ?i] => set (idea0 := i)
  end.
  destruct (score_idea cfg idea0) as [r |] eqn:Hr; [| discriminate].
  destruct (determine_replicability (set_score idea0 r)) as [level note] eqn:Hd.
  intros H. injection H as <-.
  exists rd, r, idea0. rewrite Hd. cbn [fst snd].
  repeat (split; [reflexivity || exact Hr |]). reflexivity.
Qed.


(** [process_tweet] raises exactly when the MRR parser does: the scorer
    itself never raises. *)
Lemma process_tweet_None (cfg : ScoringConfig) (now : Z) (tweet : TwitterModels.Tweet) :
  process_tweet cfg now tweet = None <->
  MRRParser.parse_raises (TwitterModels.text tweet) = true.
Proof.
  unfold process_tweet.
  destruct (MRRParser.parse_raises (TwitterModels.text tweet));
    [split; reflexivity |].
  split; [| discriminate]. intros Hp. exfalso.
  destruct (MRRParser.get_best_mrr (TwitterModels.text tweet)) as [rd |];
    [| discriminate Hp].
  match type of Hp with
  | context [score_idea cfg ?i] =>
      destruct (_score_growth_total cfg i) as (g & d & Hg & _);
      destruct (score_idea_eq cfg i g d Hg) as (r & Hr & _);
      rewrite Hr in Hp
  end.
  destruct (determine_replicability _). discriminate Hp.
Qed.

(** A string of digits of length [n] is a number below [10 ^ n]. *)
Lemma digits_value_bounds (s : string) :
  forall acc v, (0 <= acc)%Z -> Py.digits_value acc s = Some v ->
    (0 <= v < (acc + 1) * 10 ^ Z.of_nat (String.length s))%Z.
Proof.
  induction s as [| c s IH]; intros acc v Hacc H.
  - simpl in H. injection H as <-. simpl. lia.
  - simpl in H. destruct (Py.is_digit c) eqn:Hc; [| discriminate].
    unfold Py.is_digit in Hc. apply andb_true_iff in Hc. destruct Hc as [Hlo Hhi].
    apply Nat.leb_le in Hlo. apply Nat.leb_le in Hhi.
    remember (Z.of_nat (nat_of_ascii c - 48)) as d eqn:Hd.
    assert (Hd9 : (0 <= d <= 9)%Z) by lia.
    destruct (IH _ v (ltac:(lia) : (0 <= 10 * acc + d)%Z) H) as [Hv0 Hv].
    cbn [String.length]. rewrite Nat2Z.inj_succ, Z.pow_succ_r by lia.
    remember (10 ^ Z.of_nat (String.length s))%Z as P eqn:HP.
    assert (HP0 : (0 < P)%Z) by (subst P; apply Z.pow_pos_nonneg; lia).
    split; [exact Hv0 | nia].
Qed.

Lemma length_remove_char (c : ascii) (s : string) :
  (String.length (Py.remove_char c s) <= String.length s)%nat.
Proof.
  induction s as [| d s IH]; simpl; [lia |].
  destruct (Ascii.eqb c d); simpl; lia.
Qed.

Lemma length_substring (s : string) :
  forall a n, (String.length (substring a n s) <= String.length s)%nat.
Proof.
  induction s as [| c s IH]; intros a n.
  - destruct a, n; simpl; lia.
  - destruct a as [| a].
    + destruct n as [| n]; simpl; [lia |]. specialize (IH 0%nat n). lia.
    + simpl. specialize (IH a n). lia.
Qed.

(** A count too large for a float has 309 digits or more, so a text of up
    to 308 characters cannot make the MRR parser raise. *)
Lemma parse_raises_long (text : string) :
  MRRParser.parse_raises text = true -> (308 < String.length text)%nat.
Proof.
  unfold MRRParser.parse_raises. intros H. apply existsb_exists in H.
  destruct H as (m & Hm & Hov). unfold MRRParser.customers_overflow in Hov.
  destruct (MRRParser.group m 1) as [[g1 |] |] eqn:Hg1; try discriminate.
  destruct (MRRParser.group m 2) as [[g2 |] |]; try discriminate.
  destruct (Py.int_of_string (Py.remove_char "," g1)) as [n |] eqn:Hn; [| discriminate].
  destruct (Py.float_of_string _); [| discriminate].
  unfold Py.int_overflows_float in Hov. apply Z.leb_le in Hov.
  apply group_In in Hg1. unfold Re.finditer in Hm.
  destruct (scan_groups_substring _ _ _ _ _ m g1 Hm Hg1) as (a & k & ->).
  unfold Py.int_of_string in Hn.
  destruct (Py.remove_char "," (substring a k text)) as [| c s] eqn:Hs; [discriminate |].
  destruct (_ <? _)%nat; [discriminate |].
  apply digits_value_bounds in Hn; [| lia]. rewrite <- Hs in Hn.
  pose proof (length_remove_char "," (substring a k text)) as Hl1.
  pose proof (length_substring text a k) as Hl2.
  destruct (Nat.le_gt_cases (String.length text) 308) as [Hshort | Hlong];
    [exfalso | exact Hlong].
  assert (Hpow : (10 ^ Z.of_nat (String.length (Py.remove_char "," (substring a k text)))
                  <= 10 ^ 308)%Z) by (apply Z.pow_le_mono_r; lia).
  assert (HT : (10 ^ 308 < 2 ^ 1024 - 2 ^ 970)%Z) by (vm_compute; reflexivity).
  remember (2 ^ 1024 - 2 ^ 970)%Z as T. remember (10 ^ 308)%Z as P.
  remember (10 ^ Z.of_nat (String.length (Py.remove_char "," (substring a k text))))%Z as Q.
  lia.
Qed.


End ProcessTweet.

(** A tweet with a revenue figure, a product link and a photo. *)
Definition revenue_tweet : TwitterModels.Tweet :=
  TwitterModels.MkTweet "42" "Just hit $10K MRR with my chrome extension https://getfoo.io"
    0 (Some (TwitterModels.MkTweetAuthor "7" "maker" "Maker" 6000 false None))
    (TwitterModels.MkTweetMetrics 100 20 10 0 5000 0)
    [TwitterModels.MkTweetMedia "photo" None] [].

(** A string of [n] nines. *)
Fixpoint nines (n : nat) : string :=
  match n with
  | O => ""
  | S k => String "9" (nines k)
  end.

(** A tweet whose customer count, 309 nines, is too large for a float. *)
Definition overflow_tweet : TwitterModels.Tweet :=
  TwitterModels.MkTweet "43" (nines 309 ++ " paying customers at $5")
    0 None (TwitterModels.MkTweetMetrics 0 0 0 0 0 0) [] [].

(** X18.  [process_tweet] raises exactly when the MRR parser raises, that
    is when the text has a match of [N paying customers at $P] whose count
    [N] is too large for a float (2^1024 - 2^970 or more, with at most 4300
    digits): the [OverflowError] of [int * float] is not caught.  A text of
    up to 308 characters never makes it raise.  When [process_tweet]
    returns, it returns nothing exactly when [get_best_mrr] finds no
    revenue in the text; otherwise the idea carries the tweet's identifier,
    text and address, the monthly equivalent of the best revenue candidate
    and its confidence. *)
Theorem process_tweet_outcome (cfg : Scorer.ScoringConfig) (now : Z)
    (tweet : TwitterModels.Tweet) :
  let text := TwitterModels.text tweet in
  (Scorer.process_tweet cfg now tweet = None <-> MRRParser.parse_raises text = true) /\
  ((String.length text <= 308)%nat ->
   exists result, Scorer.process_tweet cfg now tweet = Some result) /\
  (forall result, Scorer.process_tweet cfg now tweet = Some result ->
     (result = None <-> MRRParser.get_best_mrr text = None) /\
     forall idea, result = Some idea ->
       Scorer.tweet_id idea = TwitterModels.id tweet /\
       Scorer.tweet_text idea = text /\
       Scorer.tweet_url idea = TwitterModels.tweet_url tweet /\
       exists rd, MRRParser.get_best_mrr text = Some rd /\
                  Scorer.reported_mrr idea = Some (MRRParser.monthly_equivalent rd) /\
                  Scorer.revenue_confidence idea = MRRParser.confidence rd).
Proof.
  cbv zeta. split; [apply process_tweet_None |]. split.
  - intros Hshort.
    destruct (Scorer.process_tweet cfg now tweet) as [result |] eqn:Hp; [eauto |].
    apply process_tweet_None, parse_raises_long in Hp. lia.
  - intros [idea |] Hp.
    + destruct (process_tweet_inv cfg now tweet idea Hp)
        as (rd & r & idea0 & Hrd & _ & _ & _ & Hm & Hc & _ & _ & Hid & Htx & Hu & ->).
      split; [split; intros H; [discriminate H | rewrite Hrd in H; discriminate H] |].
      intros idea' H. injection H as <-. simpl.
      repeat (split; [assumption |]). exists rd. repeat split; assumption.
    + split; [| intros idea H; discriminate H].
      split; [intros _ | reflexivity].
      unfold Scorer.process_tweet in Hp.
      destruct (MRRParser.parse_raises (TwitterModels.text tweet)); [discriminate Hp |].
      destruct (MRRParser.get_best_mrr (TwitterModels.text tweet)) as [rd |];
        [| reflexivity].
      destruct (Scorer.score_idea cfg _); [| discriminate Hp].
      destruct (Scorer.determine_replicability _). discriminate Hp.
Qed.

Lemma process_tweet_outcome_witness :
  Scorer.process_tweet Scorer.default_config 0 overflow_tweet = None /\
  exists result, Scorer.process_tweet Scorer.default_config 0 revenue_tweet = Some result.
Proof.
  split.
  - pose proof (process_tweet_outcome Scorer.default_config 0 overflow_tweet) as H.
    cbv zeta in H. destruct H as (Hraise & _ & _). apply Hraise.
    vm_compute. reflexivity.
  - pose proof (process_tweet_outcome Scorer.default_config 0 revenue_tweet) as H.
    cbv zeta in H. destruct H as (_ & Hshort & _). apply Hshort.
    vm_compute. lia.
Defined.




(** ** The scraper manager: initialization, fallback and what a search
    leaves behind *)

(** Whether awaiting [initialize()] on a scraper answers true. *)
Definition initializes (s : ScraperManager.Scraper) : bool :=
  match ScraperManager.initialize_result s with
  | ScraperManager.InitTrue => true
  | _ => false
  end.

(** Every scraper of the list, called in turn from backend call [n] on,
    ends its stream with an exception. *)
Fixpoint all_raise (query : string) (limit : Z) (since until : option string)
    (n : nat) (l : list ScraperManager.Scraper) : Prop :=
  match l with
  | [] => True
  | s :: l' =>
      ScraperManager.raised (ScraperManager.search_stream s n query limit since until)
        <> None /\
      all_raise query limit since until (S n) l'
  end.

(** The tweets the scrapers of the list yield, called in turn from backend
    call [n] on. *)
Fixpoint yields_of (query : string) (limit : Z) (since until : option string)
    (n : nat) (l : list ScraperManager.Scraper) : list ScraperManager.Tweet :=
  match l with
  | [] => []
  | s :: l' =>
      ScraperManager.yielded (ScraperManager.search_stream s n query limit since until)
      ++ yields_of query limit since until (S n) l'
  end.

Section ManagerMore.
Import ScraperManager.

Variables twscrape apify scweet : Scraper.

Lemma fold_try_scraper (l : list Scraper) :
  forall acc, fold_left try_scraper l acc = acc ++ List.filter initializes l.
Proof.
  induction l as [| s l IH]; intros acc; simpl.
  - rewrite app_nil_r. reflexivity.
  - rewrite IH. unfold try_scraper, initializes.
    destruct (initialize_result s); simpl; [rewrite <- app_assoc |..]; reflexivity.
Qed.

(** The manager after [k] more backend calls. *)
Definition after_calls (self : Manager) (k : nat) : Manager :=
  MkManager (enable_scweet self) (scrapers self) (active_scraper self)
            (_initialized self) (calls self + k).

(** The loop passes over scrapers that fail, keeping what they yield. *)
Lemma search_loop_failed (query : string) (limit : Z) (since until : option string)
    (failed todo : list Scraper) :
  forall (self : Manager) (last_error : option Exn) (sent : list Tweet),
    all_raise query limit since until (calls self) failed ->
    exists last_error',
      search_loop query limit since until (failed ++ todo) self last_error sent =
      search_loop query limit since until todo (after_calls self (length failed))
                  last_error'
                  (sent ++ yields_of query limit since until (calls self) failed).
Proof.
  induction failed as [| s failed IH]; intros self last_error sent Hall.
  - exists last_error. simpl. rewrite app_nil_r. unfold after_calls.
    rewrite Nat.add_0_r. destruct self; reflexivity.
  - destruct Hall as [Hs Hall]. simpl.
    destruct (raised (search_stream s (calls self) query limit since until)) as [e |];
      [| contradiction].
    destruct (IH (MkManager (enable_scweet self) (scrapers self) (active_scraper self)
                            (_initialized self) (S (calls self)))
                 (Some e)
                 (sent ++ yielded (search_stream s (calls self) query limit since until))
                 Hall) as [last_error' Heq].
    exists last_error'. rewrite Heq. unfold after_calls. simpl.
    rewrite <- app_assoc, <- Nat.add_succ_comm. reflexivity.
Qed.

(** What the loop of [search] leaves of the manager. *)
Lemma search_loop_frame (query : string) (limit : Z) (since until : option string)
    (todo : list Scraper) :
  forall (self : Manager) (last_error : option Exn) (sent : list Tweet),
    let result := search_loop query limit since until todo self last_error sent in
    scrapers (snd result) = scrapers self /\
    _initialized (snd result) = _initialized self /\
    enable_scweet (snd result) = enable_scweet self /\
    (calls self <= calls (snd result) <= calls self + length todo)%nat /\
    (raised (fst result) = None ->
     (todo = [] /\ last_error = None /\ snd result = self) \/
     exists s, In s todo /\ active_scraper (snd result) = Some s) /\
    (raised (fst result) <> None ->
     active_scraper (snd result) = active_scraper self /\
     calls (snd result) = (calls self + length todo)%nat /\
     (todo = [] -> raised (fst result) = last_error)).
Proof.
  induction todo as [| s todo IH]; intros self last_error sent; simpl.
  - repeat split; try lia; auto.
  - destruct (raised (search_stream s (calls self) query limit since until)) as [e |].
    + specialize (IH (MkManager (enable_scweet self) (scrapers self) (active_scraper self)
                                (_initialized self) (S (calls self)))
                     (Some e)
                     (sent ++ yielded (search_stream s (calls self) query limit since until))).
      simpl in IH. destruct IH as (H1 & H2 & H3 & H4 & H5 & H6).
      repeat split; try assumption; try lia.
      * intros Hn. right. destruct (H5 Hn) as [(_ & He & _) | (s' & Hs' & Ha)];
          [discriminate He |]. exists s'. split; [right; exact Hs' | exact Ha].
      * apply H6. assumption.
      * destruct (H6 H) as (_ & Hc & _). lia.
      * intros Habs. discriminate Habs.
    + simpl. repeat split; try lia.
      * intros _. right. exists s. split; [left; reflexivity | reflexivity].
      * contradiction.
      * contradiction.
      * intros Habs. discriminate Habs.
Qed.

Section UserTweetsFacts.

Variable user_tweets_stream : Scraper -> nat -> string -> Z -> Run.

Lemma user_tweets_loop_frame (username : string) (limit : Z) (todo : list Scraper) :
  forall (self : Manager) (sent : list Tweet),
    let result := user_tweets_loop user_tweets_stream username limit todo self sent in
    raised (fst result) = None /\
    scrapers (snd result) = scrapers self /\
    _initialized (snd result) = _initialized self /\
    (calls self <= calls (snd result) <= calls self + length todo)%nat.
Proof.
  induction todo as [| s todo IH]; intros self sent; simpl.
  - repeat split; lia.
  - destruct (raised (user_tweets_stream s (calls self) username limit)) as [e |].
    + specialize (IH (MkManager (enable_scweet self) (scrapers self) (active_scraper self)
                                (_initialized self) (S (calls self)))
                     (sent ++ yielded (user_tweets_stream s (calls self) username limit))).
      simpl in IH. destruct IH as (H1 & H2 & H3 & H4).
      repeat split; try assumption; lia.
    + simpl. repeat split; lia.
Qed.

End UserTweetsFacts.

(** The manager a search starts its loop with. *)
Definition ready_manager (self : Manager) : Manager :=
  if _initialized self then self else snd (initialize twscrape apify scweet self).

Lemma initialize_facts (self : Manager) :
  let tried := [twscrape; apify] ++ (if enable_scweet self then [scweet] else []) in
  let result := initialize twscrape apify scweet self in
  scrapers (snd result) = scrapers self ++ List.filter initializes tried /\
  (fst result = true <-> scrapers (snd result) <> []) /\
  (fst result = true ->
   active_scraper (snd result) = head (scrapers (snd result)) /\
   _initialized (snd result) = true) /\
  (fst result = false -> snd result = self) /\
  calls (snd result) = calls self /\
  enable_scweet (snd result) = enable_scweet self.
Proof.
  cbv zeta. unfold initialize.
  assert (Htried : (if enable_scweet self then [twscrape; apify] ++ [scweet]
                    else [twscrape; apify]) =
                   [twscrape; apify] ++ (if enable_scweet self then [scweet] else [])).
  { destruct (enable_scweet self); reflexivity. }
  rewrite Htried, fold_try_scraper.
  destruct (scrapers self ++ List.filter initializes
              ([twscrape; apify] ++ (if enable_scweet self then [scweet] else [])))
    as [| first l] eqn:Hl; simpl.
  - repeat split; try discriminate; try congruence.
    intros _. apply app_eq_nil in Hl. destruct Hl as [Hs _].
    destruct self; simpl in *; subst; reflexivity.
  - repeat split; try discriminate; congruence.
Qed.

End ManagerMore.

(** X21.  [initialize] appends, after the scrapers the manager already
    has, the clients whose own initialization answers true, in the order
    twscrape, apify, scweet, the last only when enabled.  It answers true
    exactly when the list is then not empty, and then makes the first
    scraper active and marks the manager initialized; when it answers false
    the manager is unchanged. *)
Theorem initialize_appends_ready (twscrape apify scweet : ScraperManager.Scraper)
    (self : ScraperManager.Manager) :
  let tried := [twscrape; apify] ++
               (if ScraperManager.enable_scweet self then [scweet] else []) in
  let result := ScraperManager.initialize twscrape apify scweet self in
  ScraperManager.scrapers (snd result) =
    ScraperManager.scrapers self ++ List.filter initializes tried /\
  (fst result = true <-> ScraperManager.scrapers (snd result) <> []) /\
  (fst result = true ->
   ScraperManager.active_scraper (snd result) = head (ScraperManager.scrapers (snd result)) /\
   ScraperManager._initialized (snd result) = true) /\
  (fst result = false -> snd result = self) /\
  ScraperManager.calls (snd result) = ScraperManager.calls self /\
  ScraperManager.enable_scweet (snd result) = ScraperManager.enable_scweet self.
Proof. apply initialize_facts. Qed.

(** X22.  On an initialized manager, [search] stops at the first scraper
    whose stream completes: the scrapers before it are each called once and
    what they yield before failing stays in the output, the scrapers after
    it are not called, nothing is raised, and that scraper becomes the
    active one. *)
Theorem search_stops_at_first_success
    (twscrape apify scweet : ScraperManager.Scraper) (self : ScraperManager.Manager)
    (query : string) (limit : Z) (since until : option string)
    (failed : list ScraperManager.Scraper) (s : ScraperManager.Scraper)
    (rest : list ScraperManager.Scraper) (items : list ScraperManager.Tweet) :
  ScraperManager._initialized self = true ->
  ScraperManager.scrapers self = failed ++ s :: rest ->
  all_raise query limit since until (ScraperManager.calls self) failed ->
  ScraperManager.search_stream s (ScraperManager.calls self + length failed)
                               query limit since until
    = ScraperManager.MkRun items None ->
  ScraperManager.search twscrape apify scweet self query limit since until =
    (ScraperManager.MkRun
       (yields_of query limit since until (ScraperManager.calls self) failed ++ items) None,
     ScraperManager.MkManager
       (ScraperManager.enable_scweet self) (ScraperManager.scrapers self) (Some s) true
       (S (ScraperManager.calls self + length failed))).
Proof.
  intros Hinit Hscr Hall Hs.
  rewrite search_initialized by exact Hinit.
  assert (Hgen : forall l, l = failed ++ s :: rest ->
            ScraperManager.search_loop query limit since until l self None [] =
            (ScraperManager.MkRun
               (yields_of query limit since until (ScraperManager.calls self) failed ++ items)
               None,
             ScraperManager.MkManager
               (ScraperManager.enable_scweet self) (ScraperManager.scrapers self) (Some s)
               true (S (ScraperManager.calls self + length failed)))).
  { intros l ->.
    destruct (search_loop_failed query limit since until failed (s :: rest) self None []
                Hall) as [last_error' ->].
    simpl. rewrite Hs. simpl. rewrite Hinit. reflexivity. }
  apply Hgen, Hscr.
Qed.

Lemma search_stops_at_first_success_witness :
  ScraperManager.search Inputs.flaky Inputs.steady Inputs.absent
    (ScraperManager.MkManager false [Inputs.flaky; Inputs.flaky; Inputs.steady; Inputs.flaky]
                              (Some Inputs.flaky) true 0)
    "#buildinpublic MRR" 100 None None =
  (ScraperManager.MkRun [Inputs.tweet1; Inputs.tweet1; Inputs.tweet2] None,
   ScraperManager.MkManager false [Inputs.flaky; Inputs.flaky; Inputs.steady; Inputs.flaky]
                            (Some Inputs.steady) true 3).
Proof.
  apply (search_stops_at_first_success Inputs.flaky Inputs.steady Inputs.absent
           (ScraperManager.MkManager false
              [Inputs.flaky; Inputs.flaky; Inputs.steady; Inputs.flaky]
              (Some Inputs.flaky) true 0)
           "#buildinpublic MRR" 100 None None
           [Inputs.flaky; Inputs.flaky] Inputs.steady [Inputs.flaky] [Inputs.tweet2]).
  - reflexivity.
  - reflexivity.
  - simpl. repeat split; discriminate.
  - reflexivity.
Defined.

(** X23.  On an initialized manager whose scrapers all fail, [search]
    raises the exception of the last scraper, after yielding what each
    scraper yielded before failing; every scraper was called once and the
    active scraper is unchanged. *)
Theorem search_all_fail_raises_last
    (twscrape apify scweet : ScraperManager.Scraper) (self : ScraperManager.Manager)
    (query : string) (limit : Z) (since until : option string)
    (failed : list ScraperManager.Scraper) (s : ScraperManager.Scraper)
    (items : list ScraperManager.Tweet) (e : ScraperManager.Exn) :
  ScraperManager._initialized self = true ->
  ScraperManager.scrapers self = failed ++ [s] ->
  all_raise query limit since until (ScraperManager.calls self) failed ->
  ScraperManager.search_stream s (ScraperManager.calls self + length failed)
                               query limit since until
    = ScraperManager.MkRun items (Some e) ->
  ScraperManager.search twscrape apify scweet self query limit since until =
    (ScraperManager.MkRun
       (yields_of query limit since until (ScraperManager.calls self) failed ++ items)
       (Some e),
     ScraperManager.MkManager
       (ScraperManager.enable_scweet self) (ScraperManager.scrapers self)
       (ScraperManager.active_scraper self) true
       (S (ScraperManager.calls self + length failed))).
Proof.
  intros Hinit Hscr Hall Hs.
  rewrite search_initialized by exact Hinit.
  assert (Hgen : forall l, l = failed ++ [s] ->
            ScraperManager.search_loop query limit since until l self None [] =
            (ScraperManager.MkRun
               (yields_of query limit since until (ScraperManager.calls self) failed ++ items)
               (Some e),
             ScraperManager.MkManager
               (ScraperManager.enable_scweet self) (ScraperManager.scrapers self)
               (ScraperManager.active_scraper self) true
               (S (ScraperManager.calls self + length failed)))).
  { intros l ->.
    destruct (search_loop_failed query limit since until failed [s] self None []
                Hall) as [last_error' ->].
    simpl. rewrite Hs. simpl. rewrite Hinit. reflexivity. }
  apply Hgen, Hscr.
Qed.

Lemma search_all_fail_raises_last_witness :
  ScraperManager.search Inputs.flaky Inputs.steady Inputs.absent
    (ScraperManager.MkManager false [Inputs.flaky; Inputs.flaky] (Some Inputs.flaky) true 0)
    "#buildinpublic MRR" 100 None None =
  (ScraperManager.MkRun [Inputs.tweet1; Inputs.tweet1] (Some Inputs.rate_limited),
   ScraperManager.MkManager false [Inputs.flaky; Inputs.flaky] (Some Inputs.flaky) true 2).
Proof.
  apply (search_all_fail_raises_last Inputs.flaky Inputs.steady Inputs.absent
           (ScraperManager.MkManager false [Inputs.flaky; Inputs.flaky]
                                     (Some Inputs.flaky) true 0)
           "#buildinpublic MRR" 100 None None
           [Inputs.flaky] Inputs.flaky [Inputs.tweet1] Inputs.rate_limited).
  - reflexivity.
  - reflexivity.
  - simpl. repeat split; discriminate.
  - reflexivity.
Defined.

(** X24.  A manager that is not initialized and has no scraper, with no
    client that initializes, yields nothing and raises nothing, for a
    search as for a user's tweets: no backend is called and the manager is
    unchanged. *)
Theorem nothing_without_a_scraper
    (twscrape apify scweet : ScraperManager.Scraper)
    (user_tweets_stream : ScraperManager.Scraper -> nat -> string -> Z -> ScraperManager.Run)
    (self : ScraperManager.Manager)
    (query : string) (limit : Z) (since until : option string) :
  ScraperManager._initialized self = false ->
  ScraperManager.scrapers self = [] ->
  initializes twscrape = false ->
  initializes apify = false ->
  (ScraperManager.enable_scweet self = true -> initializes scweet = false) ->
  ScraperManager.search twscrape apify scweet self query limit since until =
    (ScraperManager.MkRun [] None, self) /\
  ScraperManager.get_user_tweets twscrape apify scweet user_tweets_stream self query limit =
    (ScraperManager.MkRun [] None, self).
Proof.
  intros Hinit Hscr Ht Ha Hs.
  destruct (initialize_facts twscrape apify scweet self)
    as (Hl & Hok & _ & Hsame & _).
  assert (Hfalse : fst (ScraperManager.initialize twscrape apify scweet self) = false).
  { destruct (fst (ScraperManager.initialize twscrape apify scweet self)) eqn:E;
      [| reflexivity].
    exfalso. apply (proj1 Hok eq_refl). rewrite Hl, Hscr. simpl. rewrite Ht, Ha.
    destruct (ScraperManager.enable_scweet self); [| reflexivity].
    simpl. rewrite (Hs eq_refl). reflexivity. }
  specialize (Hsame Hfalse).
  unfold ScraperManager.search, ScraperManager.get_user_tweets. rewrite Hinit.
  destruct (ScraperManager.initialize twscrape apify scweet self) as [ok self'].
  simpl in Hfalse, Hsame. subst ok self'. split; reflexivity.
Qed.

Lemma nothing_without_a_scraper_witness :
  ScraperManager.search Inputs.absent Inputs.absent Inputs.absent
    (ScraperManager.new_manager true) "#buildinpublic MRR" 100 None None =
    (ScraperManager.MkRun [] None, ScraperManager.new_manager true) /\
  ScraperManager.get_user_tweets Inputs.absent Inputs.absent Inputs.absent
    (fun _ _ _ _ => ScraperManager.MkRun [Inputs.tweet1] None)
    (ScraperManager.new_manager true) "#buildinpublic MRR" 100 =
    (ScraperManager.MkRun [] None, ScraperManager.new_manager true).
Proof.
  apply (nothing_without_a_scraper Inputs.absent Inputs.absent Inputs.absent
           (fun _ _ _ _ => ScraperManager.MkRun [Inputs.tweet1] None)
           (ScraperManager.new_manager true) "#buildinpublic MRR" 100 None None);
    reflexivity.
Defined.

(** X25.  [get_user_tweets] never raises, whatever the backends do: a
    scraper that fails is passed over, and when all fail the call just
    ends.  It keeps the list of scrapers the call started its loop with and
    calls each of them at most once. *)
Theorem get_user_tweets_never_raises
    (twscrape apify scweet : ScraperManager.Scraper)
    (user_tweets_stream : ScraperManager.Scraper -> nat -> string -> Z -> ScraperManager.Run)
    (self : ScraperManager.Manager) (username : string) (limit : Z) :
  let result := ScraperManager.get_user_tweets twscrape apify scweet user_tweets_stream
                  self username limit in
  let ready := ready_manager twscrape apify scweet self in
  ScraperManager.raised (fst result) = None /\
  ScraperManager.scrapers (snd result) = ScraperManager.scrapers ready /\
  (ScraperManager.calls self <= ScraperManager.calls (snd result)
   <= ScraperManager.calls self + length (ScraperManager.scrapers ready))%nat.
Proof.
  cbv zeta. unfold ScraperManager.get_user_tweets, ready_manager.
  destruct (ScraperManager._initialized self) eqn:Hinit.
  - destruct (user_tweets_loop_frame user_tweets_stream username limit
                (ScraperManager.scrapers self) self []) as (H1 & H2 & _ & H4).
    repeat split; try assumption; lia.
  - destruct (initialize_facts twscrape apify scweet self) as (_ & _ & _ & Hsame & Hc & _).
    destruct (ScraperManager.initialize twscrape apify scweet self) as [[] self'];
      simpl in *.
    + destruct (user_tweets_loop_frame user_tweets_stream username limit
                  (ScraperManager.scrapers self') self' []) as (H1 & H2 & _ & H4).
      repeat split; try assumption; lia.
    + rewrite (Hsame eq_refl). repeat split; lia.
Qed.

(** X26.  [search] keeps the list of scrapers it started its loop with and
    calls each of them at most once.  When it raises, every scraper was
    called, there was at least one, and the active scraper is the one the
    loop started with; when it completes after calling a backend, the
    active scraper is one of the list. *)
Theorem search_frame
    (twscrape apify scweet : ScraperManager.Scraper) (self : ScraperManager.Manager)
    (query : string) (limit : Z) (since until : option string) :
  let result := ScraperManager.search twscrape apify scweet self query limit since until in
  let ready := ready_manager twscrape apify scweet self in
  ScraperManager.scrapers (snd result) = ScraperManager.scrapers ready /\
  ScraperManager.enable_scweet (snd result) = ScraperManager.enable_scweet self /\
  (ScraperManager.calls self <= ScraperManager.calls (snd result)
   <= ScraperManager.calls self + length (ScraperManager.scrapers ready))%nat /\
  (ScraperManager.raised (fst result) <> None ->
   ScraperManager.scrapers ready <> [] /\
   ScraperManager.calls (snd result) =
     (ScraperManager.calls self + length (ScraperManager.scrapers ready))%nat /\
   ScraperManager.active_scraper (snd result) = ScraperManager.active_scraper ready) /\
  (ScraperManager.raised (fst result) = None ->
   ScraperManager.calls self <> ScraperManager.calls (snd result) ->
   exists s, In s (ScraperManager.scrapers ready) /\
             ScraperManager.active_scraper (snd result) = Some s).
Proof.
  cbv zeta.
  assert (Hloop : forall m : ScraperManager.Manager,
    let result := ScraperManager.search_loop query limit since until
                    (ScraperManager.scrapers m) m None [] in
    ScraperManager.scrapers (snd result) = ScraperManager.scrapers m /\
    ScraperManager.enable_scweet (snd result) = ScraperManager.enable_scweet m /\
    (ScraperManager.calls m <= ScraperManager.calls (snd result)
     <= ScraperManager.calls m + length (ScraperManager.scrapers m))%nat /\
    (ScraperManager.raised (fst result) <> None ->
     ScraperManager.scrapers m <> [] /\
     ScraperManager.calls (snd result) =
       (ScraperManager.calls m + length (ScraperManager.scrapers m))%nat /\
     ScraperManager.active_scraper (snd result) = ScraperManager.active_scraper m) /\
    (ScraperManager.raised (fst result) = None ->
     ScraperManager.calls m <> ScraperManager.calls (snd result) ->
     exists s, In s (ScraperManager.scrapers m) /\
               ScraperManager.active_scraper (snd result) = Some s)).
  { intros m. cbv zeta.
    destruct (search_loop_frame query limit since until (ScraperManager.scrapers m) m None [])
      as (H1 & _ & H3 & H4 & H5 & H6).
    split; [exact H1 |]. split; [exact H3 |]. split; [exact H4 |]. split.
    - intros Hr. destruct (H6 Hr) as (Ha & Hc & Hnil).
      split; [| split; assumption].
      intros Hempty. apply Hr. apply Hnil. exact Hempty.
    - intros Hr Hcalls. destruct (H5 Hr) as [(_ & _ & Hsame) | Hs]; [| exact Hs].
      rewrite Hsame in Hcalls. contradiction. }
  unfold ScraperManager.search, ready_manager.
  destruct (ScraperManager._initialized self) eqn:Hinit; [apply Hloop |].
  destruct (initialize_facts twscrape apify scweet self) as (_ & _ & _ & Hsame & Hc & He).
  destruct (ScraperManager.initialize twscrape apify scweet self) as [[] self'];
    simpl in Hsame, Hc, He |- *.
  - rewrite <- Hc, <- He. apply Hloop.
  - rewrite (Hsame eq_refl). simpl.
    repeat split; try lia; contradiction.
Qed.
(** ** Keyword tables: which keyword decides *)

Section KeywordFacts.

Lemma append_cons (x : ascii) (a b : string) :
  String.append (String x a) b = String x (String.append a b).
Proof. reflexivity. Qed.

Lemma append_assoc (a b c : string) :
  String.append (String.append a b) c = String.append a (String.append b c).
Proof.
  induction a as [| x a IH]; [reflexivity |].
  rewrite !append_cons, IH. reflexivity.
Qed.

Lemma prefix_append (p s : string) :
  String.prefix p s = true <-> exists t, s = String.append p t.
Proof.
  revert s. induction p as [| a p IH]; intros s.
  - split; [intros _; exists s; reflexivity | intros _; destruct s; reflexivity].
  - destruct s as [| b s]; simpl.
    + split; [discriminate | intros [t H]; rewrite append_cons in H; discriminate H].
    + destruct (ascii_dec a b) as [-> | Hne].
      * rewrite IH. split; intros [t H]; exists t;
          [rewrite append_cons, H; reflexivity |].
        rewrite append_cons in H. injection H as ->. reflexivity.
      * split; [discriminate |].
        intros [t H]. rewrite append_cons in H. injection H as -> _. contradiction.
Qed.

(** [needle in hay]: the needle lies somewhere in the hay. *)
Lemma contains_append (needle hay : string) :
  Py.contains needle hay = true <->
  exists pre post, hay = String.append pre (String.append needle post).
Proof.
  induction hay as [| c hay IH].
  - change (Py.contains needle "") with (String.prefix needle "" || false).
    rewrite orb_false_r, prefix_append. split.
    + intros [t H]. exists ""%string, t. exact H.
    + intros (pre & post & H).
      destruct pre; [exists post; exact H | rewrite append_cons in H; discriminate H].
  - change (Py.contains needle (String c hay))
      with (String.prefix needle (String c hay) || Py.contains needle hay).
    rewrite orb_true_iff, prefix_append, IH. split.
    + intros [[t H] | (pre & post & H)].
      * exists ""%string, t. exact H.
      * exists (String c pre), post. rewrite append_cons, H. reflexivity.
    + intros (pre & post & H). destruct pre as [| x pre].
      * left. exists post. exact H.
      * right. rewrite append_cons in H. injection H as _ H. exists pre, post. exact H.
Qed.

(** A text that contains a word contains the parts of that word. *)
Lemma contains_trans (a b c : string) :
  Py.contains a b = true -> Py.contains b c = true -> Py.contains a c = true.
Proof.
  rewrite !contains_append. intros (p1 & q1 & ->) (p2 & q2 & ->).
  exists (String.append p2 p1), (String.append q1 q2).
  rewrite !append_assoc. reflexivity.
Qed.

Lemma any_in_cons (kw : string) (kws : list string) (text : string) :
  Py.any_in (kw :: kws) text = Py.contains kw text || Py.any_in kws text.
Proof. reflexivity. Qed.

Lemma any_in_app (kws kws' : list string) (text : string) :
  Py.any_in (kws ++ kws') text = Py.any_in kws text || Py.any_in kws' text.
Proof. apply existsb_app. Qed.

End KeywordFacts.

(** X27.  [_estimate_complexity] never answers UNKNOWN, and its tests are
    taken in order: a text that mentions a platform word is never rated
    COMPLEX_SAAS, so that rating is decided by one of the words
    integrations, team features, collaboration or workflow alone; the
    words enterprise and automation platform of the third list never
    decide. *)
Theorem _estimate_complexity_order (text : string) :
  let text_lower := Py.lower text in
  Scorer._estimate_complexity text <> ProductComplexity.UNKNOWN /\
  (Scorer._estimate_complexity text = ProductComplexity.COMPLEX_SAAS ->
   Py.any_in ["platform"; "marketplace"; "ecosystem"; "suite"; "enterprise";
              "b2b platform"; "api platform"] text_lower = false /\
   Py.contains "enterprise" text_lower = false /\
   Py.contains "automation platform" text_lower = false /\
   Py.any_in ["integrations"; "team features"; "collaboration"; "workflow"] text_lower
     = true) /\
  (Scorer._estimate_complexity text = ProductComplexity.SIMPLE_SAAS <->
   Py.any_in ["simple tool"; "one feature"; "single feature"; "chrome extension";
              "browser extension"; "bookmarklet"; "widget"; "plugin"; "addon";
              "shortcut"; "platform"; "marketplace"; "ecosystem"; "suite";
              "enterprise"; "integrations"; "team features"; "collaboration";
              "workflow"] text_lower = false).
Proof.
  cbv zeta. unfold Scorer._estimate_complexity.
  set (t := Py.lower text).
  set (single := ["simple tool"; "one feature"; "single feature"; "chrome extension";
                  "browser extension"; "bookmarklet"; "widget"; "plugin"; "addon";
                  "shortcut"]).
  pose (platform := ["platform"; "marketplace"; "ecosystem"; "suite"; "enterprise"]).
  pose (complex := ["integrations"; "team features"; "collaboration"; "workflow"]).
  change (Py.any_in ["platform"; "marketplace"; "ecosystem"; "suite"; "enterprise";
                     "b2b platform"; "api platform"] t)
    with (Py.any_in (platform ++ ["b2b platform"; "api platform"]) t).
  change (Py.any_in ["integrations"; "team features"; "collaboration"; "workflow";
                     "automation platform"; "enterprise"] t)
    with (Py.any_in (complex ++ ["automation platform"; "enterprise"]) t).
  change (Py.any_in ["simple tool"; "one feature"; "single feature"; "chrome extension";
                     "browser extension"; "bookmarklet"; "widget"; "plugin"; "addon";
                     "shortcut"; "platform"; "marketplace"; "ecosystem"; "suite";
                     "enterprise"; "integrations"; "team features"; "collaboration";
                     "workflow"] t)
    with (Py.any_in (single ++ platform ++ complex) t).
  fold complex. rewrite !any_in_app, !any_in_cons.
  assert (Hp : Py.contains "platform" t = true -> Py.any_in platform t = true).
  { intros H. unfold platform. rewrite any_in_cons, H. reflexivity. }
  assert (He : Py.contains "enterprise" t = true -> Py.any_in platform t = true).
  { intros H. unfold platform. rewrite !any_in_cons, H, !orb_true_r. reflexivity. }
  assert (Hap : Py.contains "automation platform" t = true ->
                Py.any_in platform t = true).
  { intros H. apply Hp. revert H. apply contains_trans. reflexivity. }
  assert (Hb2 : Py.contains "b2b platform" t = true -> Py.any_in platform t = true).
  { intros H. apply Hp. revert H. apply contains_trans. reflexivity. }
  assert (Hapi : Py.contains "api platform" t = true -> Py.any_in platform t = true).
  { intros H. apply Hp. revert H. apply contains_trans. reflexivity. }
  clear Hp. change (Py.any_in [] t) with false.
  destruct (Py.any_in single t), (Py.any_in platform t), (Py.any_in complex t),
    (Py.contains "enterprise" t), (Py.contains "automation platform" t),
    (Py.contains "b2b platform" t), (Py.contains "api platform" t);
    cbn [orb];
    try discriminate (He eq_refl); try discriminate (Hap eq_refl);
    try discriminate (Hb2 eq_refl); try discriminate (Hapi eq_refl);
    repeat split; try discriminate; reflexivity.
Qed.

Section CategoryFacts.
Import Scorer.

(** The first category with a keyword in the text wins. *)
Lemma first_category_spec (table : list (string * list string)) (text_lower : string) :
  match first_category table text_lower with
  | Some category =>
      exists before keywords after,
        table = before ++ (category, keywords) :: after /\
        Py.any_in keywords text_lower = true /\
        forall c k, In (c, k) before -> Py.any_in k text_lower = false
  | None => forall c k, In (c, k) table -> Py.any_in k text_lower = false
  end.
Proof.
  induction table as [| [category keywords] table IH]; simpl.
  - intros c k [].
  - destruct (Py.any_in keywords text_lower) eqn:Hk.
    + exists [], keywords, table. split; [reflexivity |]. split; [exact Hk |].
      intros c k [].
    + destruct (first_category table text_lower) as [category' |].
      * destruct IH as (before & keywords' & after & -> & Hk' & Hb).
        exists ((category, keywords) :: before), keywords', after.
        split; [reflexivity |]. split; [exact Hk' |].
        intros c k [H | H]; [injection H as <- <-; exact Hk | exact (Hb c k H)].
      * intros c k [H | H]; [injection H as <- <-; exact Hk | exact (IH c k H)].
Qed.

End CategoryFacts.

(** X28.  [_guess_category] answers the first category of its table with
    a keyword somewhere in the lowered text, and nothing when no keyword
    occurs.  Keywords are matched as substrings, so every text with the
    letters ai in it is an AI/ML Tool; the keyword email, which has them,
    never makes a Marketing Tool. *)
Theorem _guess_category_first_wins (text : string) :
  let text_lower := Py.lower text in
  (Scorer._guess_category text = None <->
   forall category keywords, In (category, keywords) Scorer.categories ->
                             Py.any_in keywords text_lower = false) /\
  (forall category, Scorer._guess_category text = Some category ->
     exists before keywords after,
       Scorer.categories = before ++ (category, keywords) :: after /\
       Py.any_in keywords text_lower = true /\
       forall c k, In (c, k) before -> Py.any_in k text_lower = false) /\
  (Py.contains "ai" text_lower = true ->
   Scorer._guess_category text = Some "AI/ML Tool") /\
  (Scorer._guess_category text = Some "Marketing Tool" ->
   Py.contains "email" text_lower = false /\
   Py.any_in ["marketing"; "newsletter"; "social media"; "ads"] text_lower = true).
Proof.
  cbv zeta. unfold Scorer._guess_category. set (t := Py.lower text).
  pose proof (first_category_spec Scorer.categories t) as Hspec.
  assert (Hai : Py.contains "ai" t = true ->
                Scorer.first_category Scorer.categories t = Some "AI/ML Tool").
  { intros H. unfold Scorer.categories. cbn [Scorer.first_category].
    rewrite any_in_cons, H. reflexivity. }
  split; [| split; [| split; [exact Hai |]]].
  - destruct (Scorer.first_category Scorer.categories t) as [category |].
    + split; [discriminate |]. intros Hnone. exfalso.
      destruct Hspec as (before & keywords & after & Heq & Hk & _).
      rewrite (Hnone category keywords) in Hk; [discriminate |].
      rewrite Heq. apply in_or_app. right. left. reflexivity.
    + split; [intros _; exact Hspec | reflexivity].
  - intros category Hc. rewrite Hc in Hspec. exact Hspec.
  - intros Hm.
    assert (Hno : Py.contains "ai" t = false).
    { destruct (Py.contains "ai" t); [| reflexivity].
      rewrite (Hai eq_refl) in Hm. discriminate Hm. }
    assert (Hemail : Py.contains "email" t = false).
    { destruct (Py.contains "email" t) eqn:He; [| reflexivity].
      rewrite (contains_trans "ai" "email" t eq_refl He) in Hno. discriminate Hno. }
    split; [exact Hemail |].
    revert Hm. unfold Scorer.categories. cbn [Scorer.first_category].
    repeat match goal with
           | |- context [if Py.any_in ?k t then _ else _] =>
               destruct (Py.any_in k t) eqn:?; try discriminate
           end.
    match goal with
    | H : Py.any_in ["marketing"; "email"; "newsletter"; "social media"; "ads"] t = true
      |- _ => rewrite !any_in_cons in H; rewrite Hemail in H;
              rewrite !any_in_cons; intros _; exact H
    end.
Qed.

(** ** The tweet's engagement rates *)

(** X29.  The engagement rates of a tweet never divide by zero:
    [TweetMetrics.engagement_rate] and [Tweet.calculate_engagement_rate]
    return for every input.  An impression count of zero passed explicitly
    counts as none given, and the stored count is used in its place; with a
    count that is not zero the rate is the total engagement over it. *)
Theorem tweet_engagement_rates_return (m : TwitterModels.TweetMetrics)
    (impressions : option Z) (t : TwitterModels.Tweet) :
  (exists rate, TwitterModels.engagement_rate m impressions = Some rate) /\
  (exists rate, TwitterModels.calculate_engagement_rate t = Some rate) /\
  TwitterModels.engagement_rate m (Some 0%Z) = TwitterModels.engagement_rate m None /\
  (forall i rate, i <> 0%Z ->
     TwitterModels.engagement_rate m (Some i) = Some rate ->
     (rate == inject_Z (TwitterModels.total_engagement m) / inject_Z i)%Q).
Proof.
  assert (Hdiv : forall a z, z <> 0%Z ->
            Py.truediv a (inject_Z z) = Some (Qred (a / inject_Z z))).
  { intros a z Hz. unfold Py.truediv.
    destruct (Qeq_bool (inject_Z z) 0) eqn:Hq; [| reflexivity].
    apply inject_Z_eq_0 in Hq. contradiction. }
  split; [| split; [| split]].
  - unfold TwitterModels.engagement_rate.
    destruct (_ =? 0)%Z eqn:Himp; [eauto |].
    apply Z.eqb_neq in Himp. rewrite (Hdiv _ _ Himp). eauto.
  - unfold TwitterModels.calculate_engagement_rate.
    destruct (TwitterModels.author t) as [a |]; [| eauto].
    destruct (TwitterModels.followers_count a =? 0)%Z eqn:Hf; [eauto |].
    apply Z.eqb_neq in Hf. rewrite (Hdiv _ _ Hf). eauto.
  - reflexivity.
  - intros i rate Hi. unfold TwitterModels.engagement_rate.
    destruct (i =? 0)%Z eqn:Hz; [apply Z.eqb_eq in Hz; contradiction |].
    rewrite Hz, (Hdiv _ _ Hi). intros H. injection H as <-. apply Qred_correct.
Qed.
